(** * Laxmi Silver backend: checkout, payment reconciliation and stock

    A shallow embedding of the order / payment core of the backend:

    - [src/services/payment.service.js]   (class PaymentService)
    - [src/controllers/payment.controller.js]
    - [src/controllers/order.controller.js]
    - [src/models/Order.model.js], [Product.model.js], [Cart.model.js],
      [Coupon.model.js]                   (schemas and pre-save hooks)
    - [src/app.js]                        (body parsers in front of the
                                           webhook route)

    Conventions of the embedding.

    - A MongoDB collection addressed by a unique key is a [gmap] from that
      key; the orders collection is a list in insertion order, because
      [countDocuments] and [findOne] by a non-key field observe it.
    - An [async] handler is a function from the database to a result and
      the database it leaves behind.  A thrown [ApiError] (or any other
      exception reaching [asyncHandler]) is the [Err] result; writes made
      before the throw stay in the returned database, as they do in the
      code, which uses no transactions.  Each handler runs alone; where
      two requests overlap, the interleaving is written out.
    - JavaScript numbers that count things (quantities, stock, usage
      counters, clock readings) are [Z]; amounts of money and weights are
      IEEE 754 doubles, [float], with the machine's arithmetic.
    - [save()] and [create()] validate the document before the pre-save
      hooks run.  The validators that a value computed by a handler, or
      taken from the request as it came, can fail are modelled:
      [required] on the order number of a new order, [min: 0] on
      [stock.quantity], and the cast and [min: 1] of the quantity of a
      cart line.  The other validated paths are copied from documents of
      the database or from a request body that its validator has
      checked, and are taken to satisfy their schemas.  The pre-save
      hooks are modelled, and so is the fact that [findByIdAndUpdate]
      and [findOneAndUpdate] run neither validators nor hooks; so is the
      unique index on [orderNumber].
    - Sending e-mail and logging leave the database alone and are left
      out; where a populated user document is dereferenced outside a
      [try], the resulting [TypeError] is modelled.
    - Node's HMAC-SHA256 is implemented, not assumed, so that signatures
      can be computed on concrete requests.

    The file has two parts: the definitions (the code, then the notions
    the statements use and a worked scenario), and the theorems. *)

From stdpp Require Import base option list gmap strings.
From Stdlib Require Import ZArith QArith Qround Qminmax Lia Lqa Ascii.
From Stdlib Require Import PrimFloat FloatOps SpecFloat FloatClass.
From Stdlib Require Import DecimalString DecimalN DecimalPos DecimalFacts.

#[local] Set Warnings "-register-all".
Local Open Scope string_scope.
Local Open Scope list_scope.
Local Open Scope Z_scope.

(* ===================================================================== *)
(** * Node's [crypto]: SHA-256, HMAC and hex digests                      *)
(* ===================================================================== *)

Module Crypto.

(** Bytes are integers in [0, 256); 32-bit words are integers in
    [0, 2^32) with the wrap-around written out. *)

Definition w32 (x : Z) : Z := x mod 4294967296.
Definition add32 (x y : Z) : Z := w32 (x + y).
Definition rotr (n x : Z) : Z :=
  Z.lor (Z.shiftr x n) (w32 (Z.shiftl x (32 - n))).
Definition not32 (x : Z) : Z := 4294967295 - x.

Definition Ch (x y z : Z) : Z := Z.lxor (Z.land x y) (Z.land (not32 x) z).
Definition Maj (x y z : Z) : Z :=
  Z.lxor (Z.lxor (Z.land x y) (Z.land x z)) (Z.land y z).
Definition bsig0 (x : Z) : Z := Z.lxor (Z.lxor (rotr 2 x) (rotr 13 x)) (rotr 22 x).
Definition bsig1 (x : Z) : Z := Z.lxor (Z.lxor (rotr 6 x) (rotr 11 x)) (rotr 25 x).
Definition ssig0 (x : Z) : Z := Z.lxor (Z.lxor (rotr 7 x) (rotr 18 x)) (Z.shiftr x 3).
Definition ssig1 (x : Z) : Z := Z.lxor (Z.lxor (rotr 17 x) (rotr 19 x)) (Z.shiftr x 10).

(** The round constants are the first 32 bits of the fractional parts of
    the cube roots of the first 64 primes, the initial hash value those of
    the square roots of the first 8 (FIPS 180-4, 4.2.2 and 5.3.3). *)
Definition primes64 : list Z :=
  [ 2; 3; 5; 7; 11; 13; 17; 19; 23; 29; 31; 37; 41; 43; 47; 53;
    59; 61; 67; 71; 73; 79; 83; 89; 97; 101; 103; 107; 109; 113; 127; 131;
    137; 139; 149; 151; 157; 163; 167; 173; 179; 181; 191; 193; 197; 199; 211; 223;
    227; 229; 233; 239; 241; 251; 257; 263; 269; 271; 277; 281; 283; 293; 307; 311 ].

(** The largest [r + k], [k < 2 ^ bits], whose cube is at most [n]. *)
Fixpoint cube_root_from (bits : nat) (n r : Z) : Z :=
  match bits with
  | O => r
  | S b =>
      let r' := r + 2 ^ Z.of_nat b in
      if r' * r' * r' <=? n then cube_root_from b n r' else cube_root_from b n r
  end.

Definition K256 : list Z :=
  Eval vm_compute in
    map (fun p => w32 (cube_root_from 36 (p * 2 ^ 96) 0)) primes64.

Definition H0 : list Z :=
  Eval vm_compute in
    map (fun p => w32 (Z.sqrt (p * 2 ^ 64))) (take 8 primes64).

(** Big-endian rendering of [x] on [n] bytes. *)
Fixpoint be_bytes (n : nat) (x : Z) : list Z :=
  match n with
  | O => []
  | S k => Z.shiftr x (8 * Z.of_nat k) mod 256 :: be_bytes k x
  end.

(** Message padding: a 1 bit, zeros up to 56 mod 64, the bit length on
    eight bytes. *)
Definition pad (msg : list Z) : list Z :=
  let len := Z.of_nat (length msg) in
  let zeros := Z.to_nat ((55 - len) mod 64) in
  msg ++ 128 :: replicate zeros 0 ++ be_bytes 8 (8 * len).

Fixpoint words (fuel : nat) (bs : list Z) : list Z :=
  match fuel, bs with
  | S k, b0 :: b1 :: b2 :: b3 :: rest =>
      (((b0 * 256 + b1) * 256 + b2) * 256 + b3) :: words k rest
  | _, _ => []
  end.

Fixpoint blocks (fuel : nat) (ws : list Z) : list (list Z) :=
  match fuel, ws with
  | S k, _ :: _ => take 16 ws :: blocks k (drop 16 ws)
  | _, _ => []
  end.

(** The message schedule, kept newest-first while it grows. *)
Fixpoint schedule (n : nat) (rev_w : list Z) : list Z :=
  match n with
  | O => rev_w
  | S k =>
      let at_ i := nth i rev_w 0 in
      let wt := add32 (add32 (add32 (ssig1 (at_ 1%nat)) (at_ 6%nat))
                             (ssig0 (at_ 14%nat))) (at_ 15%nat) in
      schedule k (wt :: rev_w)
  end.

Definition round (st : list Z) (kw : Z * Z) : list Z :=
  match st with
  | [a; b; c; d; e; f; g; h] =>
      let t1 := add32 (add32 (add32 (add32 h (bsig1 e)) (Ch e f g)) (fst kw)) (snd kw) in
      let t2 := add32 (bsig0 a) (Maj a b c) in
      [add32 t1 t2; a; b; c; add32 d t1; e; f; g]
  | _ => st
  end.

Definition compress (h : list Z) (block : list Z) : list Z :=
  let ws := rev (schedule 48 (rev block)) in
  let st := fold_left round (combine K256 ws) h in
  map (fun p => add32 (fst p) (snd p)) (combine h st).

Definition sha256 (msg : list Z) : list Z :=
  let padded := pad msg in
  let ws := words (length padded) padded in
  let hs := fold_left compress (blocks (length ws) ws) H0 in
  concat (map (be_bytes 4) hs).

(** [crypto.createHmac('sha256', key).update(msg).digest()] *)
Definition hmac_sha256 (key msg : list Z) : list Z :=
  let k0 := if (64 <? Z.of_nat (length key)) then sha256 key else key in
  let k := k0 ++ replicate (64 - length k0)%nat 0 in
  let ipad := map (Z.lxor 54) k in
  let opad := map (Z.lxor 92) k in
  sha256 (opad ++ sha256 (ipad ++ msg)).

Definition bytes_of_string (s : string) : list Z :=
  map (fun c => Z.of_N (N_of_ascii c)) (String.list_ascii_of_string s).

Definition hex_digit (d : Z) : ascii :=
  ascii_of_N (Z.to_N (if d <? 10 then 48 + d else 87 + d)).

(** [.digest('hex')]: two lower-case digits per byte. *)
Fixpoint hex (bs : list Z) : string :=
  match bs with
  | [] => EmptyString
  | b :: rest => String (hex_digit (b / 16)) (String (hex_digit (b mod 16)) (hex rest))
  end.

(** [crypto.createHmac('sha256', key).update(msg).digest('hex')] with a
    string key and a string message. *)
Definition hmac_hex (key msg : string) : string :=
  hex (hmac_sha256 (bytes_of_string key) (bytes_of_string msg)).

Definition sha256_hex (msg : string) : string :=
  hex (sha256 (bytes_of_string msg)).

End Crypto.

(* ===================================================================== *)
(** * JavaScript values that reach the webhook route                      *)
(* ===================================================================== *)

(** [n.toString()] for a non-negative integer, and for any integer. *)
Definition decimal (n : Z) : string :=
  NilEmpty.string_of_uint (N.to_uint (Z.to_N n)).

Definition decimal_int (n : Z) : string :=
  if n <? 0 then String "-" (decimal (- n)) else decimal n.

(** [s.padStart(width, '0')] *)
Definition padStart0 (width : nat) (s : string) : string :=
  String.string_of_list_ascii (replicate (width - String.length s) "0"%char) +:+ s.

(** A parsed request body.  Strings stand for their UTF-8 bytes. *)
Inductive JSON : Type :=
| JNull
| JBool (b : bool)
| JNum (n : Z)
| JStr (s : string)
| JArr (xs : list JSON)
| JObj (kvs : list (string * JSON)).

(** What [req.body] holds when [handleWebhook] runs: the [Buffer] left by
    [express.raw] when the request is [application/json], or whatever a
    later parser produced. *)
Inductive Body : Type :=
| BodyBuffer (raw : string)
| BodyParsed (j : JSON).

Module Json.

Definition hex4 (n : Z) : string :=
  String (Crypto.hex_digit (n / 4096 mod 16))
    (String (Crypto.hex_digit (n / 256 mod 16))
       (String (Crypto.hex_digit (n / 16 mod 16))
          (String (Crypto.hex_digit (n mod 16)) EmptyString))).

Definition dquote : ascii := "034"%char.

(** One character of ECMAScript's QuoteJSONString. *)
Definition escape_char (c : ascii) : string :=
  let n := Z.of_N (N_of_ascii c) in
  if n =? 34 then String "\"%char (String dquote EmptyString)
  else if n =? 92 then "\\"
  else if n =? 8 then "\b"
  else if n =? 12 then "\f"
  else if n =? 10 then "\n"
  else if n =? 13 then "\r"
  else if n =? 9 then "\t"
  else if n <? 32 then "\u" +:+ hex4 n
  else String c EmptyString.

Fixpoint escape (s : string) : string :=
  match s with
  | EmptyString => EmptyString
  | String c rest => escape_char c +:+ escape rest
  end.

Definition quote (s : string) : string :=
  String dquote (escape s +:+ String dquote EmptyString).

Fixpoint join (sep : string) (parts : list string) : string :=
  match parts with
  | [] => EmptyString
  | [p] => p
  | p :: rest => p +:+ sep +:+ join sep rest
  end.

(** [JSON.stringify(v)] without indentation. *)
Fixpoint stringify (v : JSON) : string :=
  match v with
  | JNull => "null"
  | JBool true => "true"
  | JBool false => "false"
  | JNum n => decimal_int n
  | JStr s => quote s
  | JArr xs => "[" +:+ join "," (map stringify xs) +:+ "]"
  | JObj kvs =>
      "{" +:+ join "," (map (fun kv => quote (fst kv) +:+ ":" +:+ stringify (snd kv)) kvs)
          +:+ "}"
  end.

(** [Buffer.prototype.toJSON]: what [JSON.stringify] sees of a Buffer. *)
Definition buffer_toJSON (raw : string) : JSON :=
  JObj [ ("type", JStr "Buffer");
         ("data", JArr (map JNum (Crypto.bytes_of_string raw))) ].

Definition stringify_body (b : Body) : string :=
  match b with
  | BodyBuffer raw => stringify (buffer_toJSON raw)
  | BodyParsed j => stringify j
  end.

Fixpoint assoc (k : string) (kvs : list (string * JSON)) : option JSON :=
  match kvs with
  | [] => None
  | (k', v) :: rest => if String.eqb k k' then Some v else assoc k rest
  end.

(** Property access [v.k].  The outer [option] is [None] when JavaScript
    throws a [TypeError] ([v] is [undefined] or [null]); the inner one is
    [None] when the property is [undefined]. *)
Definition prop (k : string) (v : option JSON) : option (option JSON) :=
  match v with
  | None | Some JNull => None
  | Some (JObj kvs) => Some (assoc k kvs)
  | Some _ => Some None
  end.

(** The properties of the body itself; a Buffer has none of the names
    the handler reads. *)
Definition body_prop (k : string) (b : Body) : option (option JSON) :=
  match b with
  | BodyBuffer _ => Some None
  | BodyParsed j => prop k (Some j)
  end.

(** A value stored into a [String] schema path, or used as an id: the
    gateway sends strings, anything else is taken as absent. *)
Definition asString (v : option JSON) : option string :=
  match v with
  | Some (JStr s) => Some s
  | _ => None
  end.

End Json.

(* ===================================================================== *)
(** * JavaScript numbers                                                  *)
(* ===================================================================== *)

(** An amount of money or a weight is a JavaScript number, that is an
    IEEE 754 double: [+], [-], [*], [/] and [<] are the operations of
    [float].  What follows are the library functions the handlers call on
    them. *)
Module Number.

(** The double nearest to an integer: the integer itself up to [2^53]. *)
Definition of_Z (z : Z) : float := SF2Prim (binary_normalize prec emax z 0 false).

Definition isNaN (x : float) : bool := negb (PrimFloat.eqb x x).

(** [if (x)]: a number is falsy when it is [0], [-0] or [NaN]. *)
Definition truthy (x : float) : bool := negb (PrimFloat.eqb x 0 || isNaN x).

(** [Math.round(x)]: the integer nearest to [x], a half going upwards;
    zeros, infinities and [NaN] are returned as they are, and a value
    that rounds to zero from below gives [-0].  A finite double is
    [m * 2^e] exactly, and an integer when [e] is not negative. *)
Definition round (x : float) : float :=
  match Prim2SF x with
  | S754_finite s m e =>
      if 0 <=? e then x
      else
        let v := if s then Z.neg m else Z.pos m in
        let n := (2 * v + 2 ^ (- e)) / 2 ^ (1 - e) in
        if n =? 0 then (if s then (-0)%float else 0%float) else of_Z n
  | _ => x
  end.

(** [Math.min(a, b)]: [NaN] when either is; [-0] is below [0]. *)
Definition min (a b : float) : float :=
  if isNaN a then a
  else if isNaN b then b
  else if PrimFloat.ltb a b then a
  else if PrimFloat.ltb b a then b
  else match classify a with
       | NZero => a
       | _ => b
       end.

End Number.

(* ===================================================================== *)
(** * Data model: the Mongoose schemas                                    *)
(* ===================================================================== *)

(** [constants/index.js] *)
Inductive OrderStatus : Set :=
  pending | confirmed | processing | shipped | delivered | cancelled | returned.

Inductive PaymentStatus : Set :=
  pay_pending | completed | failed | refunded.

Inductive PaymentMethod : Set := razorpay | cod.

Inductive DiscountType : Set := percentage | fixed.

#[global] Instance OrderStatus_eq_dec : EqDecision OrderStatus.
Proof. solve_decision. Defined.
#[global] Instance PaymentStatus_eq_dec : EqDecision PaymentStatus.
Proof. solve_decision. Defined.

Definition OrderStatus_str (s : OrderStatus) : string :=
  match s with
  | pending => "pending" | confirmed => "confirmed" | processing => "processing"
  | shipped => "shipped" | delivered => "delivered" | cancelled => "cancelled"
  | returned => "returned"
  end.

(** [Product.model.js]: the fields the handlers read or write. *)
Record Product : Type := mkProduct {
  p_name : string;
  p_weight : float;
  p_makingCharges : float;
  p_images : list string;
  p_stock_quantity : Z;
  p_stock_isInStock : bool;
  p_isActive : bool;
  p_views : Z
}.

(** [Cart.model.js] *)
Record CartItem : Type := mkCartItem {
  ci_productId : string;
  ci_quantity : Z;
  ci_price : float
}.

Record Cart : Type := mkCart {
  cart_items : list CartItem;
  cart_totalAmount : float
}.

(** [Coupon.model.js] *)
Record Coupon : Type := mkCoupon {
  c_discountType : DiscountType;
  c_discountValue : float;
  c_minOrderAmount : float;
  c_maxDiscountAmount : option float;
  c_usageLimit : option Z;
  c_usedCount : Z;
  c_isActive : bool;
  c_validFrom : Z;
  c_validUntil : Z
}.

(** [Order.model.js] *)
Record OrderItem : Type := mkOrderItem {
  oi_productId : string;
  oi_name : string;
  oi_quantity : Z;
  oi_price : float;
  oi_weight : float;
  oi_image : string
}.

Record Pricing : Type := mkPricing {
  pr_subtotal : float;
  pr_makingCharges : float;
  pr_gst : float;
  pr_shippingCharges : float;
  pr_discount : float;
  pr_total : float
}.

Record Payment : Type := mkPayment {
  pay_method : PaymentMethod;
  pay_status : PaymentStatus;
  pay_razorpayOrderId : option string;
  pay_razorpayPaymentId : option string;
  pay_razorpaySignature : option string;
  pay_paidAt : option Z
}.

Record HistoryEntry : Type := mkHistoryEntry {
  h_status : OrderStatus;
  h_note : option string;
  h_updatedBy : option string;
  h_timestamp : Z
}.

Record Tracking : Type := mkTracking {
  t_courier : option string;
  t_trackingNumber : option string
}.

Record Order : Type := mkOrder {
  o_id : string;
  o_orderNumber : string;
  o_userId : string;
  o_items : list OrderItem;
  o_pricing : Pricing;
  o_payment : Payment;
  o_status : OrderStatus;
  o_statusHistory : list HistoryEntry;
  o_tracking : Tracking;
  o_notes : option string;
  o_cancellationReason : option string
}.

(** The database: one field per collection.  Products are keyed by
    [_id], carts by [userId] and coupons by [code] (each a unique index of
    its schema).  [users] holds the ids of the user documents that exist,
    which is all [populate('userId', ...)] needs. *)
Record DB : Type := mkDB {
  products : gmap string Product;
  carts : gmap string Cart;
  coupons : gmap string Coupon;
  orders : list Order;
  users : gset string
}.

(** Functional updates of single fields. *)
Definition set_stock (q : Z) (inStock : bool) (p : Product) : Product :=
  mkProduct (p_name p) (p_weight p) (p_makingCharges p) (p_images p)
            q inStock (p_isActive p) (p_views p).

Definition set_cart_items (its : list CartItem) (c : Cart) : Cart :=
  mkCart its (cart_totalAmount c).

Definition set_usedCount (n : Z) (c : Coupon) : Coupon :=
  mkCoupon (c_discountType c) (c_discountValue c) (c_minOrderAmount c)
           (c_maxDiscountAmount c) (c_usageLimit c) n (c_isActive c)
           (c_validFrom c) (c_validUntil c).

Definition set_pay_status (s : PaymentStatus) (p : Payment) : Payment :=
  mkPayment (pay_method p) s (pay_razorpayOrderId p) (pay_razorpayPaymentId p)
            (pay_razorpaySignature p) (pay_paidAt p).

Definition set_payment (p : Payment) (o : Order) : Order :=
  mkOrder (o_id o) (o_orderNumber o) (o_userId o) (o_items o) (o_pricing o) p
          (o_status o) (o_statusHistory o) (o_tracking o) (o_notes o)
          (o_cancellationReason o).

Definition set_status (s : OrderStatus) (o : Order) : Order :=
  mkOrder (o_id o) (o_orderNumber o) (o_userId o) (o_items o) (o_pricing o)
          (o_payment o) s (o_statusHistory o) (o_tracking o) (o_notes o)
          (o_cancellationReason o).

Definition set_statusHistory (h : list HistoryEntry) (o : Order) : Order :=
  mkOrder (o_id o) (o_orderNumber o) (o_userId o) (o_items o) (o_pricing o)
          (o_payment o) (o_status o) h (o_tracking o) (o_notes o)
          (o_cancellationReason o).

Definition set_tracking (t : Tracking) (o : Order) : Order :=
  mkOrder (o_id o) (o_orderNumber o) (o_userId o) (o_items o) (o_pricing o)
          (o_payment o) (o_status o) (o_statusHistory o) t (o_notes o)
          (o_cancellationReason o).

Definition set_cancellationReason (r : option string) (o : Order) : Order :=
  mkOrder (o_id o) (o_orderNumber o) (o_userId o) (o_items o) (o_pricing o)
          (o_payment o) (o_status o) (o_statusHistory o) (o_tracking o) (o_notes o) r.

Definition set_orderNumber (n : string) (o : Order) : Order :=
  mkOrder (o_id o) n (o_userId o) (o_items o) (o_pricing o)
          (o_payment o) (o_status o) (o_statusHistory o) (o_tracking o) (o_notes o)
          (o_cancellationReason o).

Definition with_products (ps : gmap string Product) (db : DB) : DB :=
  mkDB ps (carts db) (coupons db) (orders db) (users db).
Definition with_carts (cs : gmap string Cart) (db : DB) : DB :=
  mkDB (products db) cs (coupons db) (orders db) (users db).
Definition with_coupons (cs : gmap string Coupon) (db : DB) : DB :=
  mkDB (products db) (carts db) cs (orders db) (users db).
Definition with_orders (os : list Order) (db : DB) : DB :=
  mkDB (products db) (carts db) (coupons db) os (users db).

(* ===================================================================== *)
(** * Handlers as state-and-error computations                            *)
(* ===================================================================== *)

(** [utils/ApiError]: a status code and a message.  Exceptions that are
    not [ApiError]s reach the error middleware as status 500. *)
Record ApiError : Type := mkApiError { statusCode : Z; message : string }.

Inductive Result (A : Type) : Type :=
| Ok (a : A)
| Err (e : ApiError).
Arguments Ok {A} a.
Arguments Err {A} e.

Definition M (A : Type) : Type := DB -> Result A * DB.

Definition ret {A} (a : A) : M A := fun db => (Ok a, db).
Definition throw {A} (e : ApiError) : M A := fun db => (Err e, db).
Definition bind {A B} (m : M A) (k : A -> M B) : M B :=
  fun db =>
    match m db with
    | (Ok a, db') => k a db'
    | (Err e, db') => (Err e, db')
    end.
Definition get_db : M DB := fun db => (Ok db, db).
Definition modify_db (f : DB -> DB) : M unit := fun db => (Ok tt, f db).

(** [try { m } catch (error) { h error }] *)
Definition try_catch {A} (m : M A) (h : ApiError -> M A) : M A :=
  fun db =>
    match m db with
    | (Ok a, db') => (Ok a, db')
    | (Err e, db') => h e db'
    end.

Declare Scope handler_scope.
Delimit Scope handler_scope with handler.
Notation "x <- m ;; k" := (bind m (fun x => k))
  (at level 100, m at next level, right associativity) : handler_scope.
Notation "m ;;; k" := (bind m (fun _ => k))
  (at level 100, right associativity) : handler_scope.
Local Open Scope handler_scope.

(** [for (const x of xs) { await body(x) }] *)
Fixpoint for_of {A} (xs : list A) (body : A -> M unit) : M unit :=
  match xs with
  | [] => ret tt
  | x :: rest => body x ;;; for_of rest body
  end.

(** A [TypeError] or other non-[ApiError] exception. *)
Definition internal_error : ApiError := mkApiError 500 "Internal Server Error".

(* ===================================================================== *)
(** * Model methods and pre-save hooks                                    *)
(* ===================================================================== *)

(** [Math.round(x * 100) / 100] *)
Definition round2 (x : float) : float := (Number.round (x * 100) / 100)%float.

(** The [ValidationError] of a failed validator, as the error middleware
    answers it: status 400, with the validator's message. *)
Definition validation_error (message : string) : ApiError := mkApiError 400 message.

Module ProductModel.

(** [productSchema.pre("save")]: update stock status. *)
Definition stock_hook (p : Product) : Product :=
  set_stock (p_stock_quantity p) (0 <? p_stock_quantity p) p.

Definition findById (id : string) : M (option Product) :=
  fun db => (Ok (products db !! id), db).

(** The validator [min: 0] of [stock.quantity]. *)
Definition below_minimum (quantity : Z) : ApiError :=
  validation_error ("Path `stock.quantity` (" +:+ decimal_int quantity
                    +:+ ") is less than minimum allowed value (0).").

(** [product.save()] of the document loaded under [id]: validation, then
    the pre-save hook, then the write. *)
Definition save (id : string) (p : Product) : M unit :=
  if p_stock_quantity p <? 0 then throw (below_minimum (p_stock_quantity p))
  else modify_db (fun db => with_products (<[id := stock_hook p]> (products db)) db).

(** [Product.findByIdAndUpdate(id, { $inc: { 'stock.quantity': n } })]:
    an update operator applied by the database; no document middleware
    runs. *)
Definition inc_stock (n : Z) (p : Product) : Product :=
  set_stock (p_stock_quantity p + n) (p_stock_isInStock p) p.

Definition findByIdAndUpdate_inc (id : string) (n : Z) : M unit :=
  modify_db (fun db => with_products (alter (inc_stock n) id (products db)) db).

End ProductModel.

Module CartModel.

Definition findOne (userId : string) : M (option Cart) :=
  fun db => (Ok (carts db !! userId), db).

(** [Cart.findOneAndUpdate({ userId }, { items: [] })], where [userId]
    is [None] when the populated user of the order is [null]: no cart
    has a null owner. *)
Definition findOneAndUpdate_clear (userId : option string) : M unit :=
  match userId with
  | Some u => modify_db (fun db => with_carts (alter (set_cart_items []) u (carts db)) db)
  | None => ret tt
  end.

End CartModel.

Module OrderModel.

Definition has_id (id : string) (o : Order) : bool := String.eqb (o_id o) id.

(** The stored document with this [_id]. *)
Definition stored (id : string) (db : DB) : option Order :=
  List.find (has_id id) (orders db).

Definition findById (id : string) : M (option Order) :=
  fun db => (Ok (stored id db), db).

(** [Order.findOne({ 'payment.razorpayPaymentId': pid })]: the first
    match in insertion order.  An [undefined] value is sent as [null],
    which matches the documents without the field. *)
Definition findOne_by_paymentId (pid : option string) : M (option Order) :=
  fun db =>
    (Ok (List.find (fun o => bool_decide (pay_razorpayPaymentId (o_payment o) = pid))
                   (orders db)), db).

(** [populate('userId', ...)]: the user document, or [null]. *)
Definition populated_user (o : Order) (db : DB) : option string :=
  if decide (o_userId o ∈ users db) then Some (o_userId o) else None.

Definition generateOrderNumber (now count : Z) : string :=
  "LS" +:+ decimal now +:+ padStart0 4 (decimal (count + 1)).

(** First [pre('save')] hook: generate the order number. *)
Definition orderNumber_hook (now : Z) (db : DB) (o : Order) : Order :=
  if String.eqb (o_orderNumber o) ""
  then set_orderNumber (generateOrderNumber now (Z.of_nat (length (orders db)))) o
  else o.

(** Second [pre('save')] hook: add the status to the history on update. *)
Definition statusHistory_hook (now : Z) (statusModified isNew : bool) (o : Order) : Order :=
  if statusModified && negb isNew
  then set_statusHistory (o_statusHistory o ++ [mkHistoryEntry (o_status o) None None now]) o
  else o.

Fixpoint replace (o : Order) (os : list Order) : list Order :=
  match os with
  | [] => []
  | o' :: rest =>
      if has_id (o_id o) o' then o :: rest else o' :: replace o rest
  end.

(** [order.save()] on a document that was loaded as [loaded] and has
    since been assigned to, giving [cur].  [isModified('status')] holds
    when the assigned status differs from the loaded one. *)
Definition save (now : Z) (loaded cur : Order) : M Order :=
  db <- get_db ;;
  let modified := negb (bool_decide (o_status cur = o_status loaded)) in
  let cur' := statusHistory_hook now modified false (orderNumber_hook now db cur) in
  modify_db (fun db => with_orders (replace cur' (orders db)) db) ;;;
  ret cur'.

Definition duplicate_key : ApiError := mkApiError 400 "orderNumber already exists".

(** Both hooks, run on a new document against the collection as the
    [countDocuments] of the first one sees it. *)
Definition pre_save_new (now : Z) (db : DB) (doc : Order) : Order :=
  statusHistory_hook now false true (orderNumber_hook now db doc).

(** The insert itself, which the unique index on [orderNumber] can
    refuse. *)
Definition insert (doc : Order) : M Order :=
  db <- get_db ;;
  if existsb (fun o => String.eqb (o_orderNumber o) (o_orderNumber doc)) (orders db)
  then throw duplicate_key
  else modify_db (fun db => with_orders (orders db ++ [doc]) db) ;;; ret doc.

(** The validator [required: true] of [orderNumber]; an order number
    that is not set is the empty string. *)
Definition orderNumber_required : ApiError :=
  validation_error "Path `orderNumber` is required.".

Definition validate (doc : Order) : M unit :=
  if String.eqb (o_orderNumber doc) "" then throw orderNumber_required else ret tt.

(** [Order.create(doc)] run on its own: validation, then the hooks, then
    the insert.  The hook that generates the order number runs after the
    validation that requires one. *)
Definition create (now : Z) (doc : Order) : M Order :=
  validate doc ;;;
  db <- get_db ;;
  insert (pre_save_new now db doc).

End OrderModel.

Module CouponModel.

Definition upper_char (c : ascii) : ascii :=
  let n := N_of_ascii c in
  if ((97 <=? n) && (n <=? 122))%N then ascii_of_N (n - 32) else c.

(** [s.toUpperCase()] on ASCII letters. *)
Fixpoint toUpperCase (s : string) : string :=
  match s with
  | EmptyString => EmptyString
  | String c rest => String (upper_char c) (toUpperCase rest)
  end.

(** [Coupon.findOne({ code, isActive: true, validFrom: { $lte: now },
    validUntil: { $gte: now } })] *)
Definition findOne (code : string) (now : Z) : M (option Coupon) :=
  fun db =>
    (Ok (match coupons db !! code with
         | Some c =>
             if c_isActive c && (c_validFrom c <=? now) && (now <=? c_validUntil c)
             then Some c else None
         | None => None
         end), db).

Definition save (code : string) (c : Coupon) : M unit :=
  modify_db (fun db => with_coupons (<[code := c]> (coupons db)) db).

End CouponModel.

(* ===================================================================== *)
(** * [services/payment.service.js]                                       *)
(* ===================================================================== *)

(** [process.env] *)
Record Env : Type := mkEnv {
  RAZORPAY_KEY_SECRET : string;
  RAZORPAY_WEBHOOK_SECRET : string
}.

Record PaymentDetails : Type := mkPaymentDetails {
  pd_razorpayOrderId : option string;
  pd_razorpayPaymentId : option string;
  pd_razorpaySignature : option string
}.

Module PaymentService.

Definition verifyPaymentSignature (env : Env)
    (razorpayOrderId razorpayPaymentId razorpaySignature : string) : bool :=
  let text := razorpayOrderId +:+ "|" +:+ razorpayPaymentId in
  let generatedSignature := Crypto.hmac_hex (RAZORPAY_KEY_SECRET env) text in
  String.eqb generatedSignature razorpaySignature.

(** [webhookSignature] is [None] when the header is absent. *)
Definition verifyWebhookSignature (env : Env)
    (webhookBody : Body) (webhookSignature : option string) : bool :=
  let expectedSignature :=
    Crypto.hmac_hex (RAZORPAY_WEBHOOK_SECRET env) (Json.stringify_body webhookBody) in
  match webhookSignature with
  | Some sig => String.eqb expectedSignature sig
  | None => false
  end.

Definition processing_failed : ApiError :=
  mkApiError 500 "Failed to process payment. Please contact support.".

(** The stock loop shared, as text, by [processSuccessfulPayment] and
    [updateOrderStatus]: load, decrement, save. *)
Definition decrement_stock (item : OrderItem) : M unit :=
  product <- ProductModel.findById (oi_productId item) ;;
  match product with
  | Some p =>
      ProductModel.save (oi_productId item)
        (set_stock (p_stock_quantity p - oi_quantity item) (p_stock_isInStock p) p)
  | None => ret tt
  end.

(** [order] is the document as loaded (and populated) by the caller. *)
Definition processSuccessfulPayment (now : Z) (order : Order)
    (paymentDetails : PaymentDetails) : M Order :=
  try_catch
    (let payment :=
       mkPayment (pay_method (o_payment order)) completed
                 (pd_razorpayOrderId paymentDetails)
                 (pd_razorpayPaymentId paymentDetails)
                 (pd_razorpaySignature paymentDetails)
                 (Some now) in
     saved <- OrderModel.save now order (set_status confirmed (set_payment payment order)) ;;
     for_of (o_items saved) decrement_stock ;;;
     db <- get_db ;;
     CartModel.findOneAndUpdate_clear (OrderModel.populated_user saved db) ;;;
     ret saved)
    (fun _ => throw processing_failed).

Definition refund_failed : ApiError :=
  mkApiError 500 "Failed to initiate refund. Please try again.".

(** [razorpayInstance.payments.refund] is the gateway's: [gateway] gives
    the refund id, or [None] when the call throws. *)
Definition initiateRefund (gateway : string -> float -> option string -> option string)
    (paymentId : string) (amount : float) (reason : option string) : M string :=
  match gateway paymentId amount reason with
  | Some refundId => ret refundId
  | None => throw refund_failed
  end.

End PaymentService.

(* ===================================================================== *)
(** * [controllers/payment.controller.js]                                 *)
(* ===================================================================== *)

Record VerifyBody : Type := mkVerifyBody {
  vb_orderId : string;
  vb_razorpayOrderId : string;
  vb_razorpayPaymentId : string;
  vb_razorpaySignature : string
}.

Definition truthy (s : option string) : bool :=
  match s with
  | Some s => negb (String.eqb s "")
  | None => false
  end.

(** [a || b] on optional strings. *)
Definition or_else (a b : option string) : option string :=
  if truthy a then a else b.

Definition verifyPayment (env : Env) (now : Z) (user : string) (body : VerifyBody) : M Order :=
  found <- OrderModel.findById (vb_orderId body) ;;
  match found with
  | None => throw (mkApiError 404 "Order not found")
  | Some order =>
      db <- get_db ;;
      match OrderModel.populated_user order db with
      | None => throw internal_error
      | Some owner =>
          if negb (String.eqb owner user)
          then throw (mkApiError 403 "Not authorized to access this order")
          else
            let isValid :=
              PaymentService.verifyPaymentSignature env
                (vb_razorpayOrderId body) (vb_razorpayPaymentId body)
                (vb_razorpaySignature body) in
            if negb isValid
            then
              OrderModel.save now order
                (set_payment (set_pay_status failed (o_payment order)) order) ;;;
              throw (mkApiError 400 "Payment verification failed. Invalid signature.")
            else
              PaymentService.processSuccessfulPayment now order
                (mkPaymentDetails (Some (vb_razorpayOrderId body))
                                  (Some (vb_razorpayPaymentId body))
                                  (Some (vb_razorpaySignature body)))
      end
  end.

(** Lift a property access into the handler: a [TypeError] is thrown. *)
Definition access (r : option (option JSON)) : M (option JSON) :=
  match r with
  | Some v => ret v
  | None => throw internal_error
  end.

(** [Order.findById(v)] for a value out of a payload: a non-string finds
    nothing (it is [undefined], or fails the ObjectId cast inside the
    handler's [try]). *)
Definition findById_value (v : option JSON) : M (option Order) :=
  match Json.asString v with
  | Some id => OrderModel.findById id
  | None => ret None
  end.

Definition handlePaymentCaptured (now : Z) (payload : option JSON) : M unit :=
  try_catch
    (notes <- access (Json.prop "notes" payload) ;;
     orderId <- access (Json.prop "orderId" notes) ;;
     found <- findById_value orderId ;;
     match found with
     | None => ret tt
     | Some order =>
         if bool_decide (pay_status (o_payment order) = completed)
         then ret tt
         else
           order_id <- access (Json.prop "order_id" payload) ;;
           id <- access (Json.prop "id" payload) ;;
           PaymentService.processSuccessfulPayment now order
             (mkPaymentDetails (Json.asString order_id) (Json.asString id) (Some "")) ;;;
           ret tt
     end)
    (fun _ => ret tt).

Definition handlePaymentFailed (now : Z) (payload : option JSON) : M unit :=
  try_catch
    (notes <- access (Json.prop "notes" payload) ;;
     orderId <- access (Json.prop "orderId" notes) ;;
     found <- findById_value orderId ;;
     match found with
     | Some order =>
         OrderModel.save now order
           (set_payment (set_pay_status failed (o_payment order)) order) ;;;
         ret tt
     | None => ret tt
     end)
    (fun _ => ret tt).

Definition handleRefundProcessed (now : Z) (payload : option JSON) : M unit :=
  try_catch
    (paymentId <- access (Json.prop "payment_id" payload) ;;
     found <- OrderModel.findOne_by_paymentId (Json.asString paymentId) ;;
     match found with
     | Some order =>
         OrderModel.save now order
           (set_payment (set_pay_status refunded (o_payment order)) order) ;;;
         ret tt
     | None => ret tt
     end)
    (fun _ => ret tt).

Definition handleWebhook (env : Env) (now : Z)
    (webhookSignature : option string) (webhookBody : Body) : M unit :=
  let isValid := PaymentService.verifyWebhookSignature env webhookBody webhookSignature in
  if negb isValid
  then throw (mkApiError 400 "Invalid webhook signature")
  else
    event <- access (Json.body_prop "event" webhookBody) ;;
    payload0 <- access (Json.body_prop "payload" webhookBody) ;;
    payment <- access (Json.prop "payment" payload0) ;;
    payload <- access (Json.prop "entity" payment) ;;
    match event with
    | Some (JStr "payment.captured") => handlePaymentCaptured now payload
    | Some (JStr "payment.failed") => handlePaymentFailed now payload
    | Some (JStr "refund.processed") =>
        refund <- access (Json.prop "refund" payload0) ;;
        entity <- access (Json.prop "entity" refund) ;;
        handleRefundProcessed now entity
    | _ => ret tt
    end.

(** [app.js] mounts [/api/v1/payments/webhook] behind
    [express.raw({ type: 'application/json' })], ahead of [express.json]:
    for a JSON request the handler's [req.body] is the Buffer of the bytes
    received, which the later parsers leave alone. *)
Definition express_raw (raw : string) : Body := BodyBuffer raw.

Definition webhook_route (env : Env) (now : Z)
    (webhookSignature : option string) (raw : string) : M unit :=
  handleWebhook env now webhookSignature (express_raw raw).

Definition initiateRefund (gateway : string -> float -> option string -> option string) (now : Z)
    (orderId : string) (reason : option string) : M (string * Order) :=
  found <- OrderModel.findById orderId ;;
  match found with
  | None => throw (mkApiError 404 "Order not found")
  | Some order =>
      if negb (bool_decide (pay_status (o_payment order) = completed))
      then throw (mkApiError 400 "Cannot refund order that is not paid")
      else if bool_decide (pay_status (o_payment order) = refunded)
      then throw (mkApiError 400 "Order is already refunded")
      else if negb (truthy (pay_razorpayPaymentId (o_payment order)))
      then throw (mkApiError 400 "No payment ID found for this order")
      else
        refund <- PaymentService.initiateRefund gateway
                    (default "" (pay_razorpayPaymentId (o_payment order)))
                    (pr_total (o_pricing order)) reason ;;
        saved <- OrderModel.save now order
                   (set_cancellationReason
                      (or_else reason (Some "Refund initiated by admin"))
                      (set_status cancelled
                         (set_payment (set_pay_status refunded (o_payment order)) order))) ;;
        for_of (o_items saved)
               (fun item => ProductModel.findByIdAndUpdate_inc (oi_productId item)
                                                               (oi_quantity item)) ;;;
        ret (refund, saved)
  end.

(* ===================================================================== *)
(** * [controllers/order.controller.js]                                   *)
(* ===================================================================== *)

Record CreateOrderBody : Type := mkCreateOrderBody {
  cb_paymentMethod : PaymentMethod;
  cb_couponCode : option string;
  cb_notes : option string
}.

(** [cart.populate('items.productId')]: each line with its product
    document, or [null]. *)
Definition populate_items (db : DB) (items : list CartItem)
  : list (CartItem * option Product) :=
  map (fun item => (item, products db !! ci_productId item)) items.

Definition product_unavailable (name : string) : ApiError :=
  mkApiError 400 ("Product " +:+ Json.quote name +:+ " is no longer available").

Definition insufficient_stock (name : string) (available : Z) : ApiError :=
  mkApiError 400 ("Insufficient stock for " +:+ Json.quote name
                  +:+ ". Available: " +:+ decimal_int available).

(** The validation loop.  On success every line carries its product. *)
Fixpoint validate_stock (items : list (CartItem * option Product))
  : Result (list (CartItem * Product)) :=
  match items with
  | [] => Ok []
  | (item, None) :: _ => Err (mkApiError 400 "One or more products no longer exist")
  | (item, Some p) :: rest =>
      if negb (p_isActive p) then Err (product_unavailable (p_name p))
      else if p_stock_quantity p <? ci_quantity item
      then Err (insufficient_stock (p_name p) (p_stock_quantity p))
      else match validate_stock rest with
           | Ok lines => Ok ((item, p) :: lines)
           | Err e => Err e
           end
  end.

Definition lift {A} (r : Result A) : M A := fun db => (r, db).

Definition line_total (l : CartItem * Product) : float :=
  (ci_price (fst l) * Number.of_Z (ci_quantity (fst l)))%float.
Definition line_making (l : CartItem * Product) : float :=
  (p_makingCharges (snd l) * Number.of_Z (ci_quantity (fst l)))%float.
Definition line_weight (l : CartItem * Product) : float :=
  (p_weight (snd l) * Number.of_Z (ci_quantity (fst l)))%float.

(** The three accumulators of the [map] callback. *)
Definition sum_lines (f : CartItem * Product -> float)
    (lines : list (CartItem * Product)) : float :=
  fold_left (fun acc l => (acc + f l)%float) lines 0%float.

Definition order_item (l : CartItem * Product) : OrderItem :=
  mkOrderItem (ci_productId (fst l)) (p_name (snd l)) (ci_quantity (fst l))
              (ci_price (fst l)) (p_weight (snd l))
              (default "" (head (p_images (snd l)))).

Definition gst_of (subtotal makingCharges : float) : float :=
  ((subtotal + makingCharges) * 3 / 100)%float.

Definition shipping_of (totalWeight : float) : float :=
  if (100 <? totalWeight)%float then 200%float
  else if (50 <? totalWeight)%float then 150%float
  else 100%float.

(** The coupon block: the discount, after the usage counter was saved.
    (The message of the minimum-amount error also names the amount.) *)
Definition apply_coupon (now : Z) (couponCode : option string) (orderSubtotal : float)
  : M float :=
  if truthy couponCode then
    let code := CouponModel.toUpperCase (default "" couponCode) in
    found <- CouponModel.findOne code now ;;
    match found with
    | None => throw (mkApiError 400 "Invalid or expired coupon code")
    | Some coupon =>
        if match c_usageLimit coupon with
           | Some limit => negb (limit =? 0) && (limit <=? c_usedCount coupon)
           | None => false
           end
        then throw (mkApiError 400 "Coupon usage limit has been reached")
        else if (orderSubtotal <? c_minOrderAmount coupon)%float
        then throw (mkApiError 400 "Minimum order amount required for this coupon")
        else
          let discount :=
            match c_discountType coupon with
            | percentage =>
                let d := (orderSubtotal * c_discountValue coupon / 100)%float in
                match c_maxDiscountAmount coupon with
                | Some cap => if Number.truthy cap then Number.min d cap else d
                | None => d
                end
            | fixed => c_discountValue coupon
            end in
          CouponModel.save code (set_usedCount (c_usedCount coupon + 1) coupon) ;;;
          ret discount
    end
  else ret 0%float.

Definition empty_cart : ApiError :=
  mkApiError 400 "Cart is empty. Please add items to cart first".

(** The document that [createOrder] hands to [Order.create]; [newId] is
    the [_id] Mongoose gives it.  No order number is set. *)
Definition new_order (newId user : string) (body : CreateOrderBody)
    (lines : list (CartItem * Product)) (discount : float) : Order :=
  let subtotal := sum_lines line_total lines in
  let makingCharges := sum_lines line_making lines in
  let totalWeight := sum_lines line_weight lines in
  let gst := gst_of subtotal makingCharges in
  let shippingCharges := shipping_of totalWeight in
  let total := (subtotal + makingCharges + gst + shippingCharges - discount)%float in
  mkOrder newId "" user (map order_item lines)
    (mkPricing (round2 subtotal) (round2 makingCharges) (round2 gst)
               shippingCharges (round2 discount) (round2 total))
    (mkPayment (cb_paymentMethod body) pay_pending None None None None)
    pending [] (mkTracking None None) (cb_notes body) None.

Definition createOrder (now : Z) (newId : string) (user : string)
    (body : CreateOrderBody) : M Order :=
  cart <- CartModel.findOne user ;;
  match cart with
  | None => throw empty_cart
  | Some cart =>
      if (length (cart_items cart) =? 0)%nat then throw empty_cart
      else
        db <- get_db ;;
        lines <- lift (validate_stock (populate_items db (cart_items cart))) ;;
        let subtotal := sum_lines line_total lines in
        let makingCharges := sum_lines line_making lines in
        let totalWeight := sum_lines line_weight lines in
        let gst := gst_of subtotal makingCharges in
        let shippingCharges := shipping_of totalWeight in
        discount <- apply_coupon now (cb_couponCode body)
                      (subtotal + makingCharges + gst + shippingCharges)%float ;;
        OrderModel.create now (new_order newId user body lines discount)
  end.

Definition cancelOrder (now : Z) (user : string) (id : string)
    (reason : option string) : M Order :=
  found <- OrderModel.findById id ;;
  match found with
  | None => throw (mkApiError 404 "Order not found")
  | Some order =>
      if negb (String.eqb (o_userId order) user)
      then throw (mkApiError 403 "Not authorized to cancel this order")
      else
        match o_status order with
        | shipped | delivered | cancelled =>
            throw (mkApiError 400 ("Cannot cancel order with status: "
                                   +:+ OrderStatus_str (o_status order)))
        | _ =>
            saved <- OrderModel.save now order
                       (set_cancellationReason
                          (or_else reason (Some "Cancelled by customer"))
                          (set_status cancelled order)) ;;
            (if bool_decide (pay_status (o_payment saved) = completed)
             then for_of (o_items saved)
                    (fun item => ProductModel.findByIdAndUpdate_inc (oi_productId item)
                                                                    (oi_quantity item))
             else ret tt) ;;;
            ret saved
        end
  end.

Record StatusBody : Type := mkStatusBody {
  sb_status : option OrderStatus;
  sb_note : option string;
  sb_trackingNumber : option string;
  sb_courier : option string
}.

Definition updateOrderStatus (now : Z) (admin : string) (id : string)
    (body : StatusBody) : M Order :=
  match sb_status body with
  | None => throw (mkApiError 400 "Status is required")
  | Some status =>
      found <- OrderModel.findById id ;;
      match found with
      | None => throw (mkApiError 404 "Order not found")
      | Some order =>
          let oldStatus := o_status order in
          let note :=
            or_else (sb_note body)
              (Some ("Status changed from " +:+ OrderStatus_str oldStatus
                     +:+ " to " +:+ OrderStatus_str status)) in
          let pushed :=
            set_statusHistory
              (o_statusHistory order ++ [mkHistoryEntry status note (Some admin) now])
              (set_status status order) in
          let tracked :=
            if bool_decide (status = shipped)
               && (truthy (sb_trackingNumber body) || truthy (sb_courier body))
            then set_tracking
                   (mkTracking
                      (or_else (sb_courier body) (t_courier (o_tracking order)))
                      (or_else (sb_trackingNumber body) (t_trackingNumber (o_tracking order))))
                   pushed
            else pushed in
          (if bool_decide (status = confirmed) && bool_decide (oldStatus = pending)
           then
             for_of (o_items tracked) PaymentService.decrement_stock ;;;
             db <- get_db ;;
             match OrderModel.populated_user order db with
             | Some owner => CartModel.findOneAndUpdate_clear (Some owner)
             | None => throw internal_error
             end
           else ret tt) ;;;
          OrderModel.save now order tracked
      end
  end.

(* ===================================================================== *)
(** * Notions the statements are written with                            *)
(* ===================================================================== *)

(** Databases the code can reach: [_id] is unique, and every stored
    order went through the order-number hook. *)
Definition well_formed (db : DB) : Prop :=
  NoDup (map o_id (orders db))
  /\ Forall (fun o => o_orderNumber o <> "") (orders db).

(** A cart line that the current catalogue cannot serve: its product is
    gone, inactive, or short of stock. *)
Definition unavailable (db : DB) (item : CartItem) : Prop :=
  match products db !! ci_productId item with
  | None => True
  | Some p => p_isActive p = false \/ p_stock_quantity p < ci_quantity item
  end.

Definition available (db : DB) (item : CartItem) : Prop :=
  exists p, products db !! ci_productId item = Some p
            /\ p_isActive p = true /\ ci_quantity item <= p_stock_quantity p.




(** Units of product [pid] on the lines of an order. *)
Definition ordered_quantity (pid : string) (items : list OrderItem) : Z :=
  foldr (fun item acc =>
           if String.eqb (oi_productId item) pid then oi_quantity item + acc else acc)
        0 items.

(** The stock covers the lines of an order: no line asks for a negative
    quantity, and every product holds at least the units the lines ask
    of it. *)
Definition stock_covers (db : DB) (items : list OrderItem) : Prop :=
  Forall (fun item => 0 <= oi_quantity item) items
  /\ map_Forall (fun pid p => ordered_quantity pid items <= p_stock_quantity p)
                (products db).

(** The restore loop of [initiateRefund] and [cancelOrder]. *)
Definition restore_stock (items : list OrderItem) : M unit :=
  for_of items
    (fun item => ProductModel.findByIdAndUpdate_inc (oi_productId item) (oi_quantity item)).

(** The lines of a cart together with their product documents, as the
    pricing code sees them once validation has passed. *)
Definition cart_lines (db : DB) (cart : Cart) : list (CartItem * Product) :=
  match validate_stock (populate_items db (cart_items cart)) with
  | Ok lines => lines
  | Err _ => []
  end.

(** The amount the coupon block is given: the total before discount. *)
Definition pre_discount_total (lines : list (CartItem * Product)) : float :=
  let subtotal := sum_lines line_total lines in
  let makingCharges := sum_lines line_making lines in
  (subtotal + makingCharges + gst_of subtotal makingCharges
   + shipping_of (sum_lines line_weight lines))%float.

(** The number a string of digits denotes; leading zeros do not count. *)
Definition digit_value (s : string) : option N :=
  option_map N.of_uint (NilEmpty.uint_of_string s).

(** A numeral that does not start with the digit 0. *)
Definition leading_nonzero (d : Decimal.uint) : Prop :=
  match d with
  | Decimal.Nil | Decimal.D0 _ => False
  | _ => True
  end.

(** [isInStock] agrees with [quantity > 0]. *)
Definition stock_flag_ok (p : Product) : Prop :=
  p_stock_isInStock p = (0 <? p_stock_quantity p).

(** What the decrement loop makes of a stored product: untouched when no
    line names it; otherwise [n] units fewer, with the flag recomputed by
    the save hook. *)
Definition decremented (touched : bool) (n : Z) (p : Product) : Product :=
  if touched
  then set_stock (p_stock_quantity p - n) (0 <? p_stock_quantity p - n) p
  else p.

Definition names (pid : string) (items : list OrderItem) : bool :=
  bool_decide (pid ∈ map oi_productId items).

(* ===================================================================== *)
(** * A worked scenario                                                   *)
(* ===================================================================== *)

Module Scenario.

Definition env : Env := mkEnv "key_secret" "webhook_secret".
Definition now : Z := 1700000000000.

(** Product A: making charges 50 and weight 10 per unit, 5 in stock.
    Product B: 2 in stock. *)
Definition productA : Product := mkProduct "Ring" 10 50 ["a.png"] 5 true true 0.
Definition productB : Product := mkProduct "Coin" 1 0 [] 2 true true 0.

Definition cart1 : Cart := mkCart [mkCartItem "pA" 2 1000] 2000.
Definition cart2 : Cart := mkCart [mkCartItem "pB" 2 500] 1000.

Definition db0 : DB :=
  mkDB {[ "pA" := productA; "pB" := productB ]}
       {[ "u1" := cart1; "u2" := cart2 ]}
       ∅ [] {[ "u1"; "u2" ]}.

Definition checkout : CreateOrderBody := mkCreateOrderBody razorpay None None.

(** The orders that checkout builds for the two carts, [o1] and [o2],
    stored pending under the numbers the pre-save hook gives them: the
    collection of a deployment in which the documents get past
    validation. *)
Definition place (newId user : string) (db : DB) : DB :=
  snd (OrderModel.insert
         (OrderModel.pre_save_new now db
            (new_order newId user checkout
               (cart_lines db (default (mkCart [] 0) (carts db !! user))) 0))
         db).

Definition db1 : DB := place "o1" "u1" db0.
Definition db2 : DB := place "o2" "u2" db1.

(** The [payment.captured] event for [o1]. *)
Definition captured : JSON :=
  JObj [ ("event", JStr "payment.captured");
         ("payload",
          JObj [ ("payment",
                  JObj [ ("entity",
                          JObj [ ("id", JStr "pay_1");
                                 ("order_id", JStr "order_1");
                                 ("notes", JObj [ ("orderId", JStr "o1") ]) ]) ]) ]) ].

Definition signed (body : JSON) : option string :=
  Some (Crypto.hmac_hex (RAZORPAY_WEBHOOK_SECRET env) (Json.stringify body)).

Definition verify_body (orderId gatewayOrder gatewayPayment : string) : VerifyBody :=
  mkVerifyBody orderId gatewayOrder gatewayPayment
    (Crypto.hmac_hex (RAZORPAY_KEY_SECRET env) (gatewayOrder +:+ "|" +:+ gatewayPayment)).

(** First delivery of the payment of [o1], by either entry point. *)
Definition after_webhook : DB :=
  snd (handleWebhook env now (signed captured) (BodyParsed captured) db2).
Definition after_verify : DB :=
  snd (verifyPayment env now "u1" (verify_body "o1" "order_1" "pay_1") db2).

(** The customer puts one more ring in the cart. *)
Definition shopping_again (db : DB) : DB :=
  with_carts (<[ "u1" := mkCart [mkCartItem "pA" 1 1000] 1000 ]> (carts db)) db.

(** Second delivery. *)
Definition webhook_then_webhook : DB :=
  snd (handleWebhook env now (signed captured) (BodyParsed captured)
         (shopping_again after_webhook)).
Definition webhook_then_verify : DB :=
  snd (verifyPayment env now "u1" (verify_body "o1" "order_1" "pay_1")
         (shopping_again after_webhook)).
Definition verify_then_verify : DB :=
  snd (verifyPayment env now "u1" (verify_body "o1" "order_1" "pay_1")
         (shopping_again after_verify)).

Definition stock_of (pid : string) (db : DB) : option Z :=
  p_stock_quantity <$> products db !! pid.
Definition flag_of (pid : string) (db : DB) : option bool :=
  p_stock_isInStock <$> products db !! pid.
Definition cart_of (user : string) (db : DB) : option (list CartItem) :=
  cart_items <$> carts db !! user.
Definition payment_status_of (id : string) (db : DB) : option PaymentStatus :=
  (fun o => pay_status (o_payment o)) <$> OrderModel.stored id db.
Definition history_of (id : string) (db : DB) : option (list HistoryEntry) :=
  o_statusHistory <$> OrderModel.stored id db.

(** [o2] is paid, which empties the stock of product B, and then
    refunded by the admin, or cancelled by the customer. *)
Definition gateway_ok : string -> float -> option string -> option string :=
  fun _ _ _ => Some "rfnd_1".
Definition paid2 : DB :=
  snd (verifyPayment env now "u2" (verify_body "o2" "order_2" "pay_2") db2).
Definition refunded2 : DB := snd (initiateRefund gateway_ok now "o2" None paid2).
Definition cancelled2 : DB := snd (cancelOrder now "u2" "o2" None paid2).

End Scenario.

Definition blank_order (id user : string) : Order :=
  mkOrder id "" user [] (mkPricing 0 0 0 0 0 0)
          (mkPayment razorpay pay_pending None None None None)
          pending [] (mkTracking None None) None None.

(** Order [o1] as stored while pending, and order [o2] as stored once
    paid. *)
Definition pending_order1 : Order :=
  Eval vm_compute in
    default (blank_order "" "") (OrderModel.stored "o1" Scenario.db2).

Definition paid_order2 : Order :=
  Eval vm_compute in
    default (blank_order "" "") (OrderModel.stored "o2" Scenario.paid2).

(* ===================================================================== *)
(** * Further code: payment intents, catalogue views                      *)
(* ===================================================================== *)

(** [Math.round(amount * 100)]: an amount in paise. *)
Definition paise (amount : float) : float := Number.round (amount * 100).

(** The [options] that [createRazorpayOrder] sends, and the gateway's
    order as far as the controller reads it. *)
Record RazorpayOptions : Type := mkRazorpayOptions {
  ro_amount : float;
  ro_currency : string;
  ro_receipt : string;
  ro_notes_orderId : string;
  ro_notes_userId : string;
  ro_notes_orderNumber : string
}.

Record RazorpayOrder : Type := mkRazorpayOrder {
  rzp_id : string;
  rzp_amount : float;
  rzp_currency : string
}.

Definition razorpay_options (order : Order) : RazorpayOptions :=
  mkRazorpayOptions (paise (pr_total (o_pricing order))) "INR" (o_orderNumber order)
                    (o_id order) (o_userId order) (o_orderNumber order).

Definition intent_failed : ApiError :=
  mkApiError 500 "Failed to create payment order. Please try again.".

(** [PaymentService.createRazorpayOrder]: [razorpayInstance.orders.create]
    is the gateway's; [gateway] gives its order, or [None] when the call
    throws. *)
Definition createRazorpayOrder (gateway : RazorpayOptions -> option RazorpayOrder)
    (order : Order) : M RazorpayOrder :=
  match gateway (razorpay_options order) with
  | Some razorpayOrder => ret razorpayOrder
  | None => throw intent_failed
  end.

Definition set_razorpayOrderId (id : option string) (p : Payment) : Payment :=
  mkPayment (pay_method p) (pay_status p) id (pay_razorpayPaymentId p)
            (pay_razorpaySignature p) (pay_paidAt p).

(** [payment.controller.js], [createPaymentOrder] *)
Definition createPaymentOrder (gateway : RazorpayOptions -> option RazorpayOrder)
    (now : Z) (user : string) (orderId : string) : M (Order * RazorpayOrder) :=
  found <- OrderModel.findById orderId ;;
  match found with
  | None => throw (mkApiError 404 "Order not found")
  | Some order =>
      if negb (String.eqb (o_userId order) user)
      then throw (mkApiError 403 "Not authorized to access this order")
      else if bool_decide (pay_status (o_payment order) = completed)
      then throw (mkApiError 400 "Order is already paid")
      else
        match pay_method (o_payment order) with
        | cod =>
            throw (mkApiError 400 "This order does not use Razorpay as payment method")
        | razorpay =>
            razorpayOrder <- createRazorpayOrder gateway order ;;
            saved <- OrderModel.save now order
                       (set_payment
                          (set_razorpayOrderId (Some (rzp_id razorpayOrder)) (o_payment order))
                          order) ;;
            ret (saved, razorpayOrder)
        end
  end.

(** [product.controller.js]: the two handlers that save a product
    document. *)
Definition set_views (n : Z) (p : Product) : Product :=
  mkProduct (p_name p) (p_weight p) (p_makingCharges p) (p_images p)
            (p_stock_quantity p) (p_stock_isInStock p) (p_isActive p) n.

(** The response carries the document as [save()] leaves it, the flag
    of the pre-save hook included. *)
Definition getProductById (id : string) : M Product :=
  found <- ProductModel.findById id ;;
  match found with
  | None => throw (mkApiError 404 "Product not found")
  | Some product =>
      let viewed := set_views (p_views product + 1) product in
      ProductModel.save id viewed ;;;
      ret (ProductModel.stock_hook viewed)
  end.

Definition set_isActive (b : bool) (p : Product) : Product :=
  mkProduct (p_name p) (p_weight p) (p_makingCharges p) (p_images p)
            (p_stock_quantity p) (p_stock_isInStock p) b (p_views p).

Definition deleteProduct (id : string) : M unit :=
  found <- ProductModel.findById id ;;
  match found with
  | None => throw (mkApiError 404 "Product not found")
  | Some product => ProductModel.save id (set_isActive false product)
  end.


(* ===================================================================== *)
(** * Further notions                                                     *)
(* ===================================================================== *)

(** A coupon that has not been used more often than its limit allows;
    a limit of [null] or 0 is no limit. *)
Definition within_limit (c : Coupon) : Prop :=
  match c_usageLimit c with
  | Some limit => limit <> 0 -> c_usedCount c <= limit
  | None => True
  end.

(** The discount a coupon gives on an amount, as the coupon block
    computes it. *)
Definition coupon_discount (coupon : Coupon) (orderSubtotal : float) : float :=
  match c_discountType coupon with
  | percentage =>
      let d := (orderSubtotal * c_discountValue coupon / 100)%float in
      match c_maxDiscountAmount coupon with
      | Some cap => if Number.truthy cap then Number.min d cap else d
      | None => d
      end
  | fixed => c_discountValue coupon
  end.

(* ===================================================================== *)
(** * [models/Cart.model.js] and [controllers/cart.controller.js]         *)
(* ===================================================================== *)

(** The cart handlers load a cart document, assign to it and call
    [cart.save()], which runs the schema's pre-save hook.  Of a cart line
    the record [CartItem] keeps the product, the quantity and the price;
    its [_id] and [addedAt] are left out.  [product.price.sellingPrice],
    which [Product] leaves out as well, is given to the handlers as
    [sellingPrice]: the price on the product document they load. *)
Module CartDocument.

(** [cartSchema.methods.calculateTotal] *)
Definition calculateTotal (items : list CartItem) : float :=
  fold_left
    (fun total item => (total + ci_price item * Number.of_Z (ci_quantity item))%float)
    items 0%float.

(** [cartSchema.pre('save')] *)
Definition total_hook (cart : Cart) : Cart :=
  mkCart (cart_items cart) (calculateTotal (cart_items cart)).

(** The validator [min: 1] of a line's [quantity], which carries its
    own message; the error middleware joins the messages of the lines
    that fail. *)
Definition too_low (item : CartItem) : bool := ci_quantity item <? 1.

Definition validate (cart : Cart) : M unit :=
  match List.filter too_low (cart_items cart) with
  | [] => ret tt
  | failing =>
      throw (validation_error
               (String.concat ", " (map (fun _ => "Quantity must be at least 1") failing)))
  end.

(** [cart.save()] of the cart of [userId] (the unique index of the
    schema), new or loaded: validation, then the pre-save hook, then the
    write. *)
Definition save (userId : string) (cart : Cart) : M Cart :=
  validate cart ;;;
  modify_db (fun db => with_carts (<[userId := total_hook cart]> (carts db)) db) ;;;
  ret (total_hook cart).

(** [new Cart({ userId, items: [] })] *)
Definition new : Cart := mkCart [] 0.

End CartDocument.

(** [xs.findIndex(f)], with [None] for [-1]. *)
Fixpoint findIndex {A} (f : A -> bool) (xs : list A) : option nat :=
  match xs with
  | [] => None
  | x :: rest => if f x then Some 0%nat else S <$> findIndex f rest
  end.

Definition getCart (user : string) : M Cart :=
  found <- CartModel.findOne user ;;
  match found with
  | Some cart => ret cart
  | None => CartDocument.save user CartDocument.new
  end.

Definition only_available (available : Z) : ApiError :=
  mkApiError 400 ("Insufficient stock. Only " +:+ decimal_int available
                  +:+ " items available").

Definition maximum_available (available : Z) : ApiError :=
  mkApiError 400 ("Cannot add more items. Maximum " +:+ decimal_int available
                  +:+ " available").

Definition set_line (quantity : Z) (price : float) (item : CartItem) : CartItem :=
  mkCartItem (ci_productId item) quantity price.

(** ** What [addToCart] reads from the request

    The route runs [validate(addToCartValidator)] in front of the
    handler.  The middleware checks [req.body] and passes it on as it
    came: the validator's default for a missing [quantity] and its
    conversion of a text to a number are dropped with the validated
    copy.  So [quantity] reaches the handler as the client sent it: not
    at all, as a whole number from 1, or as a text that denotes one.
    [NaN] is what the handler's own arithmetic can make of it. *)
Inductive JsValue : Type :=
| js_undefined
| js_NaN
| js_number (n : Z)
| js_string (s : string).

Section Coercions.

(** JavaScript's conversion of a text to a number, where [None] is
    [NaN].  The texts that pass the validator denote whole numbers, and
    so do the texts the handler builds from them, when they denote a
    number at all. *)
Variable ToNumber : string -> option Z.

Definition to_number (v : JsValue) : option Z :=
  match v with
  | js_undefined | js_NaN => None
  | js_number n => Some n
  | js_string s => ToNumber s
  end.

(** [a < v] for a number [a]: the other operand is converted to a
    number, and a comparison with [NaN] is false. *)
Definition less_than (a : Z) (v : JsValue) : bool :=
  match to_number v with
  | Some n => a <? n
  | None => false
  end.

(** [a + v] for a number [a]: an addition of numbers, unless [v] is a
    text, to which the digits of [a] are prepended. *)
Definition plus (a : Z) (v : JsValue) : JsValue :=
  match v with
  | js_undefined | js_NaN => js_NaN
  | js_number n => js_number (a + n)
  | js_string s => js_string (decimal_int a +:+ s)
  end.

Definition cast_failed (shown kind : string) : ApiError :=
  validation_error ("Cast to Number failed for value " +:+ Json.quote shown
                    +:+ " (type " +:+ kind +:+ ") at path " +:+ Json.quote "quantity").

Definition quantity_required : ApiError :=
  validation_error "Path `quantity` is required.".

(** What Mongoose makes of [v] when it is assigned to [quantity], a
    [Number] path with the default 1: the default for [undefined]; the
    number a text denotes.  A value that is not a number is a cast
    error, and the empty text is cast to [null], which the path, being
    required, does not admit: either makes [cart.save()] fail
    validation, so that nothing is written. *)
Definition cast_quantity (v : JsValue) : Result Z :=
  match v with
  | js_undefined => Ok 1
  | js_NaN => Err (cast_failed "NaN" "number")
  | js_number n => Ok n
  | js_string s =>
      if String.eqb s "" then Err quantity_required
      else match ToNumber s with
           | Some n => Ok n
           | None => Err (cast_failed s "string")
           end
  end.

(** [productId] is the [ObjectId] that the text of the request is cast
    to by [Product.findById] (the validator admits 24 hexadecimal digits,
    in either case, and every such text casts); [verbatim] tells whether
    the text is that id's own spelling, in lower case, which is what
    [item.productId.toString()] is compared with. *)
Definition addToCart (sellingPrice : float) (user : string)
    (productId : string) (verbatim : bool) (quantity : JsValue) : M Cart :=
  found <- ProductModel.findById productId ;;
  match found with
  | None => throw (mkApiError 404 "Product not found or unavailable")
  | Some product =>
      if negb (p_isActive product)
      then throw (mkApiError 404 "Product not found or unavailable")
      else if less_than (p_stock_quantity product) quantity
      then throw (only_available (p_stock_quantity product))
      else
        found <- CartModel.findOne user ;;
        let cart := default CartDocument.new found in
        let existingItemIndex :=
          findIndex (fun item => String.eqb (ci_productId item) productId && verbatim)
                    (cart_items cart) in
        match existingItemIndex with
        | Some i =>
            match cart_items cart !! i with
            | Some existing =>
                let newQuantity := plus (ci_quantity existing) quantity in
                if less_than (p_stock_quantity product) newQuantity
                then throw (maximum_available (p_stock_quantity product))
                else
                  stored <- lift (cast_quantity newQuantity) ;;
                  CartDocument.save user
                    (set_cart_items
                       (<[i := set_line stored sellingPrice existing]> (cart_items cart))
                       cart)
            | None => throw internal_error
            end
        | None =>
            stored <- lift (cast_quantity quantity) ;;
            CartDocument.save user
              (set_cart_items
                 (cart_items cart ++ [mkCartItem productId stored sellingPrice])
                 cart)
        end
  end.

End Coercions.

(** [cart.items.id(itemId)]: the line whose [_id] is [itemId].  Line
    ids are not part of [CartItem]; the handlers below are given the
    position [line] of that line in [cart.items], or [None] when no line
    has the id (ids are unique within a cart). *)
Definition items_id (line : option nat) (items : list CartItem) : option CartItem :=
  i ← line; items !! i.

Definition updateCartItem (sellingPrice : float) (user : string)
    (line : option nat) (quantity : Z) : M Cart :=
  found <- CartModel.findOne user ;;
  match found with
  | None => throw (mkApiError 404 "Cart not found")
  | Some cart =>
      match line, items_id line (cart_items cart) with
      | Some i, Some item =>
          found <- ProductModel.findById (ci_productId item) ;;
          match found with
          | None => throw (mkApiError 404 "Product not found")
          | Some product =>
              if negb (p_isActive product)
              then throw (mkApiError 400 "Product is no longer available")
              else if p_stock_quantity product <? quantity
              then throw (only_available (p_stock_quantity product))
              else
                CartDocument.save user
                  (set_cart_items
                     (<[i := set_line quantity sellingPrice item]> (cart_items cart))
                     cart)
          end
      | _, _ => throw (mkApiError 404 "Item not found in cart")
      end
  end.

(** [cart.items.filter((item) => item._id.toString() !== itemId)]:
    [items.id] casts [itemId] and finds the line under any spelling of
    its id, while the filter compares the text itself with the id's own
    spelling, in lower case.  [verbatim] tells whether [itemId] is that
    spelling; no other line is spelled [itemId], since [itemId] casts to
    the id of the line found. *)
Definition without (i : nat) (verbatim : bool) (items : list CartItem) : list CartItem :=
  if verbatim then delete i items else items.

Definition removeFromCart (user : string) (line : option nat) (verbatim : bool) : M Cart :=
  found <- CartModel.findOne user ;;
  match found with
  | None => throw (mkApiError 404 "Cart not found")
  | Some cart =>
      match line, items_id line (cart_items cart) with
      | Some i, Some _ =>
          CartDocument.save user
            (set_cart_items (without i verbatim (cart_items cart)) cart)
      | _, _ => throw (mkApiError 404 "Item not found in cart")
      end
  end.

Definition clearCart (user : string) : M Cart :=
  found <- CartModel.findOne user ;;
  match found with
  | None => throw (mkApiError 404 "Cart not found")
  | Some cart => CartDocument.save user (set_cart_items [] cart)
  end.

(** The cart routes, as requests of one user. *)
Inductive CartRequest : Type :=
| GetCart
| AddToCart (sellingPrice : float) (productId : string) (verbatim : bool)
    (quantity : JsValue)
| UpdateCartItem (sellingPrice : float) (line : option nat) (quantity : Z)
| RemoveFromCart (line : option nat) (verbatim : bool)
| ClearCart.

Definition cart_handler (ToNumber : string -> option Z) (user : string)
    (request : CartRequest) : M Cart :=
  match request with
  | GetCart => getCart user
  | AddToCart sellingPrice productId verbatim quantity =>
      addToCart ToNumber sellingPrice user productId verbatim quantity
  | UpdateCartItem sellingPrice line quantity => updateCartItem sellingPrice user line quantity
  | RemoveFromCart line verbatim => removeFromCart user line verbatim
  | ClearCart => clearCart user
  end.

(** The first line of a cart for a product. *)
Definition cart_line (productId : string) (items : list CartItem) : option CartItem :=
  List.find (fun item => String.eqb (ci_productId item) productId) items.

(** A stored cart as [cart.save()] leaves it: the total is the one
    [calculateTotal] gives. *)
Definition cart_ok (cart : Cart) : Prop :=
  cart_totalAmount cart = CartDocument.calculateTotal (cart_items cart).

Definition carts_ok (db : DB) : Prop :=
  forall user cart, carts db !! user = Some cart -> cart_ok cart.

(* ===================================================================== *)
(** * [models/User.model.js] (account lock) and [auth.controller.js]      *)
(* ===================================================================== *)

(** The users collection is kept apart from [DB], whose [users] field
    only says which ids exist.  Of a user document the record keeps what
    [login] reads and writes.  [now] is the reading of [Date.now()] for
    the request; [compare] stands for [bcrypt.compare]. *)
Module Auth.

Record User : Type := mkUser {
  u_id : string;
  u_email : string;
  u_phone : string;
  u_password : string;
  u_isVerified : bool;
  u_loginAttempts : Z;
  u_lockUntil : option Z;
  u_lastLogin : option Z
}.

Definition set_loginAttempts (n : Z) (u : User) : User :=
  mkUser (u_id u) (u_email u) (u_phone u) (u_password u) (u_isVerified u)
         n (u_lockUntil u) (u_lastLogin u).

Definition set_lockUntil (t : option Z) (u : User) : User :=
  mkUser (u_id u) (u_email u) (u_phone u) (u_password u) (u_isVerified u)
         (u_loginAttempts u) t (u_lastLogin u).

Definition set_lastLogin (t : option Z) (u : User) : User :=
  mkUser (u_id u) (u_email u) (u_phone u) (u_password u) (u_isVerified u)
         (u_loginAttempts u) (u_lockUntil u) t.

(** [this.updateOne(update)] and [this.save()]: the update reaches the
    stored document with the [_id] of [this]. *)
Fixpoint updateOne (id : string) (update : User -> User) (us : list User) : list User :=
  match us with
  | [] => []
  | u :: rest =>
      if String.eqb (u_id u) id then update u :: rest else u :: updateOne id update rest
  end.

(** [userSchema.methods.comparePassword] *)
Definition comparePassword (compare : string -> string -> bool)
    (candidatePassword : string) (this : User) : bool :=
  if String.eqb (u_password this) "" then false
  else compare candidatePassword (u_password this).

(** [userSchema.methods.isLocked]: a [Date] is truthy. *)
Definition isLocked (now : Z) (this : User) : bool :=
  match u_lockUntil this with
  | Some lockUntil => now <? lockUntil
  | None => false
  end.

Definition maxAttempts : Z := 5.
Definition lockTime : Z := 2 * 60 * 60 * 1000.

(** [userSchema.methods.incLoginAttempts]: the update document, chosen
    from the fields of [this], as a function on the stored document
    ([$inc] adds to the stored count). *)
Definition incLoginAttempts (now : Z) (this : User) : User -> User :=
  if match u_lockUntil this with
     | Some lockUntil => lockUntil <? now
     | None => false
     end
  then fun stored => set_lockUntil None (set_loginAttempts 1 stored)
  else if (maxAttempts <=? u_loginAttempts this + 1) && negb (isLocked now this)
  then fun stored =>
         set_lockUntil (Some (now + lockTime))
           (set_loginAttempts (u_loginAttempts stored + 1) stored)
  else fun stored => set_loginAttempts (u_loginAttempts stored + 1) stored.

(** [userSchema.methods.resetLoginAttempts] *)
Definition resetLoginAttempts : User -> User :=
  fun stored => set_lockUntil None (set_loginAttempts 0 stored).

Record LoginBody : Type := mkLoginBody {
  lb_email : option string;
  lb_phone : option string;
  lb_password : string
}.

(** [User.findOne(email ? { email } : { phone })]; stored emails are in
    lower case and the query value is compared with them as it is cast.
    No user has a [null] phone. *)
Definition findOne (body : LoginBody) (us : list User) : option User :=
  if truthy (lb_email body)
  then List.find (fun u => String.eqb (u_email u) (default "" (lb_email body))) us
  else match lb_phone body with
       | Some phone => List.find (fun u => String.eqb (u_phone u) phone) us
       | None => None
       end.

Definition invalid_credentials : ApiError := mkApiError 401 "Invalid credentials".
Definition account_locked : ApiError := mkApiError 423 "Account locked. Try later.".
Definition not_verified : ApiError := mkApiError 403 "Please verify your email to login".

(** [login]: the answer (the id the tokens are made for) and the users
    collection afterwards. *)
Definition login (compare : string -> string -> bool) (now : Z) (body : LoginBody)
    (us : list User) : Result string * list User :=
  match findOne body us with
  | None => (Err invalid_credentials, us)
  | Some user =>
      if isLocked now user then (Err account_locked, us)
      else if negb (comparePassword compare (lb_password body) user)
      then (Err invalid_credentials, updateOne (u_id user) (incLoginAttempts now user) us)
      else if negb (u_isVerified user) then (Err not_verified, us)
      else
        (Ok (u_id user),
         updateOne (u_id user) (set_lastLogin (Some now))
           (updateOne (u_id user) resetLoginAttempts us))
  end.

(** One login request after the other, at the given times. *)
Fixpoint logins (compare : string -> string -> bool) (body : LoginBody)
    (times : list Z) (us : list User) : list (Result string) * list User :=
  match times with
  | [] => ([], us)
  | now :: later =>
      let (answer, us1) := login compare now body us in
      let (answers, us2) := logins compare body later us1 in
      (answer :: answers, us2)
  end.

End Auth.

(** An update that leaves [_id], email and phone alone. *)
Definition keeps_keys (f : Auth.User -> Auth.User) : Prop :=
  forall x, Auth.u_id (f x) = Auth.u_id x
            /\ Auth.u_email (f x) = Auth.u_email x
            /\ Auth.u_phone (f x) = Auth.u_phone x.

(* ===================================================================== *)
(** * The order and payment routes as requests                            *)
(* ===================================================================== *)

(** [routes/order.routes.js] and [routes/payment.routes.js]: the requests
    that write orders, with what each handler takes from the request,
    the clock and the gateway. *)
Inductive ShopRequest : Type :=
| ReqCreateOrder (now : Z) (newId user : string) (body : CreateOrderBody)
| ReqCancelOrder (now : Z) (user id : string) (reason : option string)
| ReqUpdateOrderStatus (now : Z) (admin id : string) (body : StatusBody)
| ReqCreatePaymentOrder (gateway : RazorpayOptions -> option RazorpayOrder)
    (now : Z) (user orderId : string)
| ReqVerifyPayment (env : Env) (now : Z) (user : string) (body : VerifyBody)
| ReqWebhook (env : Env) (now : Z) (webhookSignature : option string) (webhookBody : Body)
| ReqInitiateRefund (gateway : string -> float -> option string -> option string)
    (now : Z) (orderId : string) (reason : option string).

(** The database after a request. *)
Definition shop_handler (request : ShopRequest) (db : DB) : DB :=
  match request with
  | ReqCreateOrder now newId user body => snd (createOrder now newId user body db)
  | ReqCancelOrder now user id reason => snd (cancelOrder now user id reason db)
  | ReqUpdateOrderStatus now admin id body => snd (updateOrderStatus now admin id body db)
  | ReqCreatePaymentOrder gateway now user orderId =>
      snd (createPaymentOrder gateway now user orderId db)
  | ReqVerifyPayment env now user body => snd (verifyPayment env now user body db)
  | ReqWebhook env now webhookSignature webhookBody =>
      snd (handleWebhook env now webhookSignature webhookBody db)
  | ReqInitiateRefund gateway now orderId reason =>
      snd (initiateRefund gateway now orderId reason db)
  end.

(** The [_id] Mongoose gives a new order is not the [_id] of a stored
    one. *)
Definition fresh_id (request : ShopRequest) (db : DB) : Prop :=
  match request with
  | ReqCreateOrder _ newId _ _ => newId ∉ map o_id (orders db)
  | _ => True
  end.

(** The identity of the stored orders: [_id] and order number, in
    insertion order. *)
Definition order_key (o : Order) : string * string := (o_id o, o_orderNumber o).

Definition order_keys (db : DB) : list (string * string) := map order_key (orders db).

(** Ids are unique, every order has a number, numbers are unique. *)
Definition keys_ok (K : list (string * string)) : Prop :=
  NoDup (map fst K) /\ Forall (fun k => snd k <> "") K /\ NoDup (map snd K).

Definition orders_ok (db : DB) : Prop := keys_ok (order_keys db).

(** A computation that keeps the identity [K] of the stored orders, and
    whose result, when there is one, satisfies [Q]. *)
Definition keeps {A} (K : list (string * string)) (m : M A) (Q : A -> Prop) : Prop :=
  forall db r db',
    order_keys db = K -> m db = (r, db') ->
    order_keys db' = K /\ match r with Ok a => Q a | Err _ => True end.

(** A loaded order, or none, whose identity is one of [K]. *)
Definition loaded_from (K : list (string * string)) (found : option Order) : Prop :=
  match found with
  | Some o => order_key o ∈ K
  | None => True
  end.

(* ===================================================================== *)
(** * [app.js]: the sanitization middleware                               *)
(* ===================================================================== *)

Module Sanitize.

(** [s.replace(/c/g, by)] for a pattern of one character. *)
Fixpoint replace_char (c : ascii) (by_ : string) (s : string) : string :=
  match s with
  | EmptyString => EmptyString
  | String c' rest =>
      if Ascii.eqb c' c then by_ +:+ replace_char c by_ rest
      else String c' (replace_char c by_ rest)
  end.

(** The five replacements, in the order of the source. *)
Definition escape_html (s : string) : string :=
  replace_char "/" "&#x2F;"
    (replace_char "'" "&#x27;"
       (replace_char Json.dquote "&quot;"
          (replace_char ">" "&gt;"
             (replace_char "<" "&lt;" s)))).

(** [key.includes(".")] *)
Fixpoint includes (c : ascii) (s : string) : bool :=
  match s with
  | EmptyString => false
  | String c' rest => Ascii.eqb c' c || includes c rest
  end.

(** [/^\$/.test(key) || key.includes(".")] *)
Definition blocked (key : string) : bool :=
  match key with
  | String c _ => Ascii.eqb c "$" || includes "." key
  | EmptyString => false
  end.

(** [sanitize(obj)]: the value [obj] holds afterwards.  Of an object the
    blocked keys are deleted; of an object or array the string
    properties are escaped and the object properties sanitized in turn.
    Anything that is not an object or array is left alone. *)
Fixpoint sanitize (obj : JSON) : JSON :=
  match obj with
  | JArr xs =>
      JArr (map (fun x => match x with
                          | JStr s => JStr (escape_html s)
                          | _ => sanitize x
                          end) xs)
  | JObj kvs =>
      JObj ((fix properties (kvs : list (string * JSON)) : list (string * JSON) :=
               match kvs with
               | [] => []
               | (key, x) :: rest =>
                   if blocked key then properties rest
                   else (key, match x with
                              | JStr s => JStr (escape_html s)
                              | _ => sanitize x
                              end) :: properties rest
               end) kvs)
  | _ => obj
  end.

(** The middleware: [req.body], [req.query] and [req.params]. *)
Record Request : Type := mkRequest {
  req_body : JSON;
  req_query : JSON;
  req_params : JSON
}.

Definition middleware (req : Request) : Request :=
  mkRequest (sanitize (req_body req)) (sanitize (req_query req))
            (sanitize (req_params req)).

End Sanitize.

(** No object, at any depth, has a key that starts with a dollar sign or
    contains a dot. *)
Fixpoint no_blocked_key (v : JSON) : bool :=
  match v with
  | JArr xs => forallb no_blocked_key xs
  | JObj kvs =>
      forallb (fun kv => negb (Sanitize.blocked (fst kv)) && no_blocked_key (snd kv)) kvs
  | _ => true
  end.

(** The characters the middleware escapes. *)
Definition markup (c : ascii) : bool :=
  Ascii.eqb c "<" || Ascii.eqb c ">" || Ascii.eqb c Json.dquote
  || Ascii.eqb c "'" || Ascii.eqb c "/".

Fixpoint plain (s : string) : bool :=
  match s with
  | EmptyString => true
  | String c rest => negb (markup c) && plain rest
  end.

(** The value of a property or element, at any depth: a string is free
    of markup characters, an object or array holds such values only. *)
Fixpoint no_markup_inside (v : JSON) : bool :=
  match v with
  | JStr s => plain s
  | JArr xs => forallb no_markup_inside xs
  | JObj kvs => forallb (fun kv => no_markup_inside (snd kv)) kvs
  | _ => true
  end.

(** A body, query or parameter object: its own strings are reached
    through its properties. *)
Definition no_markup (v : JSON) : bool :=
  match v with
  | JStr _ => true
  | _ => no_markup_inside v
  end.

(** What the five passes make of one character. *)
Definition escape_one (c : ascii) : string :=
  if Ascii.eqb c "<" then "&lt;"
  else if Ascii.eqb c ">" then "&gt;"
  else if Ascii.eqb c Json.dquote then "&quot;"
  else if Ascii.eqb c "'" then "&#x27;"
  else if Ascii.eqb c "/" then "&#x2F;"
  else String c EmptyString.

(** What the loop of [sanitize] makes of one property value, and of the
    properties of an object. *)
Definition sanitize_value (x : JSON) : JSON :=
  match x with
  | JStr s => JStr (Sanitize.escape_html s)
  | _ => Sanitize.sanitize x
  end.

Definition sanitize_properties (kvs : list (string * JSON)) : list (string * JSON) :=
  match Sanitize.sanitize (JObj kvs) with
  | JObj properties => properties
  | _ => []
  end.

(** A request whose body, query and parameters are free of blocked keys
    and of markup characters. *)
Definition clean_request (req : Sanitize.Request) : Prop :=
  Forall (fun part => no_blocked_key part = true /\ no_markup part = true)
         [Sanitize.req_body req; Sanitize.req_query req; Sanitize.req_params req].

(* ===================================================================== *)
(** * [models/Product.model.js]: the slug hook                            *)
(* ===================================================================== *)

(** [this.name.toLowerCase().replace(/[^a-z0-9]+/g, "-").replace(/^-|-$/g, "")]
    for names in ASCII (strings stand for their bytes, and a byte above
    127 is not in [[a-z0-9]] either). *)
Module Slug.

Definition lower_char (c : ascii) : ascii :=
  let n := N_of_ascii c in
  if ((65 <=? n) && (n <=? 90))%N then ascii_of_N (n + 32) else c.

Fixpoint toLowerCase (s : string) : string :=
  match s with
  | EmptyString => EmptyString
  | String c rest => String (lower_char c) (toLowerCase rest)
  end.

(** The class [[a-z0-9]]. *)
Definition alnum (c : ascii) : bool :=
  let n := N_of_ascii c in
  ((97 <=? n) && (n <=? 122) || (48 <=? n) && (n <=? 57))%N.

(** [.replace(/[^a-z0-9]+/g, "-")]: each maximal run of other characters
    becomes one dash.  [in_run] says that the character before was part
    of such a run. *)
Fixpoint replace_runs (in_run : bool) (s : string) : string :=
  match s with
  | EmptyString => EmptyString
  | String c rest =>
      if alnum c then String c (replace_runs false rest)
      else if in_run then replace_runs true rest
      else String "-" (replace_runs true rest)
  end.

(** [.replace(/^-|-$/g, "")]: a dash at the start goes, and a dash at
    the end of what is left. *)
Definition strip_start (s : string) : string :=
  match s with
  | String "-" rest => rest
  | _ => s
  end.

Fixpoint strip_end (s : string) : string :=
  match s with
  | EmptyString => EmptyString
  | String c EmptyString => if Ascii.eqb c "-" then EmptyString else s
  | String c rest => String c (strip_end rest)
  end.

Definition slugify (name : string) : string :=
  strip_end (strip_start (replace_runs false (toLowerCase name))).

End Slug.

(** Lower-case letters, digits and single dashes; [after_dash] says that
    a dash may not come next. *)
Fixpoint slug_body (after_dash : bool) (s : string) : bool :=
  match s with
  | EmptyString => true
  | String c rest =>
      if Ascii.eqb c "-" then negb after_dash && slug_body true rest
      else Slug.alnum c && slug_body false rest
  end.

(** The same, and the last character is not a dash. *)
Fixpoint slug_tail (after_dash : bool) (s : string) : bool :=
  match s with
  | EmptyString => negb after_dash
  | String c rest =>
      if Ascii.eqb c "-" then negb after_dash && slug_tail true rest
      else Slug.alnum c && slug_tail false rest
  end.

(** A slug: empty, or words of lower-case letters and digits joined by
    single dashes, with no dash at either end. *)
Definition is_slug (s : string) : bool :=
  match s with
  | EmptyString => true
  | _ => slug_tail true s
  end.

(* ===================================================================== *)
(** * Further notions: digests in hexadecimal                             *)
(* ===================================================================== *)

(** A lower-case hexadecimal digit. *)
Definition hex_char (c : ascii) : bool :=
  let n := N_of_ascii c in
  ((48 <=? n) && (n <=? 57) || (97 <=? n) && (n <=? 102))%N.

Fixpoint all_chars (f : ascii -> bool) (s : string) : bool :=
  match s with
  | EmptyString => true
  | String c rest => f c && all_chars f rest
  end.

(** The form of a SHA-256 digest in hexadecimal: 64 lower-case digits. *)
Definition digest_form (s : string) : Prop :=
  String.length s = 64%nat /\ all_chars hex_char s = true.

(* ===================================================================== *)
(** * [models/Review.model.js]: product ratings                           *)
(* ===================================================================== *)

(** Of a review the record keeps what the aggregation reads.  In this
    section a rating, and the mean the database computes, is an exact
    rational. *)


Module ReviewModel.

Record Review : Type := mkReview {
  rv_productId : string;
  rv_rating : Q;
  rv_isApproved : bool
}.



(** [{ $sum: "$rating" }], the numerator of [$avg] *)
Definition total (reviews : list Review) : Q :=
  fold_left (fun acc r => (acc + rv_rating r)%Q) reviews 0%Q.



End ReviewModel.

(* ===================================================================== *)
(** * Further scenario data                                               *)
(* ===================================================================== *)

(** The payment entity of [Scenario.captured]. *)
Definition captured_entity : option JSON :=
  Some (JObj [ ("id", JStr "pay_1"); ("order_id", JStr "order_1");
               ("notes", JObj [ ("orderId", JStr "o1") ]) ]).


(** A coupon of 10 percent, capped at 200, on orders of 1000 or more,
    that can be used once; and the usual catalogue with it. *)
Definition save10 : Coupon :=
  mkCoupon percentage 10 1000 (Some 200%float) (Some 1) 0 true 0 (2 * Scenario.now).

Definition db0_coupon : DB := with_coupons {[ "SAVE10" := save10 ]} Scenario.db0.

Definition checkout_save10 : CreateOrderBody :=
  mkCreateOrderBody razorpay (Some "save10") None.

(** [ToNumber] on the texts that the examples use, strings of decimal
    digits. *)
Definition digits_value (s : string) : option Z := Z.of_N <$> digit_value s.

(** Two accounts; the password of the first is [secret-one]. *)
Definition alice : Auth.User :=
  Auth.mkUser "u1" "alice@example.com" "9000000001" "hash-one" true 0 None None.
Definition bob : Auth.User :=
  Auth.mkUser "u2" "bob@example.com" "9000000002" "hash-two" false 0 None None.
Definition accounts : list Auth.User := [alice; bob].

Definition bcrypt_compare (candidate hash : string) : bool :=
  String.eqb candidate "secret-one" && String.eqb hash "hash-one"
  || String.eqb candidate "secret-two" && String.eqb hash "hash-two".

Definition alice_says (password : string) : Auth.LoginBody :=
  Auth.mkLoginBody (Some "alice@example.com") None password.

(* ===================================================================== *)
(** * Test vectors                                                        *)
(* ===================================================================== *)

Example sha256_abc :
  Crypto.sha256_hex "abc"
  = "ba7816bf8f01cfea414140de5dae2223b00361a396177a9cb410ff61f20015ad".
Proof. vm_compute. reflexivity. Qed.

Example sha256_two_blocks :
  Crypto.sha256_hex "abcdbcdecdefdefgefghfghighijhijkijkljklmklmnlmnomnopnopq"
  = "248d6a61d20638b8e5c026930c3e6039a33ce45964ff2167f6ecedd419db06c1".
Proof. vm_compute. reflexivity. Qed.

Example hmac_rfc4231_case2 :
  Crypto.hmac_hex "Jefe" "what do ya want for nothing?"
  = "5bdcc146bf60754e6a042426089575c75a003f089d2739839dec58b964ec3843".
Proof. vm_compute. reflexivity. Qed.

Example stringify_buffer :
  Json.stringify_body (BodyBuffer "{}")
  = "{" +:+ Json.quote "type" +:+ ":" +:+ Json.quote "Buffer" +:+ ","
        +:+ Json.quote "data" +:+ ":[123,125]}".
Proof. vm_compute. reflexivity. Qed.

(* ===================================================================== *)
(** * Basic facts about the collections                                   *)
(* ===================================================================== *)

Section OrderCollection.

Import OrderModel.

Lemma has_id_true id o : has_id id o = true <-> o_id o = id.
Proof. unfold has_id. apply String.eqb_eq. Qed.

Lemma has_id_false id o : has_id id o = false <-> o_id o <> id.
Proof. unfold has_id. apply String.eqb_neq. Qed.

Lemma find_has_id id os o : List.find (has_id id) os = Some o -> o_id o = id.
Proof. intros H. apply List.find_some in H as [_ H]. now apply has_id_true. Qed.

(** Saving a document under the id it was found by puts it where the
    loaded one was. *)
Lemma find_replace_same id os o o' :
  List.find (has_id id) os = Some o -> o_id o' = id ->
  List.find (has_id id) (replace o' os) = Some o'.
Proof.
  intros Hfind Hid. induction os as [|x xs IH]; simpl in *; [discriminate|].
  rewrite Hid. destruct (has_id id x) eqn:Hx.
  - simpl. apply has_id_true in Hid. now rewrite Hid.
  - simpl. rewrite Hx. now apply IH.
Qed.

Lemma find_replace_other id id' os o' :
  o_id o' = id -> id' <> id ->
  List.find (has_id id') (replace o' os) = List.find (has_id id') os.
Proof.
  intros Hid Hne. induction os as [|x xs IH]; simpl; [reflexivity|].
  rewrite Hid. destruct (has_id id x) eqn:Hx.
  - simpl. apply has_id_true in Hx.
    assert (has_id id' o' = false) as -> by (apply has_id_false; congruence).
    assert (has_id id' x = false) as -> by (apply has_id_false; congruence).
    reflexivity.
  - simpl. destruct (has_id id' x); [reflexivity|]. apply IH.
Qed.

Lemma replace_length o os : length (replace o os) = length os.
Proof.
  induction os as [|x xs IH]; simpl; [reflexivity|].
  destruct (has_id (o_id o) x); simpl; congruence.
Qed.


End OrderCollection.

(** The order-number hook leaves a numbered document alone. *)
Lemma orderNumber_hook_numbered now db o :
  o_orderNumber o <> "" -> OrderModel.orderNumber_hook now db o = o.
Proof.
  intros H. unfold OrderModel.orderNumber_hook.
  apply String.eqb_neq in H. now rewrite H.
Qed.

Lemma save_unfold now loaded cur db :
  OrderModel.save now loaded cur db
  = let cur' :=
      OrderModel.statusHistory_hook now
        (negb (bool_decide (o_status cur = o_status loaded))) false
        (OrderModel.orderNumber_hook now db cur) in
    (Ok cur', with_orders (OrderModel.replace cur' (orders db)) db).
Proof. reflexivity. Qed.

(** After the order-number hook every document carries a number. *)
Lemma orderNumber_hook_nonempty now db o :
  o_orderNumber (OrderModel.orderNumber_hook now db o) <> "".
Proof.
  unfold OrderModel.orderNumber_hook.
  destruct (String.eqb (o_orderNumber o) "") eqn:H.
  - simpl. unfold OrderModel.generateOrderNumber. discriminate.
  - now apply String.eqb_neq.
Qed.

Lemma replace_ids o os : map o_id (OrderModel.replace o os) = map o_id os.
Proof.
  induction os as [|x xs IH]; simpl; [reflexivity|].
  destruct (OrderModel.has_id (o_id o) x) eqn:H; simpl.
  - apply has_id_true in H. now rewrite H.
  - now rewrite IH.
Qed.

Lemma replace_Forall (P : Order -> Prop) o os :
  P o -> Forall P os -> Forall P (OrderModel.replace o os).
Proof.
  intros Ho Hos. induction Hos as [|x xs Hx Hxs IH]; simpl; [constructor|].
  destruct (OrderModel.has_id (o_id o) x); constructor; assumption.
Qed.

(** [order.save()] and the insert keep the database well formed. *)
Lemma save_well_formed now loaded cur db :
  well_formed db -> well_formed (snd (OrderModel.save now loaded cur db)).
Proof.
  intros [Hnd Hnum]. rewrite save_unfold. cbv zeta.
  unfold well_formed. cbn [snd orders with_orders]. split.
  - now rewrite replace_ids.
  - apply replace_Forall; [|exact Hnum].
    unfold OrderModel.statusHistory_hook.
    destruct (_ && _); simpl; apply orderNumber_hook_nonempty.
Qed.

Lemma insert_well_formed doc db :
  well_formed db -> o_id doc ∉ map o_id (orders db) -> o_orderNumber doc <> "" ->
  well_formed (snd (OrderModel.insert doc db)).
Proof.
  intros [Hnd Hnum] Hid Hdoc. unfold OrderModel.insert, bind, get_db.
  destruct (existsb _ (orders db)); [now split|].
  unfold well_formed, modify_db, ret. cbn [snd orders with_orders]. split.
  - rewrite List.map_app. cbn [map]. apply NoDup_app.
    split; [exact Hnd|split; [|apply NoDup_singleton]].
    intros x Hx Hx'. apply list_elem_of_singleton in Hx'. congruence.
  - apply Forall_app. split; [exact Hnum|]. now constructor.
Qed.

(** The unique index: a document whose number is already stored is
    refused, and the database stays as it was. *)
Lemma insert_duplicate_refused doc db o :
  o ∈ orders db -> o_orderNumber o = o_orderNumber doc ->
  OrderModel.insert doc db = (Err OrderModel.duplicate_key, db).
Proof.
  intros Hin Heq. unfold OrderModel.insert, bind, get_db.
  assert (existsb (fun o0 => String.eqb (o_orderNumber o0) (o_orderNumber doc)) (orders db)
          = true) as ->; [|reflexivity].
  apply existsb_exists. exists o. split.
  - now apply list_elem_of_In.
  - now apply String.eqb_eq.
Qed.

(* ===================================================================== *)
(** * Checkout: validation                                                *)
(* ===================================================================== *)

Lemma validate_stock_rejects db items item :
  item ∈ items -> unavailable db item ->
  exists e, validate_stock (populate_items db items) = Err e.
Proof.
  intros Hin Hbad. induction items as [|x xs IH]; [inversion Hin|].
  simpl. destruct (products db !! ci_productId x) as [p|] eqn:Hp; [|eauto].
  destruct (p_isActive p) eqn:Hact; simpl; [|eauto].
  destruct (p_stock_quantity p <? ci_quantity x) eqn:Hq; [eauto|].
  apply elem_of_cons in Hin as [->|Hin].
  - exfalso. unfold unavailable in Hbad. rewrite Hp in Hbad.
    apply Z.ltb_ge in Hq. destruct Hbad; [congruence|lia].
  - destruct (IH Hin) as [e ->]. eauto.
Qed.

Lemma validate_stock_accepts db items :
  (forall item, item ∈ items -> available db item) ->
  exists lines,
    validate_stock (populate_items db items) = Ok lines
    /\ map fst lines = items
    /\ Forall (fun l => products db !! ci_productId (fst l) = Some (snd l)) lines.
Proof.
  induction items as [|x xs IH]; intros Hall.
  - exists []. simpl. auto.
  - destruct (Hall x) as (p & Hp & Hact & Hq); [left|].
    destruct IH as (lines & Hv & Hfst & Hsnd).
    { intros item Hin. apply Hall. now right. }
    exists ((x, p) :: lines). simpl. rewrite Hp, Hact. simpl.
    assert ((p_stock_quantity p <? ci_quantity x) = false) as -> by (apply Z.ltb_ge; lia).
    rewrite Hv. repeat split; [simpl; congruence|]. constructor; assumption.
Qed.

(** ** C3 *)

(** C3. If the user's cart holds at least one line whose product is
    missing, inactive, or has less stock than the line asks for, then
    [createOrder] ends in an error and returns the database it was given:
    no order is stored, no product stock changes, and no coupon counter
    moves (the coupon block is never reached). *)
Theorem createOrder_unavailable_item_aborts :
  forall (now : Z) (newId user : string) (body : CreateOrderBody)
         (db : DB) (cart : Cart) (item : CartItem),
    carts db !! user = Some cart ->
    item ∈ cart_items cart ->
    unavailable db item ->
    exists e, createOrder now newId user body db = (Err e, db)
              /\ statusCode e = 400.
Proof.
  intros now newId user body db cart item Hcart Hin Hbad.
  destruct (validate_stock_rejects db _ _ Hin Hbad) as [e He].
  assert (He400 : statusCode e = 400).
  { clear Hin Hbad. revert e He.
    induction (cart_items cart) as [|x xs IH]; simpl; intros e He; [discriminate|].
    destruct (products db !! ci_productId x) as [p|]; [|now inversion He].
    destruct (p_isActive p); simpl in He; [|now inversion He].
    destruct (p_stock_quantity p <? ci_quantity x); [now inversion He|].
    destruct (validate_stock (populate_items db xs)); [discriminate|].
    inversion He; subst. now apply IH. }
  exists e. split; [|exact He400].
  unfold createOrder, bind, CartModel.findOne. rewrite Hcart.
  destruct (cart_items cart) as [|x xs] eqn:Hitems; [inversion Hin|].
  simpl length. simpl Nat.eqb. cbv iota.
  unfold get_db, lift. simpl in He. simpl. rewrite He. reflexivity.
Qed.

(* ===================================================================== *)
(** * Payment reconciliation                                              *)
(* ===================================================================== *)

(** Fields the order-number hook does not touch. *)
Lemma orderNumber_hook_fields now db o :
  let o' := OrderModel.orderNumber_hook now db o in
  o_id o' = o_id o /\ o_status o' = o_status o /\ o_payment o' = o_payment o
  /\ o_statusHistory o' = o_statusHistory o /\ o_items o' = o_items o
  /\ o_userId o' = o_userId o.
Proof.
  unfold OrderModel.orderNumber_hook.
  destruct (String.eqb (o_orderNumber o) ""); simpl; auto 10.
Qed.

(** Saving after an assignment that leaves [status] alone adds nothing to
    the history. *)
Lemma save_same_status now loaded cur db :
  o_status cur = o_status loaded ->
  OrderModel.save now loaded cur db
  = (Ok (OrderModel.orderNumber_hook now db cur),
     with_orders (OrderModel.replace (OrderModel.orderNumber_hook now db cur) (orders db)) db).
Proof.
  intros Hst. rewrite save_unfold. unfold OrderModel.statusHistory_hook.
  rewrite bool_decide_eq_true_2.
  - reflexivity.
  - destruct (orderNumber_hook_fields now db cur) as (_ & H & _). simpl in H.
    exact Hst.
Qed.

Lemma handleWebhook_invalid env now webhookSignature webhookBody db :
  PaymentService.verifyWebhookSignature env webhookBody webhookSignature = false ->
  handleWebhook env now webhookSignature webhookBody db
  = (Err (mkApiError 400 "Invalid webhook signature"), db).
Proof. intros Hsig. unfold handleWebhook. rewrite Hsig. reflexivity. Qed.

(** ** C5 *)

(** C5. (a) When the owner of a pending order calls [verifyPayment] with a
    signature that does not verify, the call fails with status 400; the
    stored order then has payment status [failed], the same order status,
    status history and items as before, and the products, carts and
    coupons collections are the ones the call started from.
    (b) When the webhook signature does not verify, [handleWebhook] fails
    with status 400 and returns the database unchanged: nothing is read
    from the payload and no order, stock or cart is written. *)
Theorem invalid_signature_effects :
  (forall (env : Env) (now : Z) (user : string) (body : VerifyBody)
          (db : DB) (order : Order),
      OrderModel.stored (vb_orderId body) db = Some order ->
      o_userId order ∈ users db ->
      o_userId order = user ->
      pay_status (o_payment order) = pay_pending ->
      PaymentService.verifyPaymentSignature env (vb_razorpayOrderId body)
        (vb_razorpayPaymentId body) (vb_razorpaySignature body) = false ->
      exists (db' : DB) (order' : Order),
        verifyPayment env now user body db
        = (Err (mkApiError 400 "Payment verification failed. Invalid signature."), db')
        /\ OrderModel.stored (vb_orderId body) db' = Some order'
        /\ pay_status (o_payment order') = failed
        /\ o_status order' = o_status order
        /\ o_statusHistory order' = o_statusHistory order
        /\ o_items order' = o_items order
        /\ products db' = products db
        /\ carts db' = carts db
        /\ coupons db' = coupons db)
  /\
  (forall (env : Env) (now : Z) (webhookSignature : option string)
          (webhookBody : Body) (db : DB),
      PaymentService.verifyWebhookSignature env webhookBody webhookSignature = false ->
      handleWebhook env now webhookSignature webhookBody db
      = (Err (mkApiError 400 "Invalid webhook signature"), db)).
Proof.
  split.
  - intros env now user body db order Hfind Huser Hown _ Hsig.
    set (cur := set_payment (set_pay_status failed (o_payment order)) order).
    set (order' := OrderModel.orderNumber_hook now db cur).
    exists (with_orders (OrderModel.replace order' (orders db)) db), order'.
    destruct (orderNumber_hook_fields now db cur) as (Hid & Hst & Hpay & Hhist & Hitems & _).
    fold order' in Hid, Hst, Hpay, Hhist, Hitems.
    split; [|split; [|repeat split]].
    + unfold verifyPayment, bind, OrderModel.findById, get_db. rewrite Hfind.
      unfold OrderModel.populated_user. rewrite decide_True by exact Huser.
      rewrite Hown, String.eqb_refl, Hsig. cbn [negb]. cbv beta. fold cur.
      rewrite (save_same_status now order cur db) by reflexivity.
      reflexivity.
    + unfold OrderModel.stored in *. simpl.
      eapply find_replace_same; [exact Hfind|].
      rewrite Hid. simpl. now apply find_has_id in Hfind.
    + now rewrite Hpay.
    + now rewrite Hst.
    + now rewrite Hhist.
    + now rewrite Hitems.
  - intros env now sig body db Hsig. now apply handleWebhook_invalid.
Qed.

Lemma Forall2_diag_intro {A} (R : A -> A -> Prop) (l : list A) :
  (forall x, R x x) -> Forall2 R l l.
Proof. intros H. induction l; constructor; auto. Qed.

Lemma well_formed_numbered db o :
  well_formed db -> o ∈ orders db -> o_orderNumber o <> "".
Proof.
  intros [_ Hnum] Hin. rewrite Forall_forall in Hnum. now apply Hnum.
Qed.





(** ** C10 *)


(* ===================================================================== *)
(** * Stock                                                               *)
(* ===================================================================== *)

(** Fields neither pre-save hook writes. *)
Lemma hooks_fields now db m isNew o :
  let o' := OrderModel.statusHistory_hook now m isNew (OrderModel.orderNumber_hook now db o) in
  o_id o' = o_id o /\ o_status o' = o_status o /\ o_payment o' = o_payment o
  /\ o_items o' = o_items o /\ o_userId o' = o_userId o.
Proof.
  destruct (orderNumber_hook_fields now db o) as (H1 & H2 & H3 & _ & H5 & H6).
  unfold OrderModel.statusHistory_hook.
  destruct (m && negb isNew); simpl; auto 10.
Qed.

Lemma ordered_quantity_absent pid items :
  pid ∉ map oi_productId items -> ordered_quantity pid items = 0.
Proof.
  induction items as [|x xs IH]; simpl; intros Hnin; [reflexivity|].
  apply not_elem_of_cons in Hnin as [Hne Hnin].
  assert (String.eqb (oi_productId x) pid = false) as ->
      by (apply String.eqb_neq; congruence).
  now apply IH.
Qed.

Lemma ordered_quantity_single item items :
  NoDup (map oi_productId items) -> item ∈ items ->
  ordered_quantity (oi_productId item) items = oi_quantity item.
Proof.
  induction items as [|x xs IH]; simpl; intros Hnd Hin; [inversion Hin|].
  apply NoDup_cons in Hnd as [Hx Hnd].
  apply elem_of_cons in Hin as [->|Hin].
  - rewrite String.eqb_refl, ordered_quantity_absent by exact Hx. lia.
  - assert (String.eqb (oi_productId x) (oi_productId item) = false) as ->.
    { apply String.eqb_neq. intros Heq. apply Hx. rewrite Heq.
      apply list_elem_of_fmap. eauto. }
    now apply IH.
Qed.

Lemma inc_stock_0 p : ProductModel.inc_stock 0 p = p.
Proof.
  destruct p. unfold ProductModel.inc_stock, set_stock. simpl. f_equal. lia.
Qed.

Lemma inc_stock_inc_stock a b p :
  ProductModel.inc_stock a (ProductModel.inc_stock b p) = ProductModel.inc_stock (b + a) p.
Proof.
  unfold ProductModel.inc_stock, set_stock. simpl. f_equal. lia.
Qed.

Lemma restore_stock_spec items db :
  exists ps,
    restore_stock items db = (Ok tt, with_products ps db)
    /\ forall pid,
        ps !! pid = ProductModel.inc_stock (ordered_quantity pid items) <$> products db !! pid.
Proof.
  revert db. induction items as [|x xs IH]; intros db.
  - exists (products db). split.
    + destruct db; reflexivity.
    + intros pid. simpl. destruct (products db !! pid) as [p|]; simpl; [|reflexivity].
      now rewrite inc_stock_0.
  - set (db1 := with_products
                  (alter (ProductModel.inc_stock (oi_quantity x)) (oi_productId x) (products db))
                  db).
    destruct (IH db1) as (ps & Hrun & Hps).
    exists ps. split.
    + unfold restore_stock in *. simpl. unfold bind.
      unfold ProductModel.findByIdAndUpdate_inc at 1. unfold modify_db at 1.
      fold db1. rewrite Hrun. reflexivity.
    + intros pid. rewrite Hps. simpl products.
      rewrite lookup_alter. simpl ordered_quantity.
      destruct (decide (oi_productId x = pid)) as [Heq|Hne].
      * rewrite Heq, String.eqb_refl.
        destruct (products db !! pid); simpl; [|reflexivity].
        now rewrite inc_stock_inc_stock.
      * apply String.eqb_neq in Hne. now rewrite Hne.
Qed.

(** ** C6 *)

(** C6. Take an order whose payment status is [completed] and which
    carries a gateway payment id, and let the gateway accept the refund.
    Then [initiateRefund] succeeds; the stored order has payment status
    [refunded], order status [cancelled] and the same items; every stored
    product's [stock.quantity] has grown by exactly the units of that
    product on the order's lines (no other product field changes), so
    that, when each product appears on one line only, each line's product
    has grown by exactly that line's quantity; carts and coupons are
    untouched. *)
Theorem initiateRefund_restores_stock :
  forall (gateway : string -> float -> option string -> option string) (now : Z)
         (orderId : string) (reason : option string) (db : DB)
         (order : Order) (paymentId refundId : string),
    OrderModel.stored orderId db = Some order ->
    pay_status (o_payment order) = completed ->
    pay_razorpayPaymentId (o_payment order) = Some paymentId ->
    paymentId <> "" ->
    gateway paymentId (pr_total (o_pricing order)) reason = Some refundId ->
    exists (db' : DB) (saved : Order),
      initiateRefund gateway now orderId reason db = (Ok (refundId, saved), db')
      /\ OrderModel.stored orderId db' = Some saved
      /\ pay_status (o_payment saved) = refunded
      /\ o_status saved = cancelled
      /\ o_items saved = o_items order
      /\ (forall pid,
            products db' !! pid
            = ProductModel.inc_stock (ordered_quantity pid (o_items order))
                <$> products db !! pid)
      /\ (forall pid p,
            products db !! pid = Some p ->
            exists p',
              products db' !! pid = Some p'
              /\ p_stock_quantity p'
                 = p_stock_quantity p + ordered_quantity pid (o_items order))
      /\ (NoDup (map oi_productId (o_items order)) ->
          forall item p,
            item ∈ o_items order ->
            products db !! oi_productId item = Some p ->
            exists p',
              products db' !! oi_productId item = Some p'
              /\ p_stock_quantity p' = p_stock_quantity p + oi_quantity item)
      /\ carts db' = carts db
      /\ coupons db' = coupons db.
Proof.
  intros gateway now orderId reason db order paymentId refundId
         Hfind Hpaid Hpid Hne Hgw.
  set (cur := set_cancellationReason (or_else reason (Some "Refund initiated by admin"))
                (set_status cancelled
                   (set_payment (set_pay_status refunded (o_payment order)) order))).
  set (m := negb (bool_decide (o_status cur = o_status order))).
  set (saved := OrderModel.statusHistory_hook now m false
                  (OrderModel.orderNumber_hook now db cur)).
  set (db1 := with_orders (OrderModel.replace saved (orders db)) db).
  destruct (hooks_fields now db m false cur) as (Hid & Hst & Hpay & Hitems & _).
  fold saved in Hid, Hst, Hpay, Hitems.
  destruct (restore_stock_spec (o_items saved) db1) as (ps & Hrun & Hps).
  assert (Hstock : forall pid,
            ps !! pid = ProductModel.inc_stock (ordered_quantity pid (o_items order))
                          <$> products db !! pid).
  { intros pid. rewrite Hps, Hitems. reflexivity. }
  exists (with_products ps db1), saved.
  split; [|split; [|split; [|split; [|split; [|split; [|split; [|split; [|split]]]]]]]].
  - unfold initiateRefund, bind, OrderModel.findById. rewrite Hfind.
    rewrite Hpaid, Hpid.
    rewrite (bool_decide_eq_true_2 (completed = completed)) by reflexivity.
    rewrite (bool_decide_eq_false_2 (completed = refunded)) by discriminate.
    assert (truthy (Some paymentId) = true) as ->.
    { unfold truthy. apply String.eqb_neq in Hne. now rewrite Hne. }
    cbn [negb default from_option id]. cbv beta.
    unfold PaymentService.initiateRefund.
    rewrite Hgw. unfold ret at 1. fold cur.
    assert (Hsave : OrderModel.save now order cur db = (Ok saved, db1)) by reflexivity.
    rewrite Hsave. cbv beta iota.
    change (for_of (o_items saved) _ db1) with (restore_stock (o_items saved) db1).
    rewrite Hrun. reflexivity.
  - unfold OrderModel.stored in *. simpl.
    eapply find_replace_same; [exact Hfind|].
    rewrite Hid. simpl. now apply find_has_id in Hfind.
  - now rewrite Hpay.
  - now rewrite Hst.
  - now rewrite Hitems.
  - exact Hstock.
  - intros pid p Hp. cbn [products with_products].
    rewrite (Hstock pid), Hp. simpl. eauto.
  - intros Hnd item p Hin Hp. cbn [products with_products].
    rewrite (Hstock _), Hp. simpl.
    eexists. split; [reflexivity|]. simpl.
    now rewrite ordered_quantity_single.
  - reflexivity.
  - reflexivity.
Qed.

(* ===================================================================== *)
(** * Checkout: pricing and persistence                                   *)
(* ===================================================================== *)

Lemma apply_coupon_none now t db : apply_coupon now None t db = (Ok 0%float, db).
Proof. reflexivity. Qed.

(** The coupon block writes to the coupons collection only. *)
Lemma apply_coupon_frame now code t db r db1 :
  apply_coupon now code t db = (r, db1) ->
  products db1 = products db /\ carts db1 = carts db
  /\ orders db1 = orders db /\ users db1 = users db.
Proof.
  unfold apply_coupon, bind, CouponModel.findOne, CouponModel.save, modify_db, throw, ret.
  intros H.
  repeat match type of H with
         | (if ?c then _ else _) _ = _ => destruct c
         | (if ?c then _ else _) = _ => destruct c
         | (match ?c with _ => _ end) _ = _ => destruct c
         | (match ?c with _ => _ end) = _ => destruct c
         | (let (_, _) := ?c in _) = _ => destruct c
         end;
    inversion H; subst; simpl; auto.
Qed.

(** Every refusal of the coupon block has status 400. *)
Lemma apply_coupon_status now code t db e db1 :
  apply_coupon now code t db = (Err e, db1) -> statusCode e = 400.
Proof.
  unfold apply_coupon, bind, CouponModel.findOne, CouponModel.save, modify_db, throw, ret.
  intros H.
  repeat match type of H with
         | (if ?c then _ else _) _ = _ => destruct c
         | (if ?c then _ else _) = _ => destruct c
         | (match ?c with _ => _ end) _ = _ => destruct c
         | (match ?c with _ => _ end) = _ => destruct c
         | (let (_, _) := ?c in _) = _ => destruct c
         end;
    inversion H; subst; reflexivity.
Qed.

Lemma validate_stock_status items e :
  validate_stock items = Err e -> statusCode e = 400.
Proof.
  revert e. induction items as [|[item [p|]] rest IH]; simpl; intros e He.
  - discriminate He.
  - destruct (p_isActive p); simpl in He; [|now inversion He].
    destruct (p_stock_quantity p <? ci_quantity item); [now inversion He|].
    destruct (validate_stock rest); [discriminate He|].
    inversion He; subst. now apply IH.
  - now inversion He.
Qed.

(** [Order.create] refuses every document without an order number, and
    writes nothing. *)
Lemma create_unnumbered now doc db :
  o_orderNumber doc = "" ->
  OrderModel.create now doc db = (Err OrderModel.orderNumber_required, db).
Proof.
  intros H. unfold OrderModel.create, OrderModel.validate, bind. now rewrite H.
Qed.

(** What a run of [createOrder] comes to: it stops at the cart, at the
    validation loop or at the coupon block, or else at [Order.create],
    with the coupon block's writes made. *)
Lemma createOrder_run now newId user body db :
  (exists e, createOrder now newId user body db = (Err e, db) /\ statusCode e = 400)
  \/ (exists cart lines,
        carts db !! user = Some cart
        /\ cart_items cart <> []
        /\ validate_stock (populate_items db (cart_items cart)) = Ok lines
        /\ ((exists e db1,
               apply_coupon now (cb_couponCode body) (pre_discount_total lines) db
               = (Err e, db1)
               /\ createOrder now newId user body db = (Err e, db1))
            \/ (exists d db1,
                  apply_coupon now (cb_couponCode body) (pre_discount_total lines) db
                  = (Ok d, db1)
                  /\ createOrder now newId user body db
                     = (Err OrderModel.orderNumber_required, db1)))).
Proof.
  unfold createOrder, bind, CartModel.findOne.
  destruct (carts db !! user) as [cart|] eqn:Hcart; [|left; eexists; split; reflexivity].
  destruct (cart_items cart) as [|x xs] eqn:Hitems; [left; eexists; split; reflexivity|].
  cbn [length Nat.eqb]. cbv iota. unfold get_db, lift.
  destruct (validate_stock (populate_items db (x :: xs))) as [lines|e] eqn:Hv.
  2: { left. exists e. split; [reflexivity|]. eapply validate_stock_status. exact Hv. }
  right. exists cart, lines. rewrite Hitems.
  split; [reflexivity|]. split; [discriminate|]. split; [exact Hv|].
  cbv beta iota zeta.
  change (sum_lines line_total lines + sum_lines line_making lines
          + gst_of (sum_lines line_total lines) (sum_lines line_making lines)
          + shipping_of (sum_lines line_weight lines))%float
    with (pre_discount_total lines).
  destruct (apply_coupon now (cb_couponCode body) (pre_discount_total lines) db)
    as [[d|e] db1] eqn:Hc.
  - right. exists d, db1. split; [reflexivity|]. now apply create_unnumbered.
  - left. exists e, db1. split; reflexivity.
Qed.

(** When the cart is not empty, its lines are available and the coupon
    block accepts, the run ends at [Order.create]. *)
Lemma createOrder_accepted now newId user body db cart d db1 :
  carts db !! user = Some cart ->
  cart_items cart <> [] ->
  (forall item, item ∈ cart_items cart -> available db item) ->
  apply_coupon now (cb_couponCode body) (pre_discount_total (cart_lines db cart)) db
  = (Ok d, db1) ->
  createOrder now newId user body db = (Err OrderModel.orderNumber_required, db1).
Proof.
  intros Hcart Hne Hall Hc.
  destruct (validate_stock_accepts db (cart_items cart) Hall) as (lines & Hv & _).
  unfold cart_lines in Hc. rewrite Hv in Hc.
  unfold pre_discount_total in Hc. cbv zeta in Hc.
  unfold createOrder, bind, CartModel.findOne. rewrite Hcart.
  destruct (cart_items cart) as [|x xs] eqn:Hitems; [congruence|].
  cbn [length Nat.eqb]. cbv iota. unfold get_db, lift. rewrite Hv.
  cbv beta iota zeta. rewrite Hc.
  now apply create_unnumbered.
Qed.

(** ** C2 *)

(** C2. The claim fails on the code: checkout persists nothing.  The
    document that [createOrder] hands to [Order.create] has no order
    number; Mongoose validates a document before it runs the pre-save
    hooks; the schema requires [orderNumber]; so the document is refused
    before the hook that would number it has run.  For every request,
    [createOrder] ends in an error of status 400 and stores no order, and
    it writes neither products nor carts.  When the cart is not empty,
    all its lines are available and the coupon block accepts, the error
    is the validation error of [orderNumber], after the coupon block has
    made its writes.  On the specification's example -- two units of
    product A at 1000, making charges 50 and weight 10 per unit, no
    coupon -- the document built does carry the pricing the
    specification gives (2000, 100, 63, 100 and the total 2263), and the
    request is answered with that error, the database left as it was. *)
Theorem createOrder_persists_nothing :
  (forall (now : Z) (newId user : string) (body : CreateOrderBody) (db : DB),
      exists (e : ApiError) (db' : DB),
        createOrder now newId user body db = (Err e, db')
        /\ statusCode e = 400
        /\ orders db' = orders db
        /\ products db' = products db
        /\ carts db' = carts db
        /\ (forall (cart : Cart) (d : float) (db1 : DB),
              carts db !! user = Some cart ->
              cart_items cart <> [] ->
              (forall item, item ∈ cart_items cart -> available db item) ->
              apply_coupon now (cb_couponCode body)
                           (pre_discount_total (cart_lines db cart)) db = (Ok d, db1) ->
              e = OrderModel.orderNumber_required /\ db' = db1))
  /\ o_pricing (new_order "o1" "u1" Scenario.checkout
                  (cart_lines Scenario.db0 Scenario.cart1) 0)
     = mkPricing 2000 100 63 100 0 2263
  /\ createOrder Scenario.now "o1" "u1" Scenario.checkout Scenario.db0
     = (Err OrderModel.orderNumber_required, Scenario.db0).
Proof.
  split; [|split; [vm_compute; reflexivity|vm_compute; reflexivity]].
  intros now newId user body db.
  assert (Hinner : forall e db',
            createOrder now newId user body db = (Err e, db') ->
            forall (cart : Cart) (d : float) (db1 : DB),
              carts db !! user = Some cart ->
              cart_items cart <> [] ->
              (forall item, item ∈ cart_items cart -> available db item) ->
              apply_coupon now (cb_couponCode body)
                           (pre_discount_total (cart_lines db cart)) db = (Ok d, db1) ->
              e = OrderModel.orderNumber_required /\ db' = db1).
  { intros e db' Hrun cart d db1 Hcart Hne Hall Hc.
    rewrite (createOrder_accepted _ _ _ _ _ _ _ _ Hcart Hne Hall Hc) in Hrun.
    injection Hrun as <- <-. split; reflexivity. }
  destruct (createOrder_run now newId user body db)
    as [(e & Hrun & He)|(cart & lines & Hcart & Hne & Hv & Hcases)].
  - exists e, db. split; [exact Hrun|]. split; [exact He|].
    do 3 (split; [reflexivity|]). exact (Hinner _ _ Hrun).
  - destruct Hcases as [(e & db1 & Hc & Hrun)|(d & db1 & Hc & Hrun)];
      destruct (apply_coupon_frame _ _ _ _ _ _ Hc) as (Hp & Hca & Ho & _).
    + exists e, db1. split; [exact Hrun|].
      split; [eapply apply_coupon_status; exact Hc|].
      split; [exact Ho|]. split; [exact Hp|]. split; [exact Hca|].
      exact (Hinner _ _ Hrun).
    + exists OrderModel.orderNumber_required, db1. split; [exact Hrun|].
      split; [reflexivity|].
      split; [exact Ho|]. split; [exact Hp|]. split; [exact Hca|].
      exact (Hinner _ _ Hrun).
Qed.

(** The amounts are doubles, and [Math.round(x * 100) / 100] rounds the
    double, not the decimal amount it stands for: a subtotal of 34.50
    without making charges has a gst of 1.035, which is computed as the
    double just below it and stored as 1.03, not as 1.04. *)
Example round2_is_not_decimal_half_up :
  round2 (gst_of 34.5 0) = (103 / 100)%float
  /\ round2 (gst_of 34.5 0) <> (104 / 100)%float.
Proof. split; [vm_compute; reflexivity|vm_compute; discriminate]. Qed.

(* ===================================================================== *)
(** * Order numbers                                                       *)
(* ===================================================================== *)

Section OrderNumbers.

Lemma digit_value_decimal n : digit_value (decimal n) = Some (Z.to_N n).
Proof.
  unfold digit_value, decimal.
  rewrite NilEmpty.usu. simpl. now rewrite DecimalN.Unsigned.of_to.
Qed.

Lemma decimal_inj a b : 0 <= a -> 0 <= b -> decimal a = decimal b -> a = b.
Proof.
  intros Ha Hb H. apply (f_equal digit_value) in H.
  rewrite !digit_value_decimal in H. injection H as H. lia.
Qed.

Lemma digit_value_zeros k s :
  is_Some (digit_value s) ->
  digit_value (String.string_of_list_ascii (replicate k "0"%char) +:+ s) = digit_value s.
Proof.
  intros [v Hv]. induction k as [|k IH]; simpl; [reflexivity|].
  unfold digit_value in *. simpl.
  destruct (NilEmpty.uint_of_string
              (String.string_of_list_ascii (replicate k "0"%char) +:+ s)) as [d|] eqn:Hd.
  - simpl. simpl in IH. rewrite <- IH. reflexivity.
  - simpl in IH. rewrite Hv in IH. discriminate.
Qed.

Lemma padStart0_inj width a b :
  0 <= a -> 0 <= b ->
  padStart0 width (decimal a) = padStart0 width (decimal b) -> a = b.
Proof.
  intros Ha Hb H. apply (f_equal digit_value) in H. unfold padStart0 in H.
  rewrite !digit_value_zeros in H by (rewrite digit_value_decimal; eauto).
  rewrite !digit_value_decimal in H. injection H as H. lia.
Qed.

Lemma append_same_length_inj (s1 s2 t1 t2 : string) :
  String.length s1 = String.length s2 ->
  s1 +:+ t1 = s2 +:+ t2 -> s1 = s2 /\ t1 = t2.
Proof.
  revert s2. induction s1 as [|c s1 IH]; intros [|c' s2] Hlen H;
    simpl in *; try discriminate.
  - auto.
  - injection H as -> H. injection Hlen as Hlen.
    destruct (IH s2 Hlen H) as [-> ->]. auto.
Qed.

(** The number of digits of a clock reading. *)
Lemma string_of_uint_length d :
  String.length (NilEmpty.string_of_uint d) = Decimal.nb_digits d.
Proof. induction d; simpl; congruence. Qed.

Lemma usize_nb_digits d :
  DecimalPos.Unsigned.usize d = N.of_nat (Decimal.nb_digits d).
Proof.
  induction d; simpl Decimal.nb_digits; simpl DecimalPos.Unsigned.usize;
    rewrite ?IHd; lia.
Qed.

Lemma of_lu_bound d :
  (DecimalPos.Unsigned.of_lu d < 10 ^ DecimalPos.Unsigned.usize d)%N.
Proof.
  induction d; simpl DecimalPos.Unsigned.of_lu; simpl DecimalPos.Unsigned.usize;
    rewrite ?N.pow_succ_r'; simpl; lia.
Qed.

Lemma usize_rev d :
  DecimalPos.Unsigned.usize (Decimal.rev d) = DecimalPos.Unsigned.usize d.
Proof. now rewrite !usize_nb_digits, nb_digits_rev. Qed.

Lemma of_uint_bounds d :
  leading_nonzero d ->
  (10 ^ (DecimalPos.Unsigned.usize d - 1) <= N.of_uint d
   < 10 ^ DecimalPos.Unsigned.usize d)%N.
Proof.
  destruct d as [|d|d|d|d|d|d|d|d|d|d]; simpl leading_nonzero; intros H;
    try contradiction;
    unfold N.of_uint; simpl Pos.of_uint;
    rewrite DecimalPos.Unsigned.of_uint_acc_rev;
    simpl DecimalPos.Unsigned.usize;
    pose proof (of_lu_bound (Decimal.rev d)) as Hb; rewrite usize_rev in Hb;
    replace (N.succ (DecimalPos.Unsigned.usize d) - 1)%N
      with (DecimalPos.Unsigned.usize d) by lia;
    rewrite N.pow_succ_r'; nia.
Qed.

Lemma to_uint_leading p : leading_nonzero (Pos.to_uint p).
Proof.
  pose proof (DecimalPos.Unsigned.to_of (Pos.to_uint p)) as H.
  rewrite DecimalPos.Unsigned.of_to in H. simpl in H.
  pose proof (DecimalPos.Unsigned.to_uint_nonzero p) as Hnz.
  rewrite H in *. unfold Decimal.unorm in *.
  assert (Hh : forall d, match Decimal.nzhead d with
                         | Decimal.D0 _ => False
                         | _ => True
                         end).
  { induction d; simpl; auto. }
  specialize (Hh (Pos.to_uint p)).
  destruct (Decimal.nzhead (Pos.to_uint p)); simpl; auto.
Qed.

(** A number from [10^k] up to [10^(k+1) - 1] prints on [k + 1] digits. *)
Lemma decimal_length n k :
  10 ^ Z.of_nat k <= n < 10 ^ Z.of_nat (S k) -> String.length (decimal n) = S k.
Proof.
  intros [Hlo Hhi]. unfold decimal. rewrite string_of_uint_length.
  assert (Hpos : 0 < n) by (pose proof (Z.pow_pos_nonneg 10 (Z.of_nat k)); lia).
  destruct (Z.to_N n) as [|p] eqn:Hn; [lia|].
  simpl N.to_uint.
  pose proof (of_uint_bounds (Pos.to_uint p) (to_uint_leading p)) as [Hl Hu].
  change (N.of_uint (Pos.to_uint p)) with (Pos.of_uint (Pos.to_uint p)) in *.
  rewrite DecimalPos.Unsigned.of_to in Hl, Hu.
  rewrite usize_nb_digits in Hl, Hu.
  set (m := Decimal.nb_digits (Pos.to_uint p)) in *.
  assert (Hnp : n = Z.of_N (N.pos p)) by lia.
  destruct (Nat.lt_trichotomy m (S k)) as [Hlt|[Heq|Hgt]]; [|exact Heq|].
  - exfalso.
    assert (10 ^ N.of_nat m <= 10 ^ N.of_nat k)%N by (apply N.pow_le_mono_r; lia).
    assert (Z.of_N (10 ^ N.of_nat k) = 10 ^ Z.of_nat k)
      by (rewrite N2Z.inj_pow; f_equal; lia).
    lia.
  - exfalso.
    assert (10 ^ N.of_nat (S k) <= 10 ^ (N.of_nat m - 1))%N
      by (apply N.pow_le_mono_r; lia).
    assert (Z.of_N (10 ^ N.of_nat (S k)) = 10 ^ Z.of_nat (S k))
      by (rewrite N2Z.inj_pow; f_equal; lia).
    lia.
Qed.

(** [Date.now()] has thirteen digits from 9 September 2001 to
    20 November 2286. *)
Lemma clock_reading_digits now :
  1000000000000 <= now < 10000000000000 -> String.length (decimal now) = 13%nat.
Proof. intros H. apply (decimal_length now 12). exact H. Qed.

End OrderNumbers.

(** ** C8 *)

(** C8, as amended.  The order number is [LS], the clock reading and the
    document count plus one (padded to four digits), and nothing else.
    For clock readings with the same number of digits -- every reading of
    [Date.now()] from 2001 to 2286 has thirteen, [clock_reading_digits]
    -- two generated numbers are equal exactly when both the clock
    reading and the count are equal.  So orders that observe different
    counts or different milliseconds get different numbers, and orders
    that observe the same millisecond and the same count get the same
    one. *)
Theorem generateOrderNumber_injective :
  forall now1 now2 count1 count2 : Z,
    0 <= now1 -> 0 <= now2 -> 0 <= count1 -> 0 <= count2 ->
    String.length (decimal now1) = String.length (decimal now2) ->
    (OrderModel.generateOrderNumber now1 count1 = OrderModel.generateOrderNumber now2 count2
     <-> now1 = now2 /\ count1 = count2).
Proof.
  intros now1 now2 c1 c2 Hn1 Hn2 Hc1 Hc2 Hlen. split.
  - unfold OrderModel.generateOrderNumber. intros H. simpl in H.
    injection H as H.
    change (decimal now1 +:+ padStart0 4 (decimal (c1 + 1))
            = decimal now2 +:+ padStart0 4 (decimal (c2 + 1))) in H.
    apply append_same_length_inj in H as [Hnow Hcount]; [|exact Hlen].
    apply decimal_inj in Hnow; [|assumption..].
    apply padStart0_inj in Hcount; [|lia..].
    split; [exact Hnow|lia].
  - intros [-> ->]. reflexivity.
Qed.

(* ===================================================================== *)
(** * The stock flag, the idempotency guard and the status history        *)
(* ===================================================================== *)

(** One turn of the stock loop: a product that is gone is skipped; a
    quantity that would go negative is refused by the validator, and
    nothing is written; otherwise the product is stored with the lower
    quantity and the flag the hook derives. *)
Lemma decrement_stock_cases item db :
  PaymentService.decrement_stock item db
  = match products db !! oi_productId item with
    | None => (Ok tt, db)
    | Some p =>
        if p_stock_quantity p - oi_quantity item <? 0
        then (Err (ProductModel.below_minimum (p_stock_quantity p - oi_quantity item)), db)
        else (Ok tt,
              with_products
                (<[oi_productId item :=
                     set_stock (p_stock_quantity p - oi_quantity item)
                               (0 <? p_stock_quantity p - oi_quantity item) p]>
                   (products db)) db)
    end.
Proof.
  unfold PaymentService.decrement_stock, bind, ProductModel.findById,
    ProductModel.save.
  destruct (products db !! oi_productId item) as [p|]; [|reflexivity].
  cbn [p_stock_quantity set_stock].
  destruct (p_stock_quantity p - oi_quantity item <? 0); reflexivity.
Qed.

Lemma decrement_stock_spec item db :
  (forall p, products db !! oi_productId item = Some p ->
             oi_quantity item <= p_stock_quantity p) ->
  exists ps,
    PaymentService.decrement_stock item db = (Ok tt, with_products ps db)
    /\ forall pid,
        ps !! pid
        = decremented (bool_decide (oi_productId item = pid)) (oi_quantity item)
            <$> products db !! pid.
Proof.
  intros Hq. rewrite decrement_stock_cases.
  destruct (products db !! oi_productId item) as [p|] eqn:Hp.
  - assert ((p_stock_quantity p - oi_quantity item <? 0) = false) as ->.
    { apply Z.ltb_ge. specialize (Hq p eq_refl). lia. }
    eexists. split; [reflexivity|]. intros pid. rewrite lookup_insert.
    destruct (decide (oi_productId item = pid)) as [<-|Hne].
    + rewrite Hp, bool_decide_eq_true_2 by reflexivity. reflexivity.
    + rewrite bool_decide_eq_false_2 by exact Hne.
      destruct (products db !! pid); reflexivity.
  - exists (products db). split; [destruct db; reflexivity|]. intros pid.
    destruct (decide (oi_productId item = pid)) as [<-|Hne].
    + now rewrite Hp.
    + rewrite bool_decide_eq_false_2 by exact Hne.
      destruct (products db !! pid); reflexivity.
Qed.

Lemma ordered_quantity_nonneg pid items :
  Forall (fun item => 0 <= oi_quantity item) items -> 0 <= ordered_quantity pid items.
Proof.
  induction 1 as [|x xs Hx _ IH]; simpl; [lia|].
  destruct (String.eqb (oi_productId x) pid); lia.
Qed.

(** What the loop makes of the products when its lines [items] have all
    been served. *)
Definition served (items : list OrderItem) (db : DB) (ps : gmap string Product) : Prop :=
  forall pid,
    ps !! pid
    = decremented (names pid items) (ordered_quantity pid items) <$> products db !! pid.

Lemma served_cons x xs db ps1 ps :
  (forall pid,
      ps1 !! pid
      = decremented (bool_decide (oi_productId x = pid)) (oi_quantity x)
          <$> products db !! pid) ->
  served xs (with_products ps1 db) ps ->
  served (x :: xs) db ps.
Proof.
  intros Hps1 Hps pid. rewrite Hps. cbn [products with_products]. rewrite Hps1.
  destruct (products db !! pid) as [p|]; [|reflexivity]. simpl. f_equal.
  unfold names, decremented. simpl map. simpl ordered_quantity.
  destruct (decide (oi_productId x = pid)) as [Heq|Hne].
  - rewrite Heq, String.eqb_refl.
    rewrite (bool_decide_eq_true_2 (pid = pid)) by reflexivity.
    rewrite (bool_decide_eq_true_2 (pid ∈ pid :: _)) by left.
    destruct (bool_decide (pid ∈ map oi_productId xs)) eqn:Hin.
    + unfold set_stock. simpl.
      replace (p_stock_quantity p - oi_quantity x - ordered_quantity pid xs)
        with (p_stock_quantity p - (oi_quantity x + ordered_quantity pid xs)) by lia.
      reflexivity.
    + apply bool_decide_eq_false_1 in Hin.
      rewrite (ordered_quantity_absent _ _ Hin).
      replace (oi_quantity x + 0) with (oi_quantity x) by lia.
      reflexivity.
  - rewrite (bool_decide_eq_false_2 _ Hne).
    rewrite (proj2 (String.eqb_neq _ _) Hne).
    destruct (bool_decide (pid ∈ map oi_productId xs)) eqn:Hin.
    + apply bool_decide_eq_true_1 in Hin.
      rewrite bool_decide_eq_true_2 by (now right). reflexivity.
    + apply bool_decide_eq_false_1 in Hin.
      rewrite bool_decide_eq_false_2; [reflexivity|].
      intros Hc. apply elem_of_cons in Hc as [Hc|Hc]; congruence.
Qed.

(** A loop that came through has served every line. *)
Lemma decrement_loop_ok items db db' :
  for_of items PaymentService.decrement_stock db = (Ok tt, db') ->
  exists ps, db' = with_products ps db /\ served items db ps.
Proof.
  revert db. induction items as [|x xs IH]; intros db Hrun.
  - injection Hrun as <-. exists (products db). split; [destruct db; reflexivity|].
    intros pid. destruct (products db !! pid); reflexivity.
  - simpl for_of in Hrun. unfold bind in Hrun.
    destruct (PaymentService.decrement_stock x db) as [[[]|e] db1] eqn:Hx;
      [|discriminate Hrun].
    assert (Hstep : exists ps1,
               db1 = with_products ps1 db
               /\ forall pid,
                   ps1 !! pid
                   = decremented (bool_decide (oi_productId x = pid)) (oi_quantity x)
                       <$> products db !! pid).
    { rewrite decrement_stock_cases in Hx.
      destruct (products db !! oi_productId x) as [p|] eqn:Hp.
      - destruct (p_stock_quantity p - oi_quantity x <? 0); [discriminate Hx|].
        injection Hx as <-. eexists. split; [reflexivity|].
        intros pid. rewrite lookup_insert.
        destruct (decide (oi_productId x = pid)) as [<-|Hne].
        + rewrite Hp, bool_decide_eq_true_2 by reflexivity. reflexivity.
        + rewrite bool_decide_eq_false_2 by exact Hne.
          destruct (products db !! pid); reflexivity.
      - injection Hx as <-. exists (products db). split; [destruct db; reflexivity|].
        intros pid. destruct (decide (oi_productId x = pid)) as [<-|Hne].
        + now rewrite Hp.
        + rewrite bool_decide_eq_false_2 by exact Hne.
          destruct (products db !! pid); reflexivity. }
    destruct Hstep as (ps1 & -> & Hps1).
    destruct (IH _ Hrun) as (ps & -> & Hps).
    exists ps. split; [reflexivity|]. eapply served_cons; eassumption.
Qed.

(** When the stock covers the lines, the loop comes through. *)
Lemma decrement_loop_spec items db :
  stock_covers db items ->
  exists ps,
    for_of items PaymentService.decrement_stock db = (Ok tt, with_products ps db)
    /\ forall pid,
        ps !! pid
        = decremented (names pid items) (ordered_quantity pid items)
            <$> products db !! pid.
Proof.
  revert db. induction items as [|x xs IH]; intros db [Hnn Hcov].
  - exists (products db). split; [destruct db; reflexivity|].
    intros pid. destruct (products db !! pid); reflexivity.
  - apply Forall_cons in Hnn as [Hx Hxs].
    destruct (decrement_stock_spec x db) as (ps1 & Hrun1 & Hps1).
    { intros p Hp. specialize (Hcov _ _ Hp). simpl in Hcov.
      rewrite String.eqb_refl in Hcov.
      pose proof (ordered_quantity_nonneg (oi_productId x) xs Hxs). lia. }
    destruct (IH (with_products ps1 db)) as (ps & Hrun & Hps).
    { split; [exact Hxs|]. intros pid p' Hp'. cbn [products with_products] in Hp'.
      rewrite Hps1 in Hp'.
      destruct (products db !! pid) as [p|] eqn:Hp; [|discriminate Hp'].
      simpl in Hp'. injection Hp' as <-.
      specialize (Hcov _ _ Hp). simpl in Hcov. unfold decremented.
      destruct (decide (oi_productId x = pid)) as [Heq|Hne].
      - rewrite bool_decide_eq_true_2 by exact Heq.
        rewrite Heq, String.eqb_refl in Hcov. simpl. lia.
      - rewrite bool_decide_eq_false_2 by exact Hne.
        rewrite (proj2 (String.eqb_neq _ _) Hne) in Hcov. exact Hcov. }
    exists ps. split.
    + simpl for_of. unfold bind. rewrite Hrun1, Hrun. reflexivity.
    + eapply served_cons; eassumption.
Qed.

(** The save hook keeps the flag right: after the decrement loop it holds
    on every product a line names, and wherever it held before. *)
Lemma decrement_loop_flag items db ps pid p' :
  for_of items PaymentService.decrement_stock db = (Ok tt, with_products ps db) ->
  ps !! pid = Some p' ->
  (pid ∈ map oi_productId items
   \/ exists p, products db !! pid = Some p /\ stock_flag_ok p) ->
  stock_flag_ok p'.
Proof.
  intros Hrun Hp' Hcase.
  destruct (decrement_loop_ok items db _ Hrun) as (ps0 & Heq & Hps0).
  assert (ps0 = ps) as -> by (apply (f_equal products) in Heq; symmetry; exact Heq).
  rewrite Hps0 in Hp'.
  destruct (products db !! pid) as [p|] eqn:Hp; [|discriminate].
  simpl in Hp'. injection Hp' as <-.
  unfold decremented, names.
  destruct (bool_decide (pid ∈ map oi_productId items)) eqn:Hin.
  - reflexivity.
  - apply bool_decide_eq_false_1 in Hin.
    destruct Hcase as [Hc|(p0 & Hp0 & Hok)]; [contradiction|congruence].
Qed.

(** What [processSuccessfulPayment] does when the stock covers the order,
    whatever the state of the order it is handed: it never looks at
    [payment.status]. *)
Lemma processSuccessfulPayment_spec now order details db :
  stock_covers db (o_items order) ->
  exists saved db',
    PaymentService.processSuccessfulPayment now order details db = (Ok saved, db')
    /\ (forall pid,
          products db' !! pid
          = decremented (names pid (o_items order)) (ordered_quantity pid (o_items order))
              <$> products db !! pid)
    /\ carts db'
       = (if decide (o_userId order ∈ users db)
          then alter (set_cart_items []) (o_userId order) (carts db)
          else carts db)
    /\ orders db' = OrderModel.replace saved (orders db)
    /\ coupons db' = coupons db
    /\ users db' = users db
    /\ o_id saved = o_id order
    /\ pay_status (o_payment saved) = completed
    /\ o_status saved = confirmed
    /\ o_items saved = o_items order
    /\ o_statusHistory saved
       = o_statusHistory order
           ++ (if decide (o_status order = confirmed) then []
               else [mkHistoryEntry confirmed None None now]).
Proof.
  intros Hcov.
  set (payment := mkPayment (pay_method (o_payment order)) completed
                    (pd_razorpayOrderId details) (pd_razorpayPaymentId details)
                    (pd_razorpaySignature details) (Some now)).
  set (cur := set_status confirmed (set_payment payment order)).
  set (m := negb (bool_decide (o_status cur = o_status order))).
  set (saved := OrderModel.statusHistory_hook now m false
                  (OrderModel.orderNumber_hook now db cur)).
  set (db1 := with_orders (OrderModel.replace saved (orders db)) db).
  destruct (hooks_fields now db m false cur) as (Hid & Hst & Hpay & Hitems & Huid).
  fold saved in Hid, Hst, Hpay, Hitems, Huid.
  destruct (decrement_loop_spec (o_items saved) db1) as (ps & Hrun & Hps).
  { rewrite Hitems. exact Hcov. }
  set (db2 := with_products ps db1) in *.
  exists saved.
  exists (match OrderModel.populated_user saved db2 with
          | Some u => with_carts (alter (set_cart_items []) u (carts db2)) db2
          | None => db2
          end).
  split; [|split; [|split; [|split; [|split; [|split; [|repeat split]]]]]].
  - unfold PaymentService.processSuccessfulPayment, try_catch, bind. fold payment cur.
    assert (Hsave : OrderModel.save now order cur db = (Ok saved, db1)) by reflexivity.
    rewrite Hsave. cbv beta iota. rewrite Hrun. cbv beta iota.
    unfold get_db, CartModel.findOneAndUpdate_clear.
    destruct (OrderModel.populated_user saved db2); reflexivity.
  - intros pid.
    assert (Hprod : forall u, products (match u with
                              | Some u => with_carts (alter (set_cart_items []) u (carts db2)) db2
                              | None => db2
                              end) = ps) by (intros [u|]; reflexivity).
    rewrite Hprod, Hps, Hitems. reflexivity.
  - unfold OrderModel.populated_user. rewrite Huid. simpl users. simpl o_userId.
    destruct (decide (o_userId order ∈ users db)); reflexivity.
  - destruct (OrderModel.populated_user saved db2); reflexivity.
  - destruct (OrderModel.populated_user saved db2); reflexivity.
  - destruct (OrderModel.populated_user saved db2); reflexivity.
  - exact Hid.
  - now rewrite Hpay.
  - exact Hst.
  - exact Hitems.
  - unfold saved, OrderModel.statusHistory_hook, m. simpl o_status.
    destruct (decide (o_status order = confirmed)) as [Heq|Hne].
    + rewrite bool_decide_eq_true_2 by congruence. simpl.
      destruct (orderNumber_hook_fields now db cur) as (_ & _ & _ & Hh & _).
      rewrite Hh. simpl. now rewrite List.app_nil_r.
    + rewrite bool_decide_eq_false_2 by congruence. simpl.
      destruct (orderNumber_hook_fields now db cur) as (_ & Hs & _ & Hh & _).
      rewrite Hh, Hs. reflexivity.
Qed.

(** The guard of the webhook path: a [payment.captured] event for an
    order already [completed] changes nothing. *)
Lemma handlePaymentCaptured_completed_noop now payload notes orderId id order db :
  Json.prop "notes" payload = Some notes ->
  Json.prop "orderId" notes = Some orderId ->
  Json.asString orderId = Some id ->
  OrderModel.stored id db = Some order ->
  pay_status (o_payment order) = completed ->
  handlePaymentCaptured now payload db = (Ok tt, db).
Proof.
  intros Hnotes Hid Hstr Hstored Hpaid.
  unfold handlePaymentCaptured, try_catch, bind, access, findById_value.
  rewrite Hnotes. unfold ret at 1. rewrite Hid. unfold ret at 1.
  rewrite Hstr. unfold OrderModel.findById. rewrite Hstored, Hpaid.
  reflexivity.
Qed.

(** The synchronous path has no such guard: with a valid signature
    [verifyPayment] runs [processSuccessfulPayment] whatever the payment
    status of the order is, so stock is decremented and the cart cleared
    on every call that the stock covers. *)
Lemma verifyPayment_valid_signature env now user body db order :
  OrderModel.stored (vb_orderId body) db = Some order ->
  o_userId order ∈ users db ->
  o_userId order = user ->
  PaymentService.verifyPaymentSignature env (vb_razorpayOrderId body)
    (vb_razorpayPaymentId body) (vb_razorpaySignature body) = true ->
  stock_covers db (o_items order) ->
  exists saved db',
    verifyPayment env now user body db = (Ok saved, db')
    /\ (forall pid,
          products db' !! pid
          = decremented (names pid (o_items order)) (ordered_quantity pid (o_items order))
              <$> products db !! pid)
    /\ carts db' = alter (set_cart_items []) user (carts db).
Proof.
  intros Hstored Huser Hown Hsig Hcov.
  destruct (processSuccessfulPayment_spec now order
              (mkPaymentDetails (Some (vb_razorpayOrderId body))
                 (Some (vb_razorpayPaymentId body))
                 (Some (vb_razorpaySignature body))) db Hcov)
    as (saved & db' & Hrun & Hps & Hcarts & _).
  exists saved, db'. split; [|split].
  - unfold verifyPayment, bind, OrderModel.findById, get_db. rewrite Hstored.
    unfold OrderModel.populated_user. rewrite decide_True by exact Huser.
    rewrite Hown, String.eqb_refl, Hsig. cbn [negb]. cbv beta iota. exact Hrun.
  - exact Hps.
  - rewrite Hcarts, decide_True by exact Huser. now rewrite Hown.
Qed.

(** The history after [order.save()]: what was there, then at most the
    hook's entry. *)
Lemma save_history now loaded cur db saved db' :
  OrderModel.save now loaded cur db = (Ok saved, db') ->
  o_statusHistory saved
  = o_statusHistory cur
      ++ (if decide (o_status cur = o_status loaded) then []
          else [mkHistoryEntry (o_status cur) None None now]).
Proof.
  rewrite save_unfold. cbv zeta. intros H. injection H as <- _.
  destruct (orderNumber_hook_fields now db cur) as (_ & Hs & _ & Hh & _).
  unfold OrderModel.statusHistory_hook.
  destruct (decide (o_status cur = o_status loaded)) as [Heq|Hne].
  - rewrite bool_decide_eq_true_2 by exact Heq. simpl.
    rewrite Hh. now rewrite List.app_nil_r.
  - rewrite bool_decide_eq_false_2 by exact Hne. simpl.
    now rewrite Hh, Hs.
Qed.

(** A customer cancellation appends exactly one entry. *)
Lemma cancelOrder_history now user id reason db saved db' :
  cancelOrder now user id reason db = (Ok saved, db') ->
  exists order,
    OrderModel.stored id db = Some order
    /\ o_statusHistory saved
       = o_statusHistory order ++ [mkHistoryEntry cancelled None None now].
Proof.
  unfold cancelOrder, bind, OrderModel.findById.
  destruct (OrderModel.stored id db) as [order|] eqn:Hstored; [|discriminate].
  destruct (negb (String.eqb (o_userId order) user)); [discriminate|].
  intros H. exists order. split; [reflexivity|].
  set (cur := set_cancellationReason (or_else reason (Some "Cancelled by customer"))
                (set_status cancelled order)) in *.
  assert (Hcases : o_status order <> shipped /\ o_status order <> delivered
                   /\ o_status order <> cancelled).
  { repeat split; intros Heq; rewrite Heq in H; discriminate. }
  destruct Hcases as (Hns & Hnd & Hnc).
  assert (Hrun : (let (r, db1) := OrderModel.save now order cur db in
                  match r with
                  | Ok saved0 =>
                      let (r0, db2) :=
                        (if bool_decide (pay_status (o_payment saved0) = completed)
                         then restore_stock (o_items saved0)
                         else ret tt) db1 in
                      match r0 with
                      | Ok _ => ret saved0 db2
                      | Err e => (Err e, db2)
                      end
                  | Err e => (Err e, db1)
                  end) = (Ok saved, db')).
  { destruct (o_status order); try exact H; congruence. }
  clear H. destruct (OrderModel.save now order cur db) as [[saved0|e] db1] eqn:Hsave;
    [|discriminate].
  pose proof (save_history _ _ _ _ _ _ Hsave) as Hh.
  rewrite decide_False in Hh by (simpl; congruence).
  destruct (bool_decide (pay_status (o_payment saved0) = completed)).
  - destruct (restore_stock_spec (o_items saved0) db1) as (ps & Hr & _).
    rewrite Hr in Hrun. injection Hrun as <- _. exact Hh.
  - injection Hrun as <- _. exact Hh.
Qed.

(** An admin status update pushes its own entry and then saves, so the
    hook adds a second entry whenever the status really changed.  (A
    confirmation of a pending order runs the stock loop first, and comes
    through when the stock covers the order.) *)
Lemma updateOrderStatus_history now admin id body db status order :
  sb_status body = Some status ->
  OrderModel.stored id db = Some order ->
  o_userId order ∈ users db ->
  (status = confirmed -> o_status order = pending -> stock_covers db (o_items order)) ->
  exists saved db',
    updateOrderStatus now admin id body db = (Ok saved, db')
    /\ o_statusHistory saved
       = o_statusHistory order
           ++ mkHistoryEntry status
                (or_else (sb_note body)
                   (Some ("Status changed from " +:+ OrderStatus_str (o_status order)
                          +:+ " to " +:+ OrderStatus_str status)))
                (Some admin) now
           :: (if decide (status = o_status order) then []
               else [mkHistoryEntry status None None now]).
Proof.
  intros Hstatus Hstored Huser Hcov.
  unfold updateOrderStatus. rewrite Hstatus. unfold bind at 1.
  unfold OrderModel.findById. rewrite Hstored.
  set (note := or_else (sb_note body) _).
  set (pushed := set_statusHistory _ (set_status status order)).
  set (tracked := if _ : bool then set_tracking _ pushed else pushed).
  assert (Hfields : o_status tracked = status
                    /\ o_statusHistory tracked
                       = o_statusHistory order ++ [mkHistoryEntry status note (Some admin) now]
                    /\ o_items tracked = o_items order).
  { unfold tracked. destruct (_ && _); simpl; auto. }
  destruct Hfields as (Hst & Hhist & Hitems).
  assert (Hside : exists db1,
             (if bool_decide (status = confirmed) && bool_decide (o_status order = pending)
              then
                for_of (o_items tracked) PaymentService.decrement_stock ;;;
                db0 <- get_db ;;
                match OrderModel.populated_user order db0 with
                | Some owner => CartModel.findOneAndUpdate_clear (Some owner)
                | None => throw internal_error
                end
              else ret tt) db = (Ok tt, db1)).
  { destruct (bool_decide (status = confirmed) && bool_decide (o_status order = pending))
      eqn:Hconf.
    - apply andb_true_iff in Hconf as [Hc1 Hc2].
      apply bool_decide_eq_true_1 in Hc1. apply bool_decide_eq_true_1 in Hc2.
      destruct (decrement_loop_spec (o_items tracked) db) as (ps & Hrun & _).
      { rewrite Hitems. now apply Hcov. }
      eexists. unfold bind. rewrite Hrun. unfold get_db, OrderModel.populated_user.
      cbn [users with_products]. rewrite decide_True by exact Huser.
      reflexivity.
    - eexists. reflexivity. }
  destruct Hside as (db1 & Hside).
  destruct (OrderModel.save now order tracked db1) as [r db2] eqn:Hsave.
  assert (Hok : exists saved, r = Ok saved).
  { rewrite save_unfold in Hsave. injection Hsave as <- _. eauto. }
  destruct Hok as (saved & ->).
  exists saved, db2. split.
  - unfold bind in *. rewrite Hside. exact Hsave.
  - rewrite (save_history _ _ _ _ _ _ Hsave), Hst, Hhist.
    rewrite <- List.app_assoc. reflexivity.
Qed.

(** Through the route as [app.js] mounts it the body is a Buffer, which
    has no [payload] property: even when the signature check passes, the
    handler throws before it dispatches, and the database is untouched. *)
Lemma webhook_route_never_dispatches env now webhookSignature raw db :
  exists e, webhook_route env now webhookSignature raw db = (Err e, db).
Proof.
  unfold webhook_route, handleWebhook, express_raw.
  destruct (PaymentService.verifyWebhookSignature _ _ _); simpl; eauto.
Qed.

(* ===================================================================== *)
(** * The scenario, step by step                                          *)
(* ===================================================================== *)

(** The first delivery of the payment of [o1], by either entry point,
    takes two rings out of stock, empties the cart and completes the
    payment. *)
Example scenario_first_delivery :
  Scenario.stock_of "pA" Scenario.db2 = Some 5
  /\ Scenario.stock_of "pA" Scenario.after_webhook = Some 3
  /\ Scenario.stock_of "pA" Scenario.after_verify = Some 3
  /\ Scenario.cart_of "u1" Scenario.after_webhook = Some []
  /\ Scenario.payment_status_of "o1" Scenario.after_webhook = Some completed
  /\ Scenario.payment_status_of "o1" Scenario.after_verify = Some completed.
Proof. vm_compute. repeat split; reflexivity. Qed.

(** The webhook fired twice: the guard makes the second delivery a no-op. *)
Example scenario_webhook_twice :
  Scenario.stock_of "pA" Scenario.webhook_then_webhook = Some 3
  /\ Scenario.cart_of "u1" Scenario.webhook_then_webhook
     = Some [mkCartItem "pA" 1 1000].
Proof. vm_compute. repeat split; reflexivity. Qed.

(** ** C1 *)

(** C1. The claim fails on the synchronous path.  Order [o1] (two rings)
    is already [completed] by a first delivery -- the webhook, or an
    earlier [verifyPayment] -- with stock down from 5 to 3 and the cart
    emptied.  A second delivery through [verifyPayment], with its valid
    signature, succeeds again, takes the stock from 3 to 1 and empties the
    cart the customer has refilled meanwhile; only a second delivery
    through the webhook handler is a no-op. *)
Theorem verifyPayment_reapplies_payment_effects :
  let body := Scenario.verify_body "o1" "order_1" "pay_1" in
  PaymentService.verifyPaymentSignature Scenario.env (vb_razorpayOrderId body)
    (vb_razorpayPaymentId body) (vb_razorpaySignature body) = true
  (* delivered first by the webhook, then by verify *)
  /\ Scenario.payment_status_of "o1" (Scenario.shopping_again Scenario.after_webhook)
     = Some completed
  /\ Scenario.stock_of "pA" (Scenario.shopping_again Scenario.after_webhook) = Some 3
  /\ Scenario.cart_of "u1" (Scenario.shopping_again Scenario.after_webhook)
     = Some [mkCartItem "pA" 1 1000]
  /\ Scenario.stock_of "pA" Scenario.webhook_then_verify = Some 1
  /\ Scenario.cart_of "u1" Scenario.webhook_then_verify = Some []
  (* delivered twice by verify *)
  /\ Scenario.payment_status_of "o1" (Scenario.shopping_again Scenario.after_verify)
     = Some completed
  /\ Scenario.stock_of "pA" (Scenario.shopping_again Scenario.after_verify) = Some 3
  /\ Scenario.stock_of "pA" Scenario.verify_then_verify = Some 1
  /\ Scenario.cart_of "u1" Scenario.verify_then_verify = Some []
  (* delivered twice by the webhook *)
  /\ Scenario.stock_of "pA" Scenario.webhook_then_webhook = Some 3
  /\ Scenario.cart_of "u1" Scenario.webhook_then_webhook = Some [mkCartItem "pA" 1 1000].
Proof. vm_compute. repeat split; reflexivity. Qed.

(** ** C4 *)

(** C4. The claim fails on the code: the service signs
    [JSON.stringify(webhookBody)], and the body the route delivers is a
    Buffer, whose JSON form is not the bytes received.  Here the gateway
    sends the [payment.captured] event with the hex HMAC-SHA256 of exactly
    those bytes under the webhook secret: verification returns [false] and
    the route answers 400, while the same signature is accepted for the
    body once parsed into an object. *)
Theorem verifyWebhookSignature_rejects_raw_body_signature :
  let raw := Json.stringify Scenario.captured in
  let genuine := Some (Crypto.hmac_hex (RAZORPAY_WEBHOOK_SECRET Scenario.env) raw) in
  PaymentService.verifyWebhookSignature Scenario.env (express_raw raw) genuine = false
  /\ webhook_route Scenario.env Scenario.now genuine raw Scenario.db2
     = (Err (mkApiError 400 "Invalid webhook signature"), Scenario.db2)
  /\ PaymentService.verifyWebhookSignature Scenario.env
       (BodyParsed Scenario.captured) genuine = true.
Proof.
  cbv zeta. split; [|split].
  - vm_compute. reflexivity.
  - apply handleWebhook_invalid. vm_compute. reflexivity.
  - vm_compute. reflexivity.
Qed.

(** ** C7 *)

(** C7. The claim fails on the admin path.  Order [o1] is pending with an
    empty history; the admin moves it to [processing]; the stored history
    then holds two entries for that one transition: the one
    [updateOrderStatus] pushes itself and the one the pre-save hook adds. *)
Theorem updateOrderStatus_appends_two_entries :
  let body := mkStatusBody (Some processing) None None None in
  let db' := snd (updateOrderStatus Scenario.now "admin1" "o1" body Scenario.db2) in
  Scenario.history_of "o1" Scenario.db2 = Some []
  /\ Scenario.history_of "o1" db'
     = Some [ mkHistoryEntry processing
                (Some "Status changed from pending to processing")
                (Some "admin1") Scenario.now;
              mkHistoryEntry processing None None Scenario.now ].
Proof. vm_compute. split; reflexivity. Qed.

(** ** C9 *)

(** C9. The claim fails where stock is restored.  Paying [o2] takes
    product B from 2 to 0 through [product.save()], whose hook clears
    [isInStock]; the admin refund, and equally the customer cancellation,
    put the 2 units back with [findByIdAndUpdate], which runs no hook:
    the quantity is 2 and [isInStock] is still [false]. *)
Theorem restored_stock_keeps_stale_flag :
  Scenario.stock_of "pB" Scenario.paid2 = Some 0
  /\ Scenario.flag_of "pB" Scenario.paid2 = Some false
  /\ Scenario.payment_status_of "o2" Scenario.paid2 = Some completed
  /\ Scenario.stock_of "pB" Scenario.refunded2 = Some 2
  /\ Scenario.flag_of "pB" Scenario.refunded2 = Some false
  /\ Scenario.stock_of "pB" Scenario.cancelled2 = Some 2
  /\ Scenario.flag_of "pB" Scenario.cancelled2 = Some false
  /\ (exists p, products Scenario.refunded2 !! "pB" = Some p /\ ~ stock_flag_ok p).
Proof.
  vm_compute. repeat split; try reflexivity.
  eexists. split; [reflexivity|]. discriminate.
Qed.

(** ** C8: the claim as stated *)

(** C8, counterexample.  Two different new orders, of two customers,
    whose pre-save hooks both run before either insert -- two overlapping
    [createOrder] requests in the same millisecond -- read the same clock
    and the same document count, and get the same order number; the
    second insert is then refused by the unique index. *)
Lemma concurrent_orders_share_number :
  let d1 := blank_order "o1" "u1" in
  let d2 := blank_order "o2" "u2" in
  let n1 := OrderModel.pre_save_new Scenario.now Scenario.db0 d1 in
  let n2 := OrderModel.pre_save_new Scenario.now Scenario.db0 d2 in
  d1 <> d2
  /\ o_orderNumber n1 = "LS17000000000000001"
  /\ o_orderNumber n2 = "LS17000000000000001"
  /\ fst ((OrderModel.insert n1 ;;; OrderModel.insert n2) Scenario.db0)
     = Err OrderModel.duplicate_key.
Proof.
  cbv zeta. split; [discriminate|]. vm_compute. repeat split; reflexivity.
Qed.

(* ===================================================================== *)
(** * The theorems at work on the scenario                                *)
(* ===================================================================== *)

(** Orders created one after the other in the same millisecond observe
    counts 0 and 1 and get different numbers. *)
Lemma sequential_numbers_differ :
  OrderModel.generateOrderNumber Scenario.now 0
  <> OrderModel.generateOrderNumber Scenario.now 1.
Proof.
  intros H.
  apply (generateOrderNumber_injective Scenario.now Scenario.now 0 1) in H.
  - destruct H as [_ H]. discriminate H.
  - unfold Scenario.now. lia.
  - unfold Scenario.now. lia.
  - lia.
  - lia.
  - reflexivity.
Defined.

(** A cart asking for nine rings when five are in stock. *)
Lemma createOrder_short_stock_example :
  let greedy := mkCart [mkCartItem "pA" 9 1000] 9000 in
  let db := with_carts (<[ "u1" := greedy ]> (carts Scenario.db0)) Scenario.db0 in
  exists e,
    createOrder Scenario.now "o1" "u1" Scenario.checkout db = (Err e, db)
    /\ statusCode e = 400.
Proof.
  cbv zeta.
  apply (createOrder_unavailable_item_aborts Scenario.now "o1" "u1" Scenario.checkout _
           (mkCart [mkCartItem "pA" 9 1000] 9000) (mkCartItem "pA" 9 1000)).
  - reflexivity.
  - left.
  - vm_compute. right. reflexivity.
Defined.

(** A forged signature on the synchronous path, and on the webhook. *)
Lemma invalid_signature_example :
  (exists db',
      verifyPayment Scenario.env Scenario.now "u1"
        (mkVerifyBody "o1" "order_1" "pay_1" "forged") Scenario.db2
      = (Err (mkApiError 400 "Payment verification failed. Invalid signature."), db')
      /\ Scenario.payment_status_of "o1" db' = Some failed
      /\ products db' = products Scenario.db2
      /\ carts db' = carts Scenario.db2)
  /\ handleWebhook Scenario.env Scenario.now (Some "forged")
       (BodyParsed Scenario.captured) Scenario.db2
     = (Err (mkApiError 400 "Invalid webhook signature"), Scenario.db2).
Proof.
  split.
  - destruct (proj1 invalid_signature_effects Scenario.env Scenario.now "u1"
                (mkVerifyBody "o1" "order_1" "pay_1" "forged") Scenario.db2 pending_order1)
      as (db' & order' & Hrun & Hstored & Hpay & _ & _ & _ & Hprod & Hcart & _).
    + vm_compute. reflexivity.
    + apply (bool_decide_unpack _). vm_compute. exact I.
    + reflexivity.
    + reflexivity.
    + vm_compute. reflexivity.
    + exists db'.
      split; [exact Hrun|split; [|split; [exact Hprod|exact Hcart]]].
      unfold Scenario.payment_status_of. cbn [vb_orderId] in Hstored.
      rewrite Hstored. cbn [fmap option_fmap option_map]. now rewrite Hpay.
  - apply (proj2 invalid_signature_effects). vm_compute. reflexivity.
Defined.

(** The admin refunds the paid order [o2]: product B goes from 0 back
    to 2. *)
Lemma initiateRefund_example :
  exists db' saved,
    initiateRefund Scenario.gateway_ok Scenario.now "o2" None Scenario.paid2
    = (Ok ("rfnd_1", saved), db')
    /\ pay_status (o_payment saved) = refunded
    /\ o_status saved = cancelled
    /\ Scenario.stock_of "pB" Scenario.paid2 = Some 0
    /\ Scenario.stock_of "pB" db' = Some 2.
Proof.
  destruct (initiateRefund_restores_stock Scenario.gateway_ok Scenario.now "o2" None
              Scenario.paid2 paid_order2 "pay_2" "rfnd_1")
    as (db' & saved & Hrun & _ & Hpay & Hst & _ & Hstock & _).
  - vm_compute. reflexivity.
  - reflexivity.
  - reflexivity.
  - discriminate.
  - reflexivity.
  - exists db', saved.
    split; [exact Hrun|split; [exact Hpay|split; [exact Hst|split]]].
    + vm_compute. reflexivity.
    + unfold Scenario.stock_of. rewrite Hstock. vm_compute. reflexivity.
Defined.


(* ===================================================================== *)
(** * Further properties: checkout                                        *)
(* ===================================================================== *)

(** What a run of [createOrder] leaves behind: an error, and the
    database it was given or the one the coupon block made of it. *)
Lemma createOrder_outcome now newId user body db r db' :
  createOrder now newId user body db = (r, db') ->
  (exists e, r = Err e)
  /\ (db' = db
      \/ exists t res, apply_coupon now (cb_couponCode body) t db = (res, db')).
Proof.
  intros H.
  destruct (createOrder_run now newId user body db)
    as [(e & Hrun & _)|(cart & lines & _ & _ & _ & [(e & db1 & Hc & Hrun)|(d & db1 & Hc & Hrun)])];
    rewrite Hrun in H; injection H as <- <-; (split; [eauto|]); [left; reflexivity| |];
    right; eauto.
Qed.

(** X9. Checkout reserves nothing.  Whatever [createOrder] answers, the
    catalogue (and so every stock quantity) and every cart are exactly
    as before; no stored order is changed, and at most the new order is
    added. *)
Theorem createOrder_reserves_nothing :
  forall now newId user body db r db',
    createOrder now newId user body db = (r, db') ->
    products db' = products db
    /\ carts db' = carts db
    /\ users db' = users db
    /\ match r with
       | Ok order => orders db' = orders db ++ [order]
       | Err _ => orders db' = orders db
       end.
Proof.
  intros now newId user body db r db' H.
  apply createOrder_outcome in H as ((e & ->) & [->|(t & res & Hc)]).
  - auto.
  - apply apply_coupon_frame in Hc as (Hp & Hca & Ho & Hu). auto.
Qed.

(** The first checkout of the scenario: stock, carts and orders are as
    before. *)
Lemma createOrder_reserves_nothing_example :
  let run := createOrder Scenario.now "o1" "u1" Scenario.checkout Scenario.db0 in
  products (snd run) = products Scenario.db0
  /\ carts (snd run) = carts Scenario.db0
  /\ orders (snd run) = orders Scenario.db0.
Proof.
  intros run.
  destruct (createOrder_reserves_nothing Scenario.now "o1" "u1" Scenario.checkout
              Scenario.db0 (fst run) (snd run) (surjective_pairing run))
    as (Hp & Hc & _ & _).
  split; [exact Hp|]. split; [exact Hc|]. vm_compute. reflexivity.
Defined.

Lemma truthy_Some s : s <> "" -> truthy (Some s) = true.
Proof. intros H. unfold truthy. apply String.eqb_neq in H. now rewrite H. Qed.

Lemma apply_coupon_inv now code t db r db' :
  apply_coupon now code t db = (r, db') ->
  (truthy code = false /\ r = Ok 0%float /\ db' = db)
  \/ (truthy code = true /\ (exists e, r = Err e) /\ db' = db)
  \/ (truthy code = true
      /\ exists coupon,
           coupons db !! CouponModel.toUpperCase (default "" code) = Some coupon
           /\ c_isActive coupon = true
           /\ c_validFrom coupon <= now <= c_validUntil coupon
           /\ (forall limit, c_usageLimit coupon = Some limit -> limit <> 0 ->
                             c_usedCount coupon < limit)
           /\ (t <? c_minOrderAmount coupon)%float = false
           /\ r = Ok (coupon_discount coupon t)
           /\ db' = with_coupons
                      (<[CouponModel.toUpperCase (default "" code)
                         := set_usedCount (c_usedCount coupon + 1) coupon]> (coupons db))
                      db).
Proof.
  unfold apply_coupon. destruct (truthy code) eqn:Ht.
  2:{ intros H. injection H as <- <-. left. auto. }
  unfold bind, CouponModel.findOne.
  set (CODE := CouponModel.toUpperCase (default "" code)).
  destruct (coupons db !! CODE) as [c|] eqn:Hc.
  2:{ intros H. injection H as <- <-. right. left. eauto. }
  destruct (c_isActive c && (c_validFrom c <=? now) && (now <=? c_validUntil c)) eqn:Hv.
  2:{ intros H. injection H as <- <-. right. left. eauto. }
  apply andb_prop in Hv as [Hv Hu]. apply andb_prop in Hv as [Ha Hf].
  apply Z.leb_le in Hf, Hu.
  destruct (match c_usageLimit c with
            | Some limit => negb (limit =? 0) && (limit <=? c_usedCount c)
            | None => false
            end) eqn:Hl.
  { intros H. injection H as <- <-. right. left. eauto. }
  destruct (t <? c_minOrderAmount c)%float eqn:Hm.
  { intros H. injection H as <- <-. right. left. eauto. }
  unfold CouponModel.save, modify_db, ret. intros H. injection H as <- <-.
  right. right. split; [reflexivity|]. exists c.
  split; [reflexivity|]. split; [exact Ha|]. split; [lia|]. split.
  { intros limit Hlim Hnz. rewrite Hlim in Hl.
    apply andb_false_iff in Hl as [Hl|Hl].
    - apply negb_false_iff, Z.eqb_eq in Hl. contradiction.
    - apply Z.leb_gt in Hl. exact Hl. }
  split; [first [exact Hm|reflexivity]|]. split; reflexivity.
Qed.

(** What the coupon block does with a coupon it accepts. *)
Lemma apply_coupon_accepts now code t db coupon :
  code <> "" ->
  coupons db !! CouponModel.toUpperCase code = Some coupon ->
  c_isActive coupon = true ->
  c_validFrom coupon <= now <= c_validUntil coupon ->
  (forall limit, c_usageLimit coupon = Some limit -> limit <> 0 ->
                 c_usedCount coupon < limit) ->
  (t <? c_minOrderAmount coupon)%float = false ->
  apply_coupon now (Some code) t db
  = (Ok (coupon_discount coupon t),
     with_coupons
       (<[CouponModel.toUpperCase code := set_usedCount (c_usedCount coupon + 1) coupon]>
          (coupons db)) db).
Proof.
  intros Hne Hfind Ha [Hf Hu] Hl Hm.
  unfold apply_coupon. rewrite truthy_Some by exact Hne.
  unfold bind, CouponModel.findOne. cbn [default from_option].
  change (id code) with code. rewrite Hfind, Ha.
  rewrite (proj2 (Z.leb_le _ _) Hf), (proj2 (Z.leb_le _ _) Hu). cbn [andb].
  assert (match c_usageLimit coupon with
          | Some limit => negb (limit =? 0) && (limit <=? c_usedCount coupon)
          | None => false
          end = false) as ->.
  { destruct (c_usageLimit coupon) as [limit|]; [|reflexivity].
    destruct (limit =? 0) eqn:Hz; [reflexivity|]. cbn [negb andb].
    apply Z.eqb_neq in Hz. apply Z.leb_gt. now apply Hl. }
  rewrite Hm. reflexivity.
Qed.

(** X10. A coupon is spent on a checkout that stores no order.  Take a
    cart that is not empty and whose lines are all available, and a code
    whose coupon (looked up in upper case) is active, inside its
    validity window, below its usage limit and whose minimum amount the
    order reaches.  [createOrder] then counts one more use of the coupon
    and saves it, and ends in the validation error of [Order.create]: the
    use is counted, no order is stored, and nothing else is written. *)
Theorem createOrder_spends_coupon_without_order :
  forall now newId user pm code notes db cart coupon,
    carts db !! user = Some cart ->
    cart_items cart <> [] ->
    (forall item, item ∈ cart_items cart -> available db item) ->
    code <> "" ->
    coupons db !! CouponModel.toUpperCase code = Some coupon ->
    c_isActive coupon = true ->
    c_validFrom coupon <= now <= c_validUntil coupon ->
    (forall limit, c_usageLimit coupon = Some limit -> limit <> 0 ->
                   c_usedCount coupon < limit) ->
    (pre_discount_total (cart_lines db cart) <? c_minOrderAmount coupon)%float = false ->
    createOrder now newId user (mkCreateOrderBody pm (Some code) notes) db
    = (Err OrderModel.orderNumber_required,
       with_coupons
         (<[CouponModel.toUpperCase code := set_usedCount (c_usedCount coupon + 1) coupon]>
            (coupons db)) db).
Proof.
  intros now newId user pm code notes db cart coupon
         Hcart Hne Hall Hcode Hfind Ha Hw Hl Hm.
  eapply createOrder_accepted; [exact Hcart|exact Hne|exact Hall|].
  cbn [cb_couponCode]. now apply apply_coupon_accepts.
Qed.

(** The first customer uses the code in lower case: the coupon, which
    can be used once, is used up, and there is no order.  The second
    customer is then refused the coupon. *)
Lemma createOrder_coupon_example :
  exists db',
    createOrder Scenario.now "o1" "u1" checkout_save10 db0_coupon
    = (Err OrderModel.orderNumber_required, db')
    /\ orders db' = []
    /\ (c_usedCount <$> coupons db0_coupon !! "SAVE10") = Some 0
    /\ (c_usedCount <$> coupons db' !! "SAVE10") = Some 1
    /\ createOrder Scenario.now "o2" "u2" checkout_save10 db'
       = (Err (mkApiError 400 "Coupon usage limit has been reached"), db').
Proof.
  eexists. split.
  - apply (createOrder_spends_coupon_without_order Scenario.now "o1" "u1" razorpay
             "save10" None db0_coupon Scenario.cart1 save10).
    + reflexivity.
    + discriminate.
    + intros item Hin. apply list_elem_of_singleton in Hin. subst item.
      exists Scenario.productA. repeat split. vm_compute. discriminate.
    + discriminate.
    + reflexivity.
    + reflexivity.
    + vm_compute. split; discriminate.
    + intros limit Hlim _. injection Hlim as <-. reflexivity.
    + vm_compute. reflexivity.
  - split; [reflexivity|]. split; [reflexivity|]. split; vm_compute; reflexivity.
Defined.

(** X11. Checkout never takes a coupon past its usage limit: if every
    stored coupon is within its limit before [createOrder], every stored
    coupon is within its limit afterwards, whatever the outcome. *)
Theorem createOrder_respects_usage_limits :
  forall now newId user body db r db',
    (forall code c, coupons db !! code = Some c -> within_limit c) ->
    createOrder now newId user body db = (r, db') ->
    forall code c, coupons db' !! code = Some c -> within_limit c.
Proof.
  intros now newId user body db r db' Hinv Hrun.
  pose (step := fun cs' : gmap string Coupon =>
            cs' = coupons db
            \/ exists CODE coupon,
                 coupons db !! CODE = Some coupon
                 /\ (forall limit, c_usageLimit coupon = Some limit -> limit <> 0 ->
                                   c_usedCount coupon < limit)
                 /\ cs' = <[CODE := set_usedCount (c_usedCount coupon + 1) coupon]>
                            (coupons db)).
  assert (Hcoupon : forall t res db1,
            apply_coupon now (cb_couponCode body) t db = (res, db1) -> step (coupons db1)).
  { intros t res db1 Hc.
    apply apply_coupon_inv in Hc
      as [(_ & _ & ->)|[(_ & _ & ->)|(_ & coupon & Hf & _ & _ & Hl & _ & _ & ->)]];
      [left; reflexivity|left; reflexivity|].
    right. eexists _, coupon. split; [exact Hf|]. split; [exact Hl|reflexivity]. }
  assert (Hstep : step (coupons db')).
  { revert Hrun. unfold createOrder, bind, CartModel.findOne, throw.
    destruct (carts db !! user) as [cart|];
      [|intros H; injection H as _ <-; left; reflexivity].
    destruct (length (cart_items cart) =? 0)%nat;
      [intros H; injection H as _ <-; left; reflexivity|].
    unfold get_db, lift.
    destruct (validate_stock (populate_items db (cart_items cart))) as [lines|e0];
      [|intros H; injection H as _ <-; left; reflexivity].
    cbv beta iota.
    destruct (apply_coupon now (cb_couponCode body) _ db) as [[d|e0] db1] eqn:Hc;
      apply Hcoupon in Hc.
    - rewrite create_unnumbered by reflexivity.
      intros H. injection H as _ <-. exact Hc.
    - intros H. injection H as _ <-. exact Hc. }
  intros code c Hlook.
  destruct Hstep as [Heq|(CODE & coupon & Hf & Hl & Heq)].
  - rewrite Heq in Hlook. eauto.
  - rewrite Heq in Hlook. apply lookup_insert_Some in Hlook as [[<- <-]|[_ Hlook]].
    + unfold within_limit. cbn. destruct (c_usageLimit coupon) as [limit|]; [|exact I].
      intros Hnz. specialize (Hl limit eq_refl Hnz). lia.
    + eauto.
Qed.

Lemma createOrder_usage_limit_example :
  (forall code c, coupons db0_coupon !! code = Some c -> within_limit c)
  /\ forall code c,
       coupons (snd (createOrder Scenario.now "o1" "u1" checkout_save10 db0_coupon)) !! code
       = Some c ->
       within_limit c.
Proof.
  assert (H0 : forall code c, coupons db0_coupon !! code = Some c -> within_limit c).
  { intros code c H. cbn in H. apply lookup_singleton_Some in H as [_ <-].
    intros _. cbn. lia. }
  split; [exact H0|].
  exact (createOrder_respects_usage_limits Scenario.now "o1" "u1" checkout_save10 db0_coupon
           _ _ H0 (surjective_pairing _)).
Defined.

(* ===================================================================== *)
(** * Further properties: payment intents, cancellation, refunds          *)
(* ===================================================================== *)

Lemma stored_elem id db o :
  OrderModel.stored id db = Some o -> o ∈ orders db /\ o_id o = id.
Proof.
  unfold OrderModel.stored. intros H. split.
  - apply List.find_some in H as [H _]. now apply list_elem_of_In.
  - now apply find_has_id in H.
Qed.

(** On a reachable database, saving a loaded document whose status was
    not assigned stores the document as assigned. *)
Lemma save_numbered now loaded cur db :
  o_orderNumber cur <> "" ->
  o_status cur = o_status loaded ->
  OrderModel.save now loaded cur db
  = (Ok cur, with_orders (OrderModel.replace cur (orders db)) db).
Proof.
  intros Hn Hs. rewrite save_same_status by exact Hs.
  now rewrite orderNumber_hook_numbered.
Qed.

(** Saving with a changed status: the hook's entry is appended. *)
Lemma save_status_changed now loaded cur db :
  o_orderNumber cur <> "" ->
  o_status cur <> o_status loaded ->
  OrderModel.save now loaded cur db
  = (let saved :=
       set_statusHistory
         (o_statusHistory cur ++ [mkHistoryEntry (o_status cur) None None now]) cur in
     (Ok saved, with_orders (OrderModel.replace saved (orders db)) db)).
Proof.
  intros Hn Hs. rewrite save_unfold. cbv zeta.
  rewrite orderNumber_hook_numbered by exact Hn.
  rewrite bool_decide_eq_false_2 by exact Hs. reflexivity.
Qed.

(** ** Payment intents *)

(** X2. [createPaymentOrder] on a reachable database: a refused request
    (unknown order, another user's order, an order already paid, a
    cash-on-delivery order, a gateway failure) changes nothing; an
    accepted one is for an unpaid Razorpay order of the caller, sends
    the gateway the order's own options, and stores the gateway's order
    id on the order and nothing else. *)
Theorem createPaymentOrder_effect :
  forall gateway now user orderId db r db',
    well_formed db ->
    createPaymentOrder gateway now user orderId db = (r, db') ->
    match r with
    | Err _ => db' = db
    | Ok (saved, razorpayOrder) =>
        exists order,
          OrderModel.stored orderId db = Some order
          /\ o_userId order = user
          /\ pay_status (o_payment order) <> completed
          /\ pay_method (o_payment order) = razorpay
          /\ gateway (razorpay_options order) = Some razorpayOrder
          /\ saved = set_payment
                       (set_razorpayOrderId (Some (rzp_id razorpayOrder)) (o_payment order))
                       order
          /\ db' = with_orders (OrderModel.replace saved (orders db)) db
    end.
Proof.
  intros gateway now user orderId db r db' Hwf.
  unfold createPaymentOrder, bind, OrderModel.findById, throw.
  destruct (OrderModel.stored orderId db) as [order|] eqn:Hst;
    [|intros H; injection H as <- <-; reflexivity].
  destruct (String.eqb (o_userId order) user) eqn:Hu; cbn [negb];
    [|intros H; injection H as <- <-; reflexivity].
  destruct (bool_decide (pay_status (o_payment order) = completed)) eqn:Hp;
    [intros H; injection H as <- <-; reflexivity|].
  destruct (pay_method (o_payment order)) eqn:Hm;
    [|intros H; injection H as <- <-; reflexivity].
  unfold createRazorpayOrder.
  destruct (gateway (razorpay_options order)) as [rz|] eqn:Hg;
    [|intros H; injection H as <- <-; reflexivity].
  unfold ret at 1.
  apply stored_elem in Hst as Hel. destruct Hel as [Hel _].
  rewrite save_numbered;
    [|exact (well_formed_numbered _ _ Hwf Hel)|reflexivity].
  unfold ret. intros H. injection H as <- <-.
  exists order. apply String.eqb_eq in Hu. apply bool_decide_eq_false in Hp.
  split; [reflexivity|]. split; [exact Hu|]. split; [exact Hp|].
  split; [exact Hm|]. split; [exact Hg|]. split; reflexivity.
Qed.

Lemma scenario_db2_well_formed : well_formed Scenario.db2.
Proof.
  split.
  - apply (bool_decide_unpack _). vm_compute. exact I.
  - apply (bool_decide_unpack _). vm_compute. exact I.
Qed.

Lemma createPaymentOrder_example :
  let gateway := fun o => Some (mkRazorpayOrder "order_1" (ro_amount o) "INR") in
  let run := createPaymentOrder gateway Scenario.now "u1" "o1" Scenario.db2 in
  well_formed Scenario.db2
  /\ fst run
     = Ok (set_payment (set_razorpayOrderId (Some "order_1") (o_payment pending_order1))
                       pending_order1,
           mkRazorpayOrder "order_1" 226300 "INR")
  /\ match fst run with
     | Err _ => snd run = Scenario.db2
     | Ok (saved, razorpayOrder) =>
         exists order,
           OrderModel.stored "o1" Scenario.db2 = Some order
           /\ o_userId order = "u1"
           /\ pay_status (o_payment order) <> completed
           /\ pay_method (o_payment order) = razorpay
           /\ gateway (razorpay_options order) = Some razorpayOrder
           /\ saved = set_payment
                        (set_razorpayOrderId (Some (rzp_id razorpayOrder)) (o_payment order))
                        order
           /\ snd run
              = with_orders (OrderModel.replace saved (orders Scenario.db2)) Scenario.db2
     end.
Proof.
  intros gateway run.
  split; [exact scenario_db2_well_formed|].
  split; [vm_compute; reflexivity|].
  exact (createPaymentOrder_effect gateway Scenario.now "u1" "o1" Scenario.db2
           (fst run) (snd run) scenario_db2_well_formed (surjective_pairing run)).
Defined.

(** ** Webhook events out of order *)

Lemma stored_replace_same id db o o' :
  OrderModel.stored id db = Some o -> o_id o' = id ->
  OrderModel.stored id (with_orders (OrderModel.replace o' (orders db)) db) = Some o'.
Proof. unfold OrderModel.stored. cbn [orders with_orders]. apply find_replace_same. Qed.

(** X3. [handlePaymentFailed] has no guard on the payment status.  A
    [payment.failed] event for an order whose payment is completed marks
    it failed (touching neither stock nor carts); this defeats the
    guard of [handlePaymentCaptured], so that a redelivered
    [payment.captured] event takes the ordered quantities off the stock
    a second time, when the stock still covers them. *)
Theorem failed_event_reopens_paid_order :
  forall now payload notes orderId id gatewayOrder gatewayPayment order db,
    well_formed db ->
    Json.prop "notes" payload = Some notes ->
    Json.prop "orderId" notes = Some orderId ->
    Json.asString orderId = Some id ->
    Json.prop "order_id" payload = Some gatewayOrder ->
    Json.prop "id" payload = Some gatewayPayment ->
    OrderModel.stored id db = Some order ->
    pay_status (o_payment order) = completed ->
    stock_covers db (o_items order) ->
    exists db1 db2,
      handlePaymentFailed now payload db = (Ok tt, db1)
      /\ (pay_status ∘ o_payment <$> OrderModel.stored id db1) = Some failed
      /\ products db1 = products db
      /\ carts db1 = carts db
      /\ handlePaymentCaptured now payload db1 = (Ok tt, db2)
      /\ (pay_status ∘ o_payment <$> OrderModel.stored id db2) = Some completed
      /\ forall pid,
           products db2 !! pid
           = decremented (names pid (o_items order)) (ordered_quantity pid (o_items order))
               <$> products db !! pid.
Proof.
  intros now payload notes orderId id gatewayOrder gatewayPayment order db
         Hwf Hnotes HorderId Hid Hgo Hgp Hst Hpaid Hcov.
  set (marked := set_payment (set_pay_status failed (o_payment order)) order).
  set (db1 := with_orders (OrderModel.replace marked (orders db)) db).
  destruct (stored_elem _ _ _ Hst) as [Hel Hoid].
  assert (Hst1 : OrderModel.stored id db1 = Some marked).
  { apply stored_replace_same with (o := order); [exact Hst|exact Hoid]. }
  destruct (processSuccessfulPayment_spec now marked
              (mkPaymentDetails (Json.asString gatewayOrder) (Json.asString gatewayPayment)
                                (Some "")) db1 Hcov)
    as (saved & db2 & Hrun & Hprod & _ & Horders & _ & _ & Hsid & Hspay & _).
  exists db1, db2.
  split; [|split; [|split; [|split; [|split; [|split]]]]].
  - unfold handlePaymentFailed, try_catch, bind, access, findById_value.
    rewrite Hnotes. unfold ret at 1. rewrite HorderId. unfold ret at 1.
    rewrite Hid. unfold OrderModel.findById. rewrite Hst.
    rewrite save_numbered;
      [reflexivity|exact (well_formed_numbered _ _ Hwf Hel)|reflexivity].
  - rewrite Hst1. reflexivity.
  - reflexivity.
  - reflexivity.
  - unfold handlePaymentCaptured, try_catch, bind, access, findById_value.
    rewrite Hnotes. unfold ret at 1. rewrite HorderId. unfold ret at 1.
    rewrite Hid. unfold OrderModel.findById. rewrite Hst1.
    rewrite (bool_decide_eq_false_2 (pay_status (o_payment marked) = completed))
      by discriminate.
    rewrite Hgo. unfold ret at 1. rewrite Hgp. unfold ret at 1.
    rewrite Hrun. reflexivity.
  - assert (Hst2 : OrderModel.stored id db2 = Some saved).
    { unfold OrderModel.stored. rewrite Horders.
      apply find_replace_same with (o := marked); [exact Hst1|].
      rewrite Hsid. exact Hoid. }
    rewrite Hst2. cbn. now rewrite Hspay.
  - intros pid. rewrite Hprod. reflexivity.
Qed.

(** Order [o1] is paid (3 rings left); the failed event and a second
    captured event leave 1. *)
Lemma failed_event_example :
  exists db1 db2,
    handlePaymentFailed Scenario.now captured_entity Scenario.after_webhook = (Ok tt, db1)
    /\ handlePaymentCaptured Scenario.now captured_entity db1 = (Ok tt, db2)
    /\ Scenario.stock_of "pA" Scenario.after_webhook = Some 3
    /\ Scenario.stock_of "pA" db2 = Some 1.
Proof.
  destruct (failed_event_reopens_paid_order Scenario.now captured_entity
              (Some (JObj [ ("orderId", JStr "o1") ])) (Some (JStr "o1")) "o1"
              (Some (JStr "order_1")) (Some (JStr "pay_1"))
              (default (blank_order "" "") (OrderModel.stored "o1" Scenario.after_webhook))
              Scenario.after_webhook)
    as (db1 & db2 & Hf & _ & _ & _ & Hc & _ & Hstock).
  - split.
    + apply (bool_decide_unpack _). vm_compute. exact I.
    + apply (bool_decide_unpack _). vm_compute. exact I.
  - reflexivity.
  - reflexivity.
  - reflexivity.
  - reflexivity.
  - reflexivity.
  - vm_compute. reflexivity.
  - vm_compute. reflexivity.
  - split; apply (bool_decide_unpack _); vm_compute; exact I.
  - exists db1, db2.
    split; [exact Hf|split; [exact Hc|split]].
    + vm_compute. reflexivity.
    + unfold Scenario.stock_of. rewrite Hstock. vm_compute. reflexivity.
Defined.

(** ** Cancellation by the customer *)

Lemma cancellable_match {A : Type} (s : OrderStatus) (a b : A) :
  s <> shipped -> s <> delivered -> s <> cancelled ->
  match s with
  | shipped | delivered | cancelled => a
  | _ => b
  end = b.
Proof. destruct s; congruence. Qed.

Lemma restore_stock_run items db :
  restore_stock items db = (Ok tt, snd (restore_stock items db)).
Proof.
  destruct (restore_stock_spec items db) as (ps & H & _). now rewrite H.
Qed.

Lemma cancelOrder_run now user id reason db order :
  well_formed db ->
  OrderModel.stored id db = Some order ->
  o_userId order = user ->
  o_status order <> shipped -> o_status order <> delivered ->
  o_status order <> cancelled ->
  let cur := set_cancellationReason (or_else reason (Some "Cancelled by customer"))
               (set_status cancelled order) in
  let saved := set_statusHistory
                 (o_statusHistory order ++ [mkHistoryEntry cancelled None None now]) cur in
  let db1 := with_orders (OrderModel.replace saved (orders db)) db in
  cancelOrder now user id reason db
  = (Ok saved,
     if bool_decide (pay_status (o_payment order) = completed)
     then snd (restore_stock (o_items order) db1)
     else db1).
Proof.
  intros Hwf Hst Hu Hs Hd Hc cur saved db1.
  destruct (stored_elem _ _ _ Hst) as [Hel _].
  unfold cancelOrder, bind, OrderModel.findById. rewrite Hst.
  rewrite <- Hu, String.eqb_refl. cbn [negb].
  rewrite cancellable_match by assumption.
  fold cur.
  rewrite save_status_changed;
    [|exact (well_formed_numbered _ _ Hwf Hel)|cbn; congruence].
  cbv beta iota zeta. change (o_statusHistory cur) with (o_statusHistory order).
  change (o_status cur) with cancelled. fold saved. fold db1.
  change (pay_status (o_payment saved)) with (pay_status (o_payment order)).
  change (o_items saved) with (o_items order).
  destruct (bool_decide (pay_status (o_payment order) = completed)).
  - change (for_of (o_items order) _ db1) with (restore_stock (o_items order) db1).
    rewrite restore_stock_run. reflexivity.
  - reflexivity.
Qed.


Lemma scenario_paid2_well_formed : well_formed Scenario.paid2.
Proof.
  split.
  - apply (bool_decide_unpack _). vm_compute. exact I.
  - apply (bool_decide_unpack _). vm_compute. exact I.
Qed.


(** ** Refunds after cancellation, refunds after payment *)

Lemma well_formed_orders db db' :
  orders db' = orders db -> well_formed db -> well_formed db'.
Proof. unfold well_formed. now intros ->. Qed.

Lemma well_formed_replace o db :
  well_formed db -> o_orderNumber o <> "" ->
  well_formed (with_orders (OrderModel.replace o (orders db)) db).
Proof.
  intros [Hnd Hall] Hn. split; cbn [orders with_orders].
  - now rewrite replace_ids.
  - now apply replace_Forall.
Qed.

Lemma restore_stock_orders items db :
  orders (snd (restore_stock items db)) = orders db.
Proof.
  destruct (restore_stock_spec items db) as (ps & H & _). now rewrite H.
Qed.

Lemma restore_stock_products items db pid :
  products (snd (restore_stock items db)) !! pid
  = ProductModel.inc_stock (ordered_quantity pid items) <$> products db !! pid.
Proof.
  destruct (restore_stock_spec items db) as (ps & H & Hps). rewrite H. apply Hps.
Qed.

Lemma initiateRefund_run gateway now orderId reason db order paymentId refundId :
  well_formed db ->
  OrderModel.stored orderId db = Some order ->
  pay_status (o_payment order) = completed ->
  pay_razorpayPaymentId (o_payment order) = Some paymentId ->
  paymentId <> "" ->
  gateway paymentId (pr_total (o_pricing order)) reason = Some refundId ->
  let cur := set_cancellationReason (or_else reason (Some "Refund initiated by admin"))
               (set_status cancelled
                  (set_payment (set_pay_status refunded (o_payment order)) order)) in
  let saved := if decide (o_status order = cancelled) then cur
               else set_statusHistory
                      (o_statusHistory order ++ [mkHistoryEntry cancelled None None now])
                      cur in
  let db1 := with_orders (OrderModel.replace saved (orders db)) db in
  initiateRefund gateway now orderId reason db
  = (Ok (refundId, saved), snd (restore_stock (o_items order) db1)).
Proof.
  intros Hwf Hst Hpaid Hpid Hne Hgw cur saved db1.
  destruct (stored_elem _ _ _ Hst) as [Hel _].
  pose proof (well_formed_numbered _ _ Hwf Hel) as Hnum.
  unfold initiateRefund, bind, OrderModel.findById. rewrite Hst.
  rewrite Hpaid, Hpid.
  rewrite (bool_decide_eq_true_2 (completed = completed)) by reflexivity.
  rewrite (bool_decide_eq_false_2 (completed = refunded)) by discriminate.
  rewrite truthy_Some by exact Hne.
  cbn [negb default from_option id]. cbv beta.
  unfold PaymentService.initiateRefund. rewrite Hgw. unfold ret at 1. fold cur.
  assert (Hsave : OrderModel.save now order cur db = (Ok saved, db1)).
  { unfold db1, saved. destruct (decide (o_status order = cancelled)) as [Hc|Hc].
    - apply save_numbered; [exact Hnum|now rewrite Hc].
    - rewrite save_status_changed; [reflexivity|exact Hnum|cbn; congruence]. }
  rewrite Hsave. cbv beta iota.
  assert (Hitems : o_items saved = o_items order).
  { unfold saved. destruct (decide (o_status order = cancelled)); reflexivity. }
  rewrite Hitems.
  change (for_of (o_items order) _ db1) with (restore_stock (o_items order) db1).
  rewrite restore_stock_run. reflexivity.
Qed.

(** X5. Cancelling a paid order puts its stock back and leaves the
    payment [completed]; that is all [initiateRefund] asks for, so an
    admin refund of the cancelled order is accepted and puts the same
    stock back again: every product ends with twice the ordered quantity
    added. *)
Theorem cancel_then_refund_restores_twice :
  forall gateway now now' user id reason reason' db order paymentId refundId,
    well_formed db ->
    OrderModel.stored id db = Some order ->
    o_userId order = user ->
    o_status order ∉ [shipped; delivered; cancelled] ->
    pay_status (o_payment order) = completed ->
    pay_razorpayPaymentId (o_payment order) = Some paymentId ->
    paymentId <> "" ->
    gateway paymentId (pr_total (o_pricing order)) reason' = Some refundId ->
    exists saved1 db1 saved2 db2,
      cancelOrder now user id reason db = (Ok saved1, db1)
      /\ initiateRefund gateway now' id reason' db1 = (Ok (refundId, saved2), db2)
      /\ pay_status (o_payment saved2) = refunded
      /\ forall pid,
           products db2 !! pid
           = ProductModel.inc_stock (2 * ordered_quantity pid (o_items order))
               <$> products db !! pid.
Proof.
  intros gateway now now' user id reason reason' db order paymentId refundId
         Hwf Hst Hu Hnin Hpaid Hpid Hne Hgw.
  assert (Hs : o_status order <> shipped) by (intros E; apply Hnin; rewrite E; set_solver).
  assert (Hd : o_status order <> delivered) by (intros E; apply Hnin; rewrite E; set_solver).
  assert (Hc : o_status order <> cancelled) by (intros E; apply Hnin; rewrite E; set_solver).
  destruct (stored_elem _ _ _ Hst) as [Hel Hoid].
  pose proof (well_formed_numbered _ _ Hwf Hel) as Hnum.
  pose proof (cancelOrder_run now user id reason db order Hwf Hst Hu Hs Hd Hc) as Hcancel.
  cbv zeta in Hcancel.
  set (saved1 := set_statusHistory _ _) in Hcancel.
  set (dba := with_orders (OrderModel.replace saved1 (orders db)) db) in Hcancel.
  rewrite (bool_decide_eq_true_2 _ Hpaid) in Hcancel.
  set (db1 := snd (restore_stock (o_items order) dba)) in Hcancel.
  assert (Hwf1 : well_formed db1).
  { apply (well_formed_orders dba); [apply restore_stock_orders|].
    apply well_formed_replace; [exact Hwf|exact Hnum]. }
  assert (Hst1 : OrderModel.stored id db1 = Some saved1).
  { unfold OrderModel.stored, db1. rewrite restore_stock_orders.
    apply (stored_replace_same id db order saved1 Hst Hoid). }
  pose proof (initiateRefund_run gateway now' id reason' db1 saved1 paymentId refundId
                Hwf1 Hst1 Hpaid Hpid Hne Hgw) as Hrefund.
  cbv zeta in Hrefund.
  set (saved2 := if decide (o_status saved1 = cancelled) then _ else _) in Hrefund.
  set (dbb := with_orders (OrderModel.replace saved2 (orders db1)) db1) in Hrefund.
  exists saved1, db1, saved2, (snd (restore_stock (o_items saved1) dbb)).
  split; [exact Hcancel|]. split; [exact Hrefund|]. split.
  - unfold saved2. destruct (decide (o_status saved1 = cancelled)); reflexivity.
  - intros pid. rewrite restore_stock_products.
    change (products dbb) with (products db1). unfold db1.
    rewrite restore_stock_products. change (products dba) with (products db).
    change (o_items saved1) with (o_items order).
    destruct (products db !! pid) as [p|]; [|reflexivity].
    cbn [fmap option_fmap option_map]. rewrite inc_stock_inc_stock.
    do 2 f_equal. lia.
Qed.

(** The customer cancels the paid order [o2] (product B: 0 in stock,
    2 ordered), then the admin refunds it: 4 in stock. *)
Lemma cancel_then_refund_example :
  exists saved1 db1 saved2 db2,
    cancelOrder Scenario.now "u2" "o2" None Scenario.paid2 = (Ok saved1, db1)
    /\ initiateRefund Scenario.gateway_ok Scenario.now "o2" None db1
       = (Ok ("rfnd_1", saved2), db2)
    /\ Scenario.stock_of "pB" Scenario.db0 = Some 2
    /\ Scenario.stock_of "pB" Scenario.paid2 = Some 0
    /\ Scenario.stock_of "pB" db2 = Some 4.
Proof.
  destruct (cancel_then_refund_restores_twice Scenario.gateway_ok Scenario.now Scenario.now
              "u2" "o2" None None Scenario.paid2 paid_order2 "pay_2" "rfnd_1")
    as (saved1 & db1 & saved2 & db2 & Hc & Hr & _ & Hstock).
  - exact scenario_paid2_well_formed.
  - vm_compute. reflexivity.
  - reflexivity.
  - apply (bool_decide_unpack _). vm_compute. exact I.
  - reflexivity.
  - reflexivity.
  - discriminate.
  - reflexivity.
  - exists saved1, db1, saved2, db2.
    split; [exact Hc|split; [exact Hr|split; [|split]]].
    + vm_compute. reflexivity.
    + vm_compute. reflexivity.
    + unfold Scenario.stock_of. rewrite Hstock. vm_compute. reflexivity.
Defined.

Lemma save_fields now loaded cur db saved db' :
  OrderModel.save now loaded cur db = (Ok saved, db') ->
  o_payment saved = o_payment cur /\ o_pricing saved = o_pricing cur
  /\ o_items saved = o_items cur /\ o_id saved = o_id cur
  /\ o_status saved = o_status cur /\ o_userId saved = o_userId cur
  /\ o_orderNumber saved <> ""
  /\ db' = with_orders (OrderModel.replace saved (orders db)) db.
Proof.
  rewrite save_unfold. cbv zeta. intros H. injection H as <- <-.
  unfold OrderModel.statusHistory_hook.
  pose proof (orderNumber_hook_nonempty now db cur) as Hn.
  assert (Hf : o_payment (OrderModel.orderNumber_hook now db cur) = o_payment cur
               /\ o_pricing (OrderModel.orderNumber_hook now db cur) = o_pricing cur
               /\ o_items (OrderModel.orderNumber_hook now db cur) = o_items cur
               /\ o_id (OrderModel.orderNumber_hook now db cur) = o_id cur
               /\ o_status (OrderModel.orderNumber_hook now db cur) = o_status cur
               /\ o_userId (OrderModel.orderNumber_hook now db cur) = o_userId cur).
  { unfold OrderModel.orderNumber_hook.
    destruct (String.eqb (o_orderNumber cur) ""); repeat split. }
  destruct Hf as (H1 & H2 & H3 & H4 & H5 & H6).
  destruct (negb (bool_decide (o_status cur = o_status loaded)) && negb false);
    cbn; (split; [exact H1|]); (split; [exact H2|]); (split; [exact H3|]);
    (split; [exact H4|]); (split; [exact H5|]); (split; [exact H6|]);
    (split; [exact Hn|reflexivity]).
Qed.

Lemma processSuccessfulPayment_inv now order details db saved db' :
  PaymentService.processSuccessfulPayment now order details db = (Ok saved, db') ->
  exists dbs,
    OrderModel.save now order
      (set_status confirmed
         (set_payment
            (mkPayment (pay_method (o_payment order)) completed
               (pd_razorpayOrderId details) (pd_razorpayPaymentId details)
               (pd_razorpaySignature details) (Some now)) order)) db
    = (Ok saved, dbs).
Proof.
  unfold PaymentService.processSuccessfulPayment, try_catch, bind.
  destruct (OrderModel.save now order _ db) as [[s|e] dbs] eqn:Hsave; [|discriminate].
  destruct (for_of (o_items s) PaymentService.decrement_stock dbs) as [[[]|e] dbl];
    [|discriminate].
  unfold get_db, CartModel.findOneAndUpdate_clear.
  destruct (OrderModel.populated_user s dbl);
    intros H; injection H as <- _; eauto.
Qed.

(** X6. Paying an order that the stock covers and then refunding it:
    [verifyPayment] takes the ordered quantities off the stock and
    [initiateRefund] puts them back, so every product's [stock.quantity]
    is what it was before the payment; the customer's cart stays
    emptied. *)
Theorem pay_then_refund_restores_quantities :
  forall env gateway now now' user body reason db order refundId,
    well_formed db ->
    OrderModel.stored (vb_orderId body) db = Some order ->
    o_userId order ∈ users db ->
    o_userId order = user ->
    PaymentService.verifyPaymentSignature env (vb_razorpayOrderId body)
      (vb_razorpayPaymentId body) (vb_razorpaySignature body) = true ->
    vb_razorpayPaymentId body <> "" ->
    gateway (vb_razorpayPaymentId body) (pr_total (o_pricing order)) reason
    = Some refundId ->
    stock_covers db (o_items order) ->
    exists paid db1 refundedOrder db2,
      verifyPayment env now user body db = (Ok paid, db1)
      /\ initiateRefund gateway now' (vb_orderId body) reason db1
         = (Ok (refundId, refundedOrder), db2)
      /\ (forall pid,
            p_stock_quantity <$> products db2 !! pid
            = p_stock_quantity <$> products db !! pid)
      /\ carts db2 = alter (set_cart_items []) user (carts db).
Proof.
  intros env gateway now now' user body reason db order refundId
         Hwf Hst Huser Hown Hsig Hne Hgw Hcov.
  set (details := mkPaymentDetails (Some (vb_razorpayOrderId body))
                    (Some (vb_razorpayPaymentId body))
                    (Some (vb_razorpaySignature body))).
  destruct (processSuccessfulPayment_spec now order details db Hcov)
    as (paid & db1 & Hrun & Hprod & Hcarts & Horders & _ & _ & Hpid & _ & _ & Hitems & _).
  destruct (processSuccessfulPayment_inv _ _ _ _ _ _ Hrun) as (dbs & Hsave).
  apply save_fields in Hsave as (Hpay & Hpricing & _ & _ & _ & _ & Hnum & _).
  cbn in Hpay, Hpricing.
  destruct (stored_elem _ _ _ Hst) as [Hel Hoid].
  assert (Hwf1 : well_formed db1).
  { apply (well_formed_orders (with_orders (OrderModel.replace paid (orders db)) db));
      [exact Horders|].
    apply well_formed_replace; [exact Hwf|exact Hnum]. }
  assert (Hst1 : OrderModel.stored (vb_orderId body) db1 = Some paid).
  { unfold OrderModel.stored. rewrite Horders.
    apply find_replace_same with (o := order); [exact Hst|congruence]. }
  pose proof (initiateRefund_run gateway now' (vb_orderId body) reason db1 paid
                (vb_razorpayPaymentId body) refundId Hwf1 Hst1) as Hrefund.
  rewrite Hpay, Hpricing in Hrefund. cbn [pay_status pay_razorpayPaymentId] in Hrefund.
  specialize (Hrefund eq_refl eq_refl Hne Hgw). cbv zeta in Hrefund.
  rewrite <- Hpay in Hrefund.
  set (refundedOrder := if decide (o_status paid = cancelled) then _ else _) in Hrefund.
  set (dbb := with_orders (OrderModel.replace refundedOrder (orders db1)) db1) in Hrefund.
  exists paid, db1, refundedOrder, (snd (restore_stock (o_items paid) dbb)).
  split; [|split; [exact Hrefund|split]].
  - unfold verifyPayment, bind, OrderModel.findById, get_db. rewrite Hst.
    unfold OrderModel.populated_user. rewrite decide_True by exact Huser.
    rewrite Hown, String.eqb_refl, Hsig. cbn [negb]. cbv beta iota. exact Hrun.
  - intros pid. rewrite restore_stock_products.
    change (products dbb) with (products db1). rewrite Hprod, Hitems.
    destruct (products db !! pid) as [p|]; [|reflexivity].
    cbn [fmap option_fmap option_map]. f_equal.
    unfold decremented. destruct (names pid (o_items order)) eqn:Hnames.
    + cbn. lia.
    + unfold names in Hnames. apply bool_decide_eq_false in Hnames.
      rewrite ordered_quantity_absent by exact Hnames. cbn. lia.
  - assert (Hc : carts (snd (restore_stock (o_items paid) dbb)) = carts db1).
    { destruct (restore_stock_spec (o_items paid) dbb) as (ps & H & _).
      rewrite H. reflexivity. }
    rewrite Hc, Hcarts, decide_True by exact Huser. now rewrite Hown.
Qed.

Lemma pay_then_refund_example :
  exists paid db1 refundedOrder db2,
    verifyPayment Scenario.env Scenario.now "u2"
      (Scenario.verify_body "o2" "order_2" "pay_2") Scenario.db2 = (Ok paid, db1)
    /\ initiateRefund Scenario.gateway_ok Scenario.now "o2" None db1
       = (Ok ("rfnd_1", refundedOrder), db2)
    /\ Scenario.stock_of "pB" db1 = Some 0
    /\ Scenario.stock_of "pB" db2 = Scenario.stock_of "pB" Scenario.db2.
Proof.
  destruct (pay_then_refund_restores_quantities Scenario.env Scenario.gateway_ok
              Scenario.now Scenario.now "u2"
              (Scenario.verify_body "o2" "order_2" "pay_2") None Scenario.db2
              (default (blank_order "" "") (OrderModel.stored "o2" Scenario.db2)) "rfnd_1")
    as (paid & db1 & refundedOrder & db2 & Hv & Hr & Hq & _).
  - exact scenario_db2_well_formed.
  - vm_compute. reflexivity.
  - apply (bool_decide_unpack _). vm_compute. exact I.
  - vm_compute. reflexivity.
  - vm_compute. reflexivity.
  - discriminate.
  - reflexivity.
  - split; apply (bool_decide_unpack _); vm_compute; exact I.
  - exists paid, db1, refundedOrder, db2.
    split; [exact Hv|split; [exact Hr|split]].
    + assert (Hdb1 : db1 = Scenario.paid2).
      { unfold Scenario.paid2. now rewrite Hv. }
      rewrite Hdb1. vm_compute. reflexivity.
    + unfold Scenario.stock_of. apply Hq.
Defined.

(** ** Status updates by an admin *)

Lemma updateOrderStatus_run now admin id body db status order :
  sb_status body = Some status ->
  OrderModel.stored id db = Some order ->
  (status = confirmed -> o_status order = pending ->
   o_userId order ∈ users db /\ stock_covers db (o_items order)) ->
  exists saved db1,
    updateOrderStatus now admin id body db
    = (Ok saved, with_orders (OrderModel.replace saved (orders db1)) db1)
    /\ orders db1 = orders db /\ coupons db1 = coupons db
    /\ o_id saved = id /\ o_status saved = status
    /\ o_payment saved = o_payment order /\ o_items saved = o_items order
    /\ if bool_decide (status = confirmed) && bool_decide (o_status order = pending)
       then (forall pid,
               products db1 !! pid
               = decremented (names pid (o_items order))
                   (ordered_quantity pid (o_items order)) <$> products db !! pid)
            /\ carts db1 = alter (set_cart_items []) (o_userId order) (carts db)
       else db1 = db.
Proof.
  intros Hstatus Hstored Huser.
  destruct (stored_elem _ _ _ Hstored) as [_ Hoid].
  unfold updateOrderStatus. rewrite Hstatus. unfold bind at 1.
  unfold OrderModel.findById. rewrite Hstored.
  set (note := or_else (sb_note body) _).
  set (pushed := set_statusHistory _ (set_status status order)).
  set (tracked := if _ : bool then set_tracking _ pushed else pushed).
  assert (Hfields : o_status tracked = status /\ o_items tracked = o_items order
                    /\ o_id tracked = o_id order /\ o_payment tracked = o_payment order).
  { unfold tracked. destruct (_ && _); simpl; auto. }
  destruct Hfields as (Hst & Hitems & Hid & Hpay).
  assert (Hside : exists db1,
             (if bool_decide (status = confirmed) && bool_decide (o_status order = pending)
              then
                for_of (o_items tracked) PaymentService.decrement_stock ;;;
                db0 <- get_db ;;
                match OrderModel.populated_user order db0 with
                | Some owner => CartModel.findOneAndUpdate_clear (Some owner)
                | None => throw internal_error
                end
              else ret tt) db = (Ok tt, db1)
             /\ orders db1 = orders db /\ coupons db1 = coupons db
             /\ if bool_decide (status = confirmed) && bool_decide (o_status order = pending)
                then (forall pid,
                        products db1 !! pid
                        = decremented (names pid (o_items order))
                            (ordered_quantity pid (o_items order)) <$> products db !! pid)
                     /\ carts db1 = alter (set_cart_items []) (o_userId order) (carts db)
                else db1 = db).
  { destruct (bool_decide (status = confirmed)) eqn:Hc;
      destruct (bool_decide (o_status order = pending)) eqn:Hp; cbn [andb];
      try (exists db; repeat split; reflexivity).
    apply bool_decide_eq_true in Hc, Hp.
    destruct (Huser Hc Hp) as [Hu Hcov].
    destruct (decrement_loop_spec (o_items tracked) db) as (ps & Hrun & Hps).
    { rewrite Hitems. exact Hcov. }
    eexists. split.
    - unfold bind. rewrite Hrun. unfold get_db, OrderModel.populated_user.
      cbn [users with_products]. rewrite decide_True by exact Hu.
      reflexivity.
    - cbn. split; [reflexivity|]. split; [reflexivity|]. split; [|reflexivity].
      intros pid. rewrite Hps, Hitems. reflexivity. }
  destruct Hside as (db1 & Hside & Ho & Hcp & Heff).
  destruct (OrderModel.save now order tracked db1) as [r db2] eqn:Hsave.
  assert (Hok : exists saved, r = Ok saved).
  { rewrite save_unfold in Hsave. injection Hsave as <- _. eauto. }
  destruct Hok as (saved & ->).
  apply save_fields in Hsave as Hf.
  destruct Hf as (Hfpay & _ & Hfitems & Hfid & Hfst & _ & _ & Hdb2).
  exists saved, db1. split.
  - unfold bind in *. rewrite Hside. rewrite Hsave, Hdb2. reflexivity.
  - split; [exact Ho|]. split; [exact Hcp|]. split; [congruence|].
    split; [congruence|]. split; [congruence|]. split; [congruence|]. exact Heff.
Qed.

(** X7. [updateOrderStatus] checks no transition: whatever status the
    order has (delivered, cancelled, ...) and whatever status is asked
    for, the update is accepted and stored -- the step from pending to
    confirmed, which takes stock, provided that the owner exists and the
    stock covers the order.  The payment is never touched, and unless
    the step is pending to confirmed neither stock nor carts change:
    moving a paid order to cancelled or returned restores no stock and
    refunds nothing. *)
Theorem updateOrderStatus_accepts_any_transition :
  forall now admin id body db status order,
    sb_status body = Some status ->
    OrderModel.stored id db = Some order ->
    (status = confirmed -> o_status order = pending ->
     o_userId order ∈ users db /\ stock_covers db (o_items order)) ->
    exists saved db',
      updateOrderStatus now admin id body db = (Ok saved, db')
      /\ OrderModel.stored id db' = Some saved
      /\ o_status saved = status
      /\ o_payment saved = o_payment order
      /\ coupons db' = coupons db
      /\ (~ (status = confirmed /\ o_status order = pending) ->
          products db' = products db /\ carts db' = carts db).
Proof.
  intros now admin id body db status order Hstatus Hstored Huser.
  destruct (updateOrderStatus_run now admin id body db status order Hstatus Hstored Huser)
    as (saved & db1 & Hrun & Ho & Hcp & Hid & Hst & Hpay & _ & Heff).
  exists saved, (with_orders (OrderModel.replace saved (orders db1)) db1).
  split; [exact Hrun|]. split.
  { unfold OrderModel.stored. cbn [orders with_orders]. rewrite Ho.
    apply find_replace_same with (o := order); [exact Hstored|exact Hid]. }
  split; [exact Hst|]. split; [exact Hpay|]. split; [exact Hcp|].
  intros Hnot.
  destruct (bool_decide (status = confirmed)) eqn:Hc;
    destruct (bool_decide (o_status order = pending)) eqn:Hp; cbn [andb] in Heff;
    try (rewrite Heff; split; reflexivity).
  apply bool_decide_eq_true in Hc, Hp. exfalso. apply Hnot. split; assumption.
Qed.

(** The cancelled, refunded order of the scenario is put back to
    pending. *)
Lemma updateOrderStatus_reopen_example :
  exists saved db',
    updateOrderStatus Scenario.now "admin" "o2"
      (mkStatusBody (Some pending) None None None) Scenario.refunded2 = (Ok saved, db')
    /\ (o_status <$> OrderModel.stored "o2" Scenario.refunded2) = Some cancelled
    /\ o_status saved = pending
    /\ pay_status (o_payment saved) = refunded
    /\ products db' = products Scenario.refunded2.
Proof.
  destruct (updateOrderStatus_accepts_any_transition Scenario.now "admin" "o2"
              (mkStatusBody (Some pending) None None None) Scenario.refunded2 pending
              (default (blank_order "" "") (OrderModel.stored "o2" Scenario.refunded2)))
    as (saved & db' & Hrun & _ & Hst & Hpay & _ & Hframe).
  - reflexivity.
  - vm_compute. reflexivity.
  - intros Hc. discriminate Hc.
  - exists saved, db'.
    split; [exact Hrun|split; [vm_compute; reflexivity|split; [exact Hst|split]]].
    + rewrite Hpay. vm_compute. reflexivity.
    + apply Hframe. intros [Hc _]. discriminate Hc.
Defined.

(** X8. Confirming by hand a pending order that the stock covers does
    what a payment does: the ordered quantities leave the stock (with
    the in-stock flag recomputed by the save hook) and the owner's cart
    is emptied; the payment status stays as it was. *)
Theorem updateOrderStatus_confirm_takes_stock :
  forall now admin id body db order,
    sb_status body = Some confirmed ->
    OrderModel.stored id db = Some order ->
    o_status order = pending ->
    o_userId order ∈ users db ->
    stock_covers db (o_items order) ->
    exists saved db',
      updateOrderStatus now admin id body db = (Ok saved, db')
      /\ o_status saved = confirmed
      /\ o_payment saved = o_payment order
      /\ (forall pid,
            products db' !! pid
            = decremented (names pid (o_items order))
                (ordered_quantity pid (o_items order)) <$> products db !! pid)
      /\ (forall item p',
            item ∈ o_items order -> products db' !! oi_productId item = Some p' ->
            stock_flag_ok p')
      /\ carts db' = alter (set_cart_items []) (o_userId order) (carts db).
Proof.
  intros now admin id body db order Hstatus Hstored Hpending Huser Hcov.
  destruct (updateOrderStatus_run now admin id body db confirmed order Hstatus Hstored)
    as (saved & db1 & Hrun & Ho & Hcp & Hid & Hst & Hpay & _ & Heff);
    [intros _ _; split; [exact Huser|exact Hcov]|].
  rewrite (bool_decide_eq_true_2 (confirmed = confirmed)) in Heff by reflexivity.
  rewrite (bool_decide_eq_true_2 _ Hpending) in Heff. cbn [andb] in Heff.
  destruct Heff as [Hprod Hcarts].
  exists saved, (with_orders (OrderModel.replace saved (orders db1)) db1).
  split; [exact Hrun|]. split; [exact Hst|]. split; [exact Hpay|].
  split; [exact Hprod|]. split; [|exact Hcarts].
  intros item p' Hin Hp'. cbn [products with_orders] in Hp'.
  rewrite Hprod in Hp'.
  assert (Hn : names (oi_productId item) (o_items order) = true).
  { unfold names. apply bool_decide_eq_true. apply list_elem_of_fmap. eauto. }
  rewrite Hn in Hp'.
  destruct (products db !! oi_productId item) as [p|]; [|discriminate].
  cbn in Hp'. injection Hp' as <-. reflexivity.
Qed.

(** The admin confirms the pending order [o1]: 2 of the 5 rings go. *)
Lemma updateOrderStatus_confirm_example :
  exists saved db',
    updateOrderStatus Scenario.now "admin" "o1"
      (mkStatusBody (Some confirmed) None None None) Scenario.db2 = (Ok saved, db')
    /\ pay_status (o_payment saved) = pay_pending
    /\ Scenario.stock_of "pA" db' = Some 3
    /\ Scenario.cart_of "u1" db' = Some [].
Proof.
  destruct (updateOrderStatus_confirm_takes_stock Scenario.now "admin" "o1"
              (mkStatusBody (Some confirmed) None None None) Scenario.db2 pending_order1)
    as (saved & db' & Hrun & _ & Hpay & Hprod & _ & Hcarts).
  - reflexivity.
  - vm_compute. reflexivity.
  - reflexivity.
  - apply (bool_decide_unpack _). vm_compute. exact I.
  - split; apply (bool_decide_unpack _); vm_compute; exact I.
  - exists saved, db'.
    split; [exact Hrun|split; [|split]].
    + rewrite Hpay. reflexivity.
    + unfold Scenario.stock_of. rewrite Hprod. vm_compute. reflexivity.
    + unfold Scenario.cart_of. rewrite Hcarts. vm_compute. reflexivity.
Defined.
(* ===================================================================== *)
(** * Further properties: the cart                                        *)
(* ===================================================================== *)

Lemma findIndex_Some {A} (f : A -> bool) (xs : list A) (i : nat) :
  findIndex f xs = Some i ->
  exists x, xs !! i = Some x /\ f x = true
            /\ forall j y, (j < i)%nat -> xs !! j = Some y -> f y = false.
Proof.
  revert i. induction xs as [|x xs IH]; intros i; cbn; [discriminate|].
  destruct (f x) eqn:Hx.
  - intros H. injection H as <-. exists x. split; [reflexivity|]. split; [exact Hx|].
    intros j y Hj. lia.
  - destruct (findIndex f xs) as [k|]; [|discriminate].
    cbn. intros H. injection H as <-.
    destruct (IH k eq_refl) as (y & Hl & Hy & Hbefore). exists y.
    split; [exact Hl|]. split; [exact Hy|].
    intros [|j] z Hj Hz; cbn in Hz.
    + now injection Hz as <-.
    + apply (Hbefore j); [lia|exact Hz].
Qed.

Lemma findIndex_None {A} (f : A -> bool) (xs : list A) :
  findIndex f xs = None -> Forall (fun x => f x = false) xs.
Proof.
  induction xs as [|x xs IH]; cbn; [constructor|].
  destruct (f x) eqn:Hx; [discriminate|].
  destruct (findIndex f xs); [discriminate|]. intros _. constructor; auto.
Qed.

(** What [cart.save()] comes to: a cart with a line below 1 is refused
    and nothing is written; otherwise the cart is stored with the total
    of its lines. *)
Lemma cart_save_inv user cart db r db' :
  CartDocument.save user cart db = (r, db') ->
  match r with
  | Err e => statusCode e = 400 /\ db' = db
  | Ok saved =>
      saved = CartDocument.total_hook cart
      /\ Forall (fun item => 1 <= ci_quantity item) (cart_items cart)
      /\ db' = with_carts (<[user := saved]> (carts db)) db
  end.
Proof.
  unfold CartDocument.save, CartDocument.validate, bind.
  destruct (List.filter CartDocument.too_low (cart_items cart)) as [|bad rest] eqn:Hf.
  - unfold ret, modify_db. intros H. injection H as <- <-.
    split; [reflexivity|]. split; [|reflexivity].
    apply Forall_forall. intros item Hin.
    destruct (CartDocument.too_low item) eqn:Hlow.
    + assert (Hin' : In item (List.filter CartDocument.too_low (cart_items cart))).
      { apply List.filter_In. split; [now apply list_elem_of_In|exact Hlow]. }
      rewrite Hf in Hin'. destruct Hin'.
    + unfold CartDocument.too_low in Hlow. apply Z.ltb_ge in Hlow. exact Hlow.
  - unfold throw. intros H. injection H as <- <-. split; reflexivity.
Qed.

Lemma cart_save_empty user total db :
  CartDocument.save user (mkCart [] total) db
  = (Ok (mkCart [] 0), with_carts (<[user := mkCart [] 0]> (carts db)) db).
Proof. reflexivity. Qed.

(** What a run of [addToCart] comes to. *)
Lemma addToCart_spec :
  forall ToNumber sellingPrice user productId verbatim quantity db r db',
    addToCart ToNumber sellingPrice user productId verbatim quantity db = (r, db') ->
    match r with
    | Err _ => db' = db
    | Ok cart' =>
        let old := cart_items (default CartDocument.new (carts db !! user)) in
        exists product stored,
          products db !! productId = Some product
          /\ p_isActive product = true
          /\ less_than ToNumber (p_stock_quantity product) quantity = false
          /\ ((exists i existing,
                 verbatim = true
                 /\ old !! i = Some existing
                 /\ ci_productId existing = productId
                 /\ (forall j item, (j < i)%nat -> old !! j = Some item ->
                                    ci_productId item <> productId)
                 /\ less_than ToNumber (p_stock_quantity product)
                              (plus (ci_quantity existing) quantity) = false
                 /\ cast_quantity ToNumber (plus (ci_quantity existing) quantity)
                    = Ok stored
                 /\ cart_items cart' = <[i := mkCartItem productId stored sellingPrice]> old)
              \/ ((verbatim = false \/ productId ∉ map ci_productId old)
                  /\ cast_quantity ToNumber quantity = Ok stored
                  /\ cart_items cart' = old ++ [mkCartItem productId stored sellingPrice]))
          /\ cart_totalAmount cart' = CartDocument.calculateTotal (cart_items cart')
          /\ Forall (fun item => 1 <= ci_quantity item) (cart_items cart')
          /\ db' = with_carts (<[user := cart']> (carts db)) db
    end.
Proof.
  intros ToNumber sellingPrice user productId verbatim quantity db r db'.
  unfold addToCart, bind, ProductModel.findById, CartModel.findOne, throw, lift.
  destruct (products db !! productId) as [product|] eqn:Hprod;
    [|intros H; injection H as <- <-; reflexivity].
  destruct (p_isActive product) eqn:Hact; cbn [negb];
    [|intros H; injection H as <- <-; reflexivity].
  destruct (less_than ToNumber (p_stock_quantity product) quantity) eqn:Hq;
    [intros H; injection H as <- <-; reflexivity|].
  set (cart := default CartDocument.new (carts db !! user)).
  set (old := cart_items cart).
  destruct (findIndex _ old) as [i|] eqn:Hi.
  - destruct (findIndex_Some _ _ _ Hi) as (existing & Hl & Hp & Hbefore).
    apply andb_true_iff in Hp as [Hp Hv]. apply String.eqb_eq in Hp.
    rewrite Hl.
    destruct (less_than ToNumber (p_stock_quantity product)
                        (plus (ci_quantity existing) quantity)) eqn:Hn;
      [intros H; injection H as <- <-; reflexivity|].
    destruct (cast_quantity ToNumber (plus (ci_quantity existing) quantity))
      as [stored|e] eqn:Hcast;
      [|intros H; injection H as <- <-; reflexivity].
    intros H. apply cart_save_inv in H. destruct r as [cart'|e]; [|apply H].
    destruct H as (-> & Hmin & ->).
    cbv zeta. fold cart. fold old.
    cbn [CartDocument.total_hook cart_items cart_totalAmount set_cart_items] in Hmin |- *.
    exists product, stored. split; [first [reflexivity|assumption]|].
    split; [first [reflexivity|assumption]|].
    split; [first [reflexivity|assumption]|].
    split; [|split; [reflexivity|split; [exact Hmin|reflexivity]]].
    left. exists i, existing.
    split; [exact Hv|]. split; [exact Hl|]. split; [exact Hp|]. split.
    { intros j item Hj Hitem Heq. specialize (Hbefore j item Hj Hitem).
      rewrite Hv, Heq, String.eqb_refl in Hbefore. discriminate Hbefore. }
    split; [first [reflexivity|assumption]|].
    split; [first [reflexivity|assumption]|].
    unfold set_line. now rewrite Hp.
  - apply findIndex_None in Hi.
    destruct (cast_quantity ToNumber quantity) as [stored|e] eqn:Hcast;
      [|intros H; injection H as <- <-; reflexivity].
    intros H. apply cart_save_inv in H. destruct r as [cart'|e]; [|apply H].
    destruct H as (-> & Hmin & ->).
    cbv zeta. fold cart. fold old.
    cbn [CartDocument.total_hook cart_items cart_totalAmount set_cart_items] in Hmin |- *.
    exists product, stored. split; [first [reflexivity|assumption]|].
    split; [first [reflexivity|assumption]|].
    split; [first [reflexivity|assumption]|].
    split; [|split; [reflexivity|split; [exact Hmin|reflexivity]]].
    right. split; [|split; first [reflexivity|assumption]].
    destruct verbatim; [right|left; reflexivity].
    intros Hin. apply list_elem_of_fmap in Hin as (item & Heq & Hin).
    rewrite Forall_forall in Hi. specialize (Hi item Hin).
    rewrite <- Heq, String.eqb_refl in Hi. discriminate Hi.
Qed.

(** X12. [addToCart].  A refused request changes nothing.  After an
    accepted one the product exists and is active, and the stock is not
    below the quantity asked for, as JavaScript compares the two.  When
    the request spells the product id as the cart does and the cart has
    a line for the product, the first such line gets the sum of its
    quantity and the quantity asked for, as JavaScript adds the two and
    Mongoose casts the result, which the stock is not below, and the
    current selling price.  Otherwise -- no line for the product, or the
    id spelled in another way -- a line is added at the end, with the
    quantity as Mongoose casts it (1 when none was sent): the cart can
    then hold two lines for one product.  No other line changes; the
    stored total is the sum over the lines, each of which has a quantity
    of 1 or more; only this user's cart is written. *)
Theorem addToCart_effect :
  forall ToNumber sellingPrice user productId verbatim quantity db r db',
    addToCart ToNumber sellingPrice user productId verbatim quantity db = (r, db') ->
    match r with
    | Err _ => db' = db
    | Ok cart' =>
        let old := cart_items (default CartDocument.new (carts db !! user)) in
        exists product stored,
          products db !! productId = Some product
          /\ p_isActive product = true
          /\ less_than ToNumber (p_stock_quantity product) quantity = false
          /\ ((exists i existing,
                 verbatim = true
                 /\ old !! i = Some existing
                 /\ ci_productId existing = productId
                 /\ (forall j item, (j < i)%nat -> old !! j = Some item ->
                                    ci_productId item <> productId)
                 /\ less_than ToNumber (p_stock_quantity product)
                              (plus (ci_quantity existing) quantity) = false
                 /\ cast_quantity ToNumber (plus (ci_quantity existing) quantity)
                    = Ok stored
                 /\ cart_items cart' = <[i := mkCartItem productId stored sellingPrice]> old)
              \/ ((verbatim = false \/ productId ∉ map ci_productId old)
                  /\ cast_quantity ToNumber quantity = Ok stored
                  /\ cart_items cart' = old ++ [mkCartItem productId stored sellingPrice]))
          /\ cart_totalAmount cart' = CartDocument.calculateTotal (cart_items cart')
          /\ Forall (fun item => 1 <= ci_quantity item) (cart_items cart')
          /\ db' = with_carts (<[user := cart']> (carts db)) db
    end.
Proof. exact addToCart_spec. Qed.

(** The first customer, who has two rings in the cart, adds one more:
    the line goes from 2 to 3.  The same request with the quantity as
    the text [1] asks for 21 rings, and is refused; without a quantity
    it fails validation; with the product id spelled in another way it
    adds a second line for the rings. *)
Lemma addToCart_example :
  let add := addToCart digits_value 1100 "u1" "pA" in
  (cart_items <$> carts (snd (add true (js_number 1) Scenario.db0)) !! "u1")
  = Some [mkCartItem "pA" 3 1100]
  /\ add true (js_string "1") Scenario.db0
     = (Err (maximum_available 5), Scenario.db0)
  /\ add true js_undefined Scenario.db0
     = (Err (cast_failed "NaN" "number"), Scenario.db0)
  /\ (cart_items <$> carts (snd (add false js_undefined Scenario.db0)) !! "u1")
     = Some [mkCartItem "pA" 2 1000; mkCartItem "pA" 1 1100]
  /\ match fst (add true (js_number 1) Scenario.db0) with
     | Err _ => snd (add true (js_number 1) Scenario.db0) = Scenario.db0
     | Ok cart' => cart_totalAmount cart' = CartDocument.calculateTotal (cart_items cart')
     end.
Proof.
  intros add.
  split; [vm_compute; reflexivity|]. split; [vm_compute; reflexivity|].
  split; [vm_compute; reflexivity|]. split; [vm_compute; reflexivity|].
  pose proof (addToCart_effect digits_value 1100 "u1" "pA" true (js_number 1) Scenario.db0
                (fst (add true (js_number 1) Scenario.db0))
                (snd (add true (js_number 1) Scenario.db0))
                (surjective_pairing _)) as H.
  destruct (fst (add true (js_number 1) Scenario.db0)) as [cart'|e]; [|exact H].
  cbv zeta in H. destruct H as (product & stored & _ & _ & _ & _ & Htot & _). exact Htot.
Defined.

Lemma updateCartItem_spec sellingPrice user line quantity db r db' :
  updateCartItem sellingPrice user line quantity db = (r, db') ->
  match r with
  | Err _ => db' = db
  | Ok cart' =>
      exists cart i item product,
        carts db !! user = Some cart
        /\ line = Some i
        /\ cart_items cart !! i = Some item
        /\ products db !! ci_productId item = Some product
        /\ p_isActive product = true
        /\ quantity <= p_stock_quantity product
        /\ cart_items cart'
           = <[i := mkCartItem (ci_productId item) quantity sellingPrice]> (cart_items cart)
        /\ cart_totalAmount cart' = CartDocument.calculateTotal (cart_items cart')
        /\ db' = with_carts (<[user := cart']> (carts db)) db
  end.
Proof.
  unfold updateCartItem, bind, CartModel.findOne, ProductModel.findById, throw.
  destruct (carts db !! user) as [cart|] eqn:Hcart;
    [|intros H; injection H as <- <-; reflexivity].
  destruct line as [i|]; [|intros H; injection H as <- <-; reflexivity].
  cbn [items_id mbind option_bind].
  destruct (cart_items cart !! i) as [item|] eqn:Hitem;
    [|intros H; injection H as <- <-; reflexivity].
  destruct (products db !! ci_productId item) as [product|] eqn:Hprod;
    [|intros H; injection H as <- <-; reflexivity].
  destruct (p_isActive product) eqn:Hact; cbn [negb];
    [|intros H; injection H as <- <-; reflexivity].
  destruct (p_stock_quantity product <? quantity) eqn:Hq;
    [intros H; injection H as <- <-; reflexivity|].
  apply Z.ltb_ge in Hq.
  intros H. apply cart_save_inv in H. destruct r as [cart'|e]; [|apply H].
  destruct H as (-> & _ & ->).
  exists cart, i, item, product.
  split; [reflexivity|]. split; [reflexivity|]. split; [exact Hitem|].
  split; [exact Hprod|]. split; [exact Hact|]. split; [exact Hq|].
  split; [reflexivity|]. split; reflexivity.
Qed.

Lemma removeFromCart_spec user line verbatim db r db' :
  removeFromCart user line verbatim db = (r, db') ->
  match r with
  | Err _ => db' = db
  | Ok cart' =>
      exists cart i item,
        carts db !! user = Some cart
        /\ line = Some i
        /\ cart_items cart !! i = Some item
        /\ cart_items cart' = without i verbatim (cart_items cart)
        /\ cart_totalAmount cart' = CartDocument.calculateTotal (cart_items cart')
        /\ Forall (fun item => 1 <= ci_quantity item) (cart_items cart')
        /\ db' = with_carts (<[user := cart']> (carts db)) db
  end.
Proof.
  unfold removeFromCart, bind, CartModel.findOne, throw.
  destruct (carts db !! user) as [cart|] eqn:Hcart;
    [|intros H; injection H as <- <-; reflexivity].
  destruct line as [i|]; [|intros H; injection H as <- <-; reflexivity].
  cbn [items_id mbind option_bind].
  destruct (cart_items cart !! i) as [item|] eqn:Hitem;
    [|intros H; injection H as <- <-; reflexivity].
  intros H. apply cart_save_inv in H. destruct r as [cart'|e]; [|apply H].
  destruct H as (-> & Hmin & ->).
  exists cart, i, item.
  split; [reflexivity|]. split; [reflexivity|]. split; [exact Hitem|].
  split; [reflexivity|]. split; [reflexivity|]. split; [exact Hmin|reflexivity].
Qed.

Lemma carts_ok_insert user cart db :
  carts_ok db -> cart_ok cart ->
  carts_ok (with_carts (<[user := cart]> (carts db)) db).
Proof.
  intros Hok Hc u c. cbn [carts with_carts]. intros H.
  apply lookup_insert_Some in H as [[_ <-]|[_ H]]; [exact Hc|eauto].
Qed.

(** X13. What the five cart handlers keep: if every stored cart carries
    the total of its lines, as [calculateTotal] computes it, then after
    a cart request, of any user and with any outcome, that is still
    so. *)
Theorem cart_handler_keeps_carts_ok :
  forall ToNumber user request db r db',
    carts_ok db ->
    cart_handler ToNumber user request db = (r, db') ->
    carts_ok db'.
Proof.
  intros ToNumber user request db r db' Hok.
  destruct request as [|price pid verbatim q|price line q|line verbatim|];
    cbn [cart_handler].
  - unfold getCart, bind, CartModel.findOne.
    destruct (carts db !! user) as [cart|].
    + intros H. injection H as _ <-. exact Hok.
    + unfold CartDocument.new. rewrite cart_save_empty. intros H. injection H as _ <-.
      apply carts_ok_insert; [exact Hok|reflexivity].
  - intros H. apply addToCart_spec in H. destruct r as [cart'|e]; [|now subst].
    cbv zeta in H. destruct H as (product & stored & _ & _ & _ & _ & Htot & _ & ->).
    apply carts_ok_insert; [exact Hok|exact Htot].
  - intros H. apply updateCartItem_spec in H. destruct r as [cart'|e]; [|now subst].
    destruct H as (cart & i & item & product & _ & _ & _ & _ & _ & _ & _ & Htot & ->).
    apply carts_ok_insert; [exact Hok|exact Htot].
  - intros H. apply removeFromCart_spec in H. destruct r as [cart'|e]; [|now subst].
    destruct H as (cart & i & item & _ & _ & _ & _ & Htot & _ & ->).
    apply carts_ok_insert; [exact Hok|exact Htot].
  - unfold clearCart, bind, CartModel.findOne, throw.
    destruct (carts db !! user) as [cart|].
    + unfold set_cart_items. rewrite cart_save_empty. intros H. injection H as _ <-.
      apply carts_ok_insert; [exact Hok|reflexivity].
    + intros H. injection H as _ <-. exact Hok.
Qed.

Lemma scenario_db0_carts_ok : carts_ok Scenario.db0.
Proof.
  intros user cart H. cbn [carts Scenario.db0] in H.
  apply lookup_insert_Some in H as [[_ <-]|[_ H]].
  - vm_compute. reflexivity.
  - apply lookup_singleton_Some in H as [_ <-]. vm_compute. reflexivity.
Qed.

Lemma cart_handler_example :
  carts_ok Scenario.db0
  /\ carts_ok (snd (cart_handler digits_value "u1"
                      (AddToCart 1000 "pB" true (js_number 1)) Scenario.db0)).
Proof.
  split; [exact scenario_db0_carts_ok|].
  exact (cart_handler_keeps_carts_ok digits_value "u1"
           (AddToCart 1000 "pB" true (js_number 1)) Scenario.db0 _ _
           scenario_db0_carts_ok (surjective_pairing _)).
Defined.

(** X14. [updateCartItem].  A refused request (no cart, no such line,
    product gone or inactive, quantity above the stock, or a line left
    below 1) changes nothing.
    An accepted one gives the addressed line the quantity asked for, at
    most the stock of its product, and the current selling price; the
    line keeps its product, all other lines are as they were, and the
    stored total is the sum over the lines. *)
Theorem updateCartItem_effect :
  forall sellingPrice user line quantity db r db',
    updateCartItem sellingPrice user line quantity db = (r, db') ->
    match r with
    | Err _ => db' = db
    | Ok cart' =>
        exists cart i item product,
          carts db !! user = Some cart
          /\ line = Some i
          /\ cart_items cart !! i = Some item
          /\ products db !! ci_productId item = Some product
          /\ p_isActive product = true
          /\ quantity <= p_stock_quantity product
          /\ cart_items cart' !! i
             = Some (mkCartItem (ci_productId item) quantity sellingPrice)
          /\ (forall j, j <> i -> cart_items cart' !! j = cart_items cart !! j)
          /\ length (cart_items cart') = length (cart_items cart)
          /\ cart_totalAmount cart' = CartDocument.calculateTotal (cart_items cart')
          /\ carts db' = <[user := cart']> (carts db)
          /\ products db' = products db /\ orders db' = orders db
    end.
Proof.
  intros sellingPrice user line quantity db r db' H.
  apply updateCartItem_spec in H. destruct r as [cart'|e]; [|exact H].
  destruct H as (cart & i & item & product & Hc & Hline & Hi & Hp & Ha & Hq
                 & Hitems & Htot & ->).
  exists cart, i, item, product.
  split; [exact Hc|]. split; [exact Hline|]. split; [exact Hi|]. split; [exact Hp|].
  split; [exact Ha|]. split; [exact Hq|]. rewrite Hitems. split.
  { apply list_lookup_insert_eq. now apply lookup_lt_Some in Hi. }
  split; [intros j Hj; now apply list_lookup_insert_ne|].
  split; [apply length_insert|]. rewrite <- Hitems.
  split; [exact Htot|]. split; [reflexivity|]. split; reflexivity.
Qed.

(** The first customer asks for five rings on the first line, then for
    six. *)
Lemma updateCartItem_example :
  let run := updateCartItem 1100 "u1" (Some 0%nat) 5 Scenario.db0 in
  (cart_items <$> carts (snd run) !! "u1") = Some [mkCartItem "pA" 5 1100]
  /\ snd (updateCartItem 1100 "u1" (Some 0%nat) 6 Scenario.db0) = Scenario.db0
  /\ match fst run with
     | Err _ => snd run = Scenario.db0
     | Ok cart' => length (cart_items cart') = 1%nat
     end.
Proof.
  intros run.
  split; [vm_compute; reflexivity|]. split; [vm_compute; reflexivity|].
  pose proof (updateCartItem_effect 1100 "u1" (Some 0%nat) 5 Scenario.db0
                (fst run) (snd run) (surjective_pairing run)) as H.
  destruct (fst run) as [cart'|e]; [|exact H].
  destruct H as (cart & i & item & product & Hc & _ & _ & _ & _ & _ & _ & _ & Hlen & _).
  rewrite Hlen. vm_compute in Hc. injection Hc as <-. reflexivity.
Defined.

(** X15. [removeFromCart].  A refused request (no cart, no such line)
    changes nothing.  On an accepted one, when the request spells the
    line id as the cart does, exactly the addressed line is taken out:
    the lines before it stay and the lines after it move up by one.  In
    another spelling, which [items.id] finds as well, the filter matches
    no line: the answer is a success and every line is still there.  In
    both cases the stored total is the sum over the lines that remain,
    each of which has a quantity of 1 or more: a cart with a line below
    that is not saved again. *)
Theorem removeFromCart_effect :
  forall user line verbatim db r db',
    removeFromCart user line verbatim db = (r, db') ->
    match r with
    | Err _ => db' = db
    | Ok cart' =>
        exists cart i item,
          carts db !! user = Some cart
          /\ line = Some i
          /\ cart_items cart !! i = Some item
          /\ (verbatim = true ->
              S (length (cart_items cart')) = length (cart_items cart)
              /\ (forall j, (j < i)%nat -> cart_items cart' !! j = cart_items cart !! j)
              /\ (forall j, (i <= j)%nat ->
                            cart_items cart' !! j = cart_items cart !! S j))
          /\ (verbatim = false -> cart_items cart' = cart_items cart)
          /\ cart_totalAmount cart' = CartDocument.calculateTotal (cart_items cart')
          /\ Forall (fun item => 1 <= ci_quantity item) (cart_items cart')
          /\ carts db' = <[user := cart']> (carts db)
          /\ products db' = products db /\ orders db' = orders db
    end.
Proof.
  intros user line verbatim db r db' H.
  apply removeFromCart_spec in H. destruct r as [cart'|e]; [|exact H].
  destruct H as (cart & i & item & Hc & Hline & Hi & Hitems & Htot & Hmin & ->).
  exists cart, i, item.
  split; [exact Hc|]. split; [exact Hline|]. split; [exact Hi|]. rewrite Hitems. split.
  { intros ->. cbn [without]. split.
    - rewrite length_delete by (rewrite Hi; eauto).
      apply lookup_lt_Some in Hi. lia.
    - split; [intros j Hj; now apply list_lookup_delete_lt|].
      intros j Hj; now apply list_lookup_delete_ge. }
  split; [intros ->; reflexivity|]. rewrite <- Hitems.
  split; [exact Htot|]. split; [exact Hmin|]. split; [reflexivity|]. split; reflexivity.
Qed.

(** The first customer removes the only line; with the line id spelled
    in another way, the line stays. *)
Lemma removeFromCart_example :
  let run := removeFromCart "u1" (Some 0%nat) true Scenario.db0 in
  carts (snd run) !! "u1" = Some (mkCart [] 0)
  /\ removeFromCart "u1" (Some 0%nat) false Scenario.db0
     = (Ok Scenario.cart1, Scenario.db0)
  /\ snd (removeFromCart "u1" (Some 1%nat) true Scenario.db0) = Scenario.db0
  /\ match fst run with
     | Err _ => snd run = Scenario.db0
     | Ok cart' => S (length (cart_items cart')) = 1%nat
     end.
Proof.
  intros run.
  split; [vm_compute; reflexivity|]. split; [vm_compute; reflexivity|].
  split; [vm_compute; reflexivity|].
  pose proof (removeFromCart_effect "u1" (Some 0%nat) true Scenario.db0
                (fst run) (snd run) (surjective_pairing run)) as H.
  destruct (fst run) as [cart'|e]; [|exact H].
  destruct H as (cart & i & item & Hc & _ & _ & Hlen & _).
  destruct (Hlen eq_refl) as (Hl & _).
  rewrite Hl. vm_compute in Hc. injection Hc as <-. reflexivity.
Defined.

(** X16. A payment empties the customer's cart with
    [Cart.findOneAndUpdate], which runs no save hook: the lines go, the
    stored [totalAmount] stays.  After a [verifyPayment] that the stock
    covers, the cart that [getCart] answers has no lines and the total of
    the lines it had; [clearCart], which saves the document, would have
    stored 0. *)
Theorem payment_leaves_cart_total_stale :
  forall env now user body db order cart,
    OrderModel.stored (vb_orderId body) db = Some order ->
    o_userId order ∈ users db ->
    o_userId order = user ->
    PaymentService.verifyPaymentSignature env (vb_razorpayOrderId body)
      (vb_razorpayPaymentId body) (vb_razorpaySignature body) = true ->
    stock_covers db (o_items order) ->
    carts db !! user = Some cart ->
    exists paid db',
      verifyPayment env now user body db = (Ok paid, db')
      /\ getCart user db' = (Ok (mkCart [] (cart_totalAmount cart)), db')
      /\ (cart_totalAmount cart <> 0%float -> ~ carts_ok db')
      /\ fst (clearCart user db) = Ok (mkCart [] 0).
Proof.
  intros env now user body db order cart Hst Huser Hown Hsig Hcov Hcart.
  destruct (verifyPayment_valid_signature env now user body db order
              Hst Huser Hown Hsig Hcov)
    as (paid & db' & Hrun & _ & Hcarts).
  assert (Hc' : carts db' !! user = Some (mkCart [] (cart_totalAmount cart))).
  { rewrite Hcarts, lookup_alter_eq, Hcart. reflexivity. }
  exists paid, db'. split; [exact Hrun|]. split; [|split].
  - unfold getCart, bind, CartModel.findOne. rewrite Hc'. reflexivity.
  - intros Hnz Hok. apply Hnz. exact (Hok user _ Hc').
  - unfold clearCart, bind, CartModel.findOne. rewrite Hcart. reflexivity.
Qed.

(** After the payment of [o1] the cart of [u1] is empty and still shows
    2000. *)
Lemma payment_stale_total_example :
  exists paid db',
    verifyPayment Scenario.env Scenario.now "u1"
      (Scenario.verify_body "o1" "order_1" "pay_1") Scenario.db2 = (Ok paid, db')
    /\ getCart "u1" db' = (Ok (mkCart [] 2000), db')
    /\ ~ carts_ok db'.
Proof.
  destruct (payment_leaves_cart_total_stale Scenario.env Scenario.now "u1"
              (Scenario.verify_body "o1" "order_1" "pay_1") Scenario.db2
              pending_order1 Scenario.cart1)
    as (paid & db' & Hrun & Hget & Hbad & _).
  - vm_compute. reflexivity.
  - apply (bool_decide_unpack _). vm_compute. exact I.
  - reflexivity.
  - vm_compute. reflexivity.
  - split; apply (bool_decide_unpack _); vm_compute; exact I.
  - vm_compute. reflexivity.
  - exists paid, db'. split; [exact Hrun|]. split; [exact Hget|].
    apply Hbad. cbn. intros H. discriminate H.
Defined.

(* ===================================================================== *)
(** * Further properties: the catalogue                                   *)
(* ===================================================================== *)

Lemma stock_hook_ok p : stock_flag_ok (ProductModel.stock_hook p).
Proof. reflexivity. Qed.

Lemma stock_hook_id p : stock_flag_ok p -> ProductModel.stock_hook p = p.
Proof.
  unfold stock_flag_ok, ProductModel.stock_hook, set_stock. destruct p; cbn.
  now intros ->.
Qed.

Lemma with_products_id db : with_products (products db) db = db.
Proof. now destruct db. Qed.

(** X17. Viewing a product counts the view and saves the product, and
    the save hook derives the in-stock flag from the quantity again.
    [getProductById] answers 404 for an unknown id and changes nothing.
    For a product whose stock is negative the save fails validation
    (status 400) and nothing changes.  Otherwise the product it shows
    and stores has one view more and the flag in line with its quantity,
    and is otherwise the product that was stored; no other product, cart
    or order changes. *)
Theorem getProductById_counts_view :
  forall id db r db',
    getProductById id db = (r, db') ->
    match products db !! id with
    | None => r = Err (mkApiError 404 "Product not found") /\ db' = db
    | Some p =>
        if p_stock_quantity p <? 0
        then r = Err (ProductModel.below_minimum (p_stock_quantity p)) /\ db' = db
        else
          exists shown,
            r = Ok shown
            /\ shown = set_stock (p_stock_quantity p) (0 <? p_stock_quantity p)
                         (set_views (p_views p + 1) p)
            /\ p_views shown = p_views p + 1
            /\ stock_flag_ok shown
            /\ p_stock_quantity shown = p_stock_quantity p
            /\ p_isActive shown = p_isActive p
            /\ products db' = <[id := shown]> (products db)
            /\ carts db' = carts db /\ orders db' = orders db
            /\ coupons db' = coupons db /\ users db' = users db
    end.
Proof.
  intros id db r db'.
  unfold getProductById, bind, ProductModel.findById, throw.
  destruct (products db !! id) as [p|] eqn:Hp.
  - unfold ProductModel.save. cbn [p_stock_quantity set_views].
    destruct (p_stock_quantity p <? 0).
    + unfold throw. intros H. injection H as <- <-. split; reflexivity.
    + unfold modify_db, ret. intros H. injection H as <- <-.
      eexists. split; [reflexivity|]. repeat split.
  - intros H. injection H as <- <-. split; reflexivity.
Qed.

(** Product B after the refund of [o2]: 2 in stock and flagged out of
    stock; a view of the product puts the flag right and is counted. *)
Lemma getProductById_example :
  let run := getProductById "pB" Scenario.refunded2 in
  Scenario.flag_of "pB" Scenario.refunded2 = Some false
  /\ Scenario.stock_of "pB" Scenario.refunded2 = Some 2
  /\ Scenario.flag_of "pB" (snd run) = Some true
  /\ (p_views <$> products Scenario.refunded2 !! "pB") = Some 0
  /\ (p_views <$> products (snd run) !! "pB") = Some 1
  /\ snd run <> Scenario.refunded2
  /\ match products Scenario.refunded2 !! "pB" with
     | None => snd run = Scenario.refunded2
     | Some p =>
         if p_stock_quantity p <? 0 then snd run = Scenario.refunded2
         else exists shown, fst run = Ok shown /\ p_views shown = p_views p + 1
     end.
Proof.
  intros run.
  split; [vm_compute; reflexivity|]. split; [vm_compute; reflexivity|].
  split; [vm_compute; reflexivity|]. split; [vm_compute; reflexivity|].
  split; [vm_compute; reflexivity|]. split.
  { intros H. apply (f_equal (fun db => p_views <$> products db !! "pB")) in H.
    vm_compute in H. discriminate H. }
  pose proof (getProductById_counts_view "pB" Scenario.refunded2
                (fst run) (snd run) (surjective_pairing run)) as H.
  destruct (products Scenario.refunded2 !! "pB") as [p|]; [|apply H].
  destruct (p_stock_quantity p <? 0); [apply H|].
  destruct H as (shown & Hr & _ & Hv & _). exists shown. split; [exact Hr|exact Hv].
Defined.

Lemma createOrder_rejects now newId user body db cart e :
  carts db !! user = Some cart ->
  cart_items cart <> [] ->
  validate_stock (populate_items db (cart_items cart)) = Err e ->
  createOrder now newId user body db = (Err e, db).
Proof.
  intros Hcart Hne He.
  unfold createOrder, bind, CartModel.findOne. rewrite Hcart.
  destruct (cart_items cart) as [|x xs] eqn:Hitems; [contradiction|].
  cbn [length Nat.eqb]. cbv iota. unfold get_db, lift. rewrite He. reflexivity.
Qed.

(** X18. [deleteProduct] is a soft delete: the product, whose stock the
    schema keeps from being negative, stays in the catalogue with its
    stock, marked inactive.  From then on nobody can put it in a cart,
    and every checkout of a cart that has it on a line is refused, in
    both cases without any change to the database.  (Were the stored
    stock negative, the save would fail validation and the product stay
    as it is.) *)
Theorem deleteProduct_stops_sales :
  forall id db p,
    products db !! id = Some p ->
    (0 <= p_stock_quantity p ->
     exists db1 p1,
       deleteProduct id db = (Ok tt, db1)
       /\ products db1 !! id = Some p1
       /\ p_isActive p1 = false
       /\ p_stock_quantity p1 = p_stock_quantity p
       /\ carts db1 = carts db /\ orders db1 = orders db
       /\ (forall ToNumber sellingPrice user verbatim quantity,
             exists e,
               addToCart ToNumber sellingPrice user id verbatim quantity db1
               = (Err e, db1))
       /\ (forall now newId user body cart item,
             carts db !! user = Some cart ->
             item ∈ cart_items cart ->
             ci_productId item = id ->
             exists e, createOrder now newId user body db1 = (Err e, db1)))
    /\ (p_stock_quantity p < 0 ->
        deleteProduct id db
        = (Err (ProductModel.below_minimum (p_stock_quantity p)), db)).
Proof.
  intros id db p Hp. split.
  - intros Hq.
    set (p1 := ProductModel.stock_hook (set_isActive false p)).
    set (db1 := with_products (<[id := p1]> (products db)) db).
    assert (Hp1 : products db1 !! id = Some p1) by apply lookup_insert_eq.
    exists db1, p1.
    split.
    { unfold deleteProduct, bind, ProductModel.findById. rewrite Hp.
      unfold ProductModel.save. cbn [p_stock_quantity set_isActive].
      rewrite (proj2 (Z.ltb_ge _ _) Hq). reflexivity. }
    split; [exact Hp1|]. split; [reflexivity|]. split; [reflexivity|].
    split; [reflexivity|]. split; [reflexivity|]. split.
    + intros ToNumber sellingPrice user verbatim quantity.
      unfold addToCart, bind, ProductModel.findById. rewrite Hp1.
      cbn [p_isActive p1 negb]. eexists. reflexivity.
    + intros now newId user body cart item Hcart Hin Hid.
      assert (Hbad : unavailable db1 item).
      { unfold unavailable. rewrite Hid, Hp1. left. reflexivity. }
      destruct (validate_stock_rejects db1 _ _ Hin Hbad) as [e He].
      exists e. apply (createOrder_rejects now newId user body db1 cart e).
      * exact Hcart.
      * intros Hnil. rewrite Hnil in Hin. now apply elem_of_nil in Hin.
      * exact He.
  - intros Hq. unfold deleteProduct, bind, ProductModel.findById. rewrite Hp.
    unfold ProductModel.save. cbn [p_stock_quantity set_isActive].
    rewrite (proj2 (Z.ltb_lt _ _) Hq). reflexivity.
Qed.

(** The ring is taken off sale: the first customer, whose cart has two
    rings, can no longer check out. *)
Lemma deleteProduct_example :
  exists db1,
    deleteProduct "pA" Scenario.db0 = (Ok tt, db1)
    /\ Scenario.stock_of "pA" db1 = Some 5
    /\ exists e, createOrder Scenario.now "o1" "u1" Scenario.checkout db1 = (Err e, db1).
Proof.
  destruct (proj1 (deleteProduct_stops_sales "pA" Scenario.db0 Scenario.productA eq_refl))
    as (db1 & p1 & Hrun & Hp1 & _ & Hq & _ & _ & _ & Hcheckout).
  - vm_compute. discriminate.
  - exists db1. split; [exact Hrun|]. split.
    + unfold Scenario.stock_of. rewrite Hp1. cbn. now rewrite Hq.
    + apply (Hcheckout Scenario.now "o1" "u1" Scenario.checkout Scenario.cart1
               (mkCartItem "pA" 2 1000)).
      * reflexivity.
      * apply list_elem_of_singleton. reflexivity.
      * reflexivity.
Defined.

(* ===================================================================== *)
(** * Further properties: login and the account lock                      *)
(* ===================================================================== *)

Section Accounts.

Import Auth.

Lemma updateOne_ids id f us :
  keeps_keys f -> map u_id (updateOne id f us) = map u_id us.
Proof.
  intros Hf. induction us as [|x xs IH]; cbn; [reflexivity|].
  destruct (String.eqb (u_id x) id); cbn.
  - now rewrite (proj1 (Hf x)).
  - now rewrite IH.
Qed.

Lemma updateOne_others id f us :
  Forall2 (fun x y => u_id x <> id -> y = x) us (updateOne id f us).
Proof.
  induction us as [|x xs IH]; cbn; [constructor|].
  destruct (String.eqb (u_id x) id) eqn:Hx.
  - apply String.eqb_eq in Hx. constructor; [intros Hne; contradiction|].
    apply Forall2_diag_intro. auto.
  - constructor; [auto|exact IH].
Qed.

Lemma find_updateOne (p : User -> bool) f us u :
  NoDup (map u_id us) ->
  (forall x, p (f x) = p x) ->
  List.find p us = Some u ->
  List.find p (updateOne (u_id u) f us) = Some (f u).
Proof.
  intros Hnd Hp. induction us as [|x xs IH]; cbn; [discriminate|].
  apply NoDup_cons in Hnd as [Hx Hnd].
  destruct (String.eqb (u_id x) (u_id u)) eqn:Hid; cbn.
  - rewrite Hp. destruct (p x) eqn:Hpx.
    + intros H. injection H as <-. reflexivity.
    + intros H. exfalso. apply Hx. apply String.eqb_eq in Hid. rewrite Hid.
      apply List.find_some in H as [H _]. apply list_elem_of_fmap.
      exists u. split; [reflexivity|]. now apply list_elem_of_In.
  - destruct (p x) eqn:Hpx.
    + intros H. injection H as <-. rewrite String.eqb_refl in Hid. discriminate.
    + intros H. now apply IH.
Qed.

Lemma findOne_updateOne body f us u :
  NoDup (map u_id us) -> keeps_keys f ->
  findOne body us = Some u ->
  findOne body (updateOne (u_id u) f us) = Some (f u).
Proof.
  intros Hnd Hf. unfold findOne. destruct (truthy (lb_email body)).
  - apply find_updateOne; [exact Hnd|]. intros x. now rewrite (proj1 (proj2 (Hf x))).
  - destruct (lb_phone body) as [phone|]; [|discriminate].
    apply find_updateOne; [exact Hnd|]. intros x. now rewrite (proj2 (proj2 (Hf x))).
Qed.

Lemma keeps_keys_inc now this : keeps_keys (incLoginAttempts now this).
Proof.
  intros x. unfold incLoginAttempts.
  destruct (match u_lockUntil this with Some t => t <? now | None => false end);
    [repeat split|].
  destruct ((maxAttempts <=? u_loginAttempts this + 1) && negb (isLocked now this));
    repeat split.
Qed.

Lemma keeps_keys_reset : keeps_keys resetLoginAttempts.
Proof. intros x. repeat split. Qed.

Lemma keeps_keys_lastLogin t : keeps_keys (set_lastLogin t).
Proof. intros x. repeat split. Qed.

(** A wrong password on an account that is not locked. *)
Lemma login_wrong_password compare now body us u :
  findOne body us = Some u ->
  isLocked now u = false ->
  comparePassword compare (lb_password body) u = false ->
  login compare now body us
  = (Err invalid_credentials, updateOne (u_id u) (incLoginAttempts now u) us).
Proof. intros Hf Hl Hc. unfold login. now rewrite Hf, Hl, Hc. Qed.

Lemma login_locked compare now body us u :
  findOne body us = Some u ->
  isLocked now u = true ->
  login compare now body us = (Err account_locked, us).
Proof. intros Hf Hl. unfold login. now rewrite Hf, Hl. Qed.

Lemma set_loginAttempts_id u : set_loginAttempts (u_loginAttempts u) u = u.
Proof. now destruct u. Qed.

(** Failures below the limit only count. *)
Lemma logins_below_limit compare body times us u :
  NoDup (map u_id us) ->
  findOne body us = Some u ->
  u_lockUntil u = None ->
  comparePassword compare (lb_password body) u = false ->
  u_loginAttempts u + Z.of_nat (length times) < maxAttempts ->
  exists us',
    logins compare body times us
    = (replicate (length times) (Err invalid_credentials), us')
    /\ NoDup (map u_id us')
    /\ findOne body us'
       = Some (set_loginAttempts (u_loginAttempts u + Z.of_nat (length times)) u).
Proof.
  revert us u. induction times as [|now later IH]; intros us u Hnd Hf Hlock Hc Hlt.
  - exists us. cbn [logins length replicate]. split; [reflexivity|]. split; [exact Hnd|].
    cbn [Z.of_nat]. rewrite Z.add_0_r, set_loginAttempts_id. exact Hf.
  - cbn [logins length].
    assert (Hl : isLocked now u = false) by (unfold isLocked; now rewrite Hlock).
    rewrite (login_wrong_password compare now body us u Hf Hl Hc).
    assert (Hinc : incLoginAttempts now u
                   = fun stored => set_loginAttempts (u_loginAttempts stored + 1) stored).
    { unfold incLoginAttempts. rewrite Hlock.
      assert ((maxAttempts <=? u_loginAttempts u + 1) = false) as ->; [|reflexivity].
      apply Z.leb_gt. cbn [length] in Hlt. lia. }
    rewrite Hinc.
    set (f := fun stored => set_loginAttempts (u_loginAttempts stored + 1) stored).
    assert (Hk : keeps_keys f) by (intros x; repeat split).
    destruct (IH (updateOne (u_id u) f us) (f u)) as (us' & Hrun & Hnd' & Hf').
    + now rewrite updateOne_ids.
    + now apply findOne_updateOne.
    + exact Hlock.
    + exact Hc.
    + cbn [length] in Hlt. cbn. lia.
    + exists us'. rewrite Hrun. cbn [replicate]. split; [reflexivity|].
      split; [exact Hnd'|]. rewrite Hf'. f_equal. cbn.
      unfold set_loginAttempts. cbn. f_equal. lia.
Qed.

(** X19. Five wrong passwords in a row lock the account.  For an account
    with no failed attempts and no lock, five logins with a wrong
    password, at any five times, are each answered 401; after the fifth
    the account is locked for two hours from the time of that attempt,
    and until then every login for it, whatever the password, is
    answered 423 and changes nothing. *)
Theorem five_failures_lock_the_account :
  forall compare body us u t1 t2 t3 t4 t5,
    NoDup (map u_id us) ->
    findOne body us = Some u ->
    u_loginAttempts u = 0 ->
    u_lockUntil u = None ->
    comparePassword compare (lb_password body) u = false ->
    exists us5,
      logins compare body [t1; t2; t3; t4; t5] us
      = (replicate 5 (Err invalid_credentials), us5)
      /\ findOne body us5
         = Some (set_lockUntil (Some (t5 + lockTime)) (set_loginAttempts 5 u))
      /\ forall compare' now password,
           now < t5 + lockTime ->
           login compare' now (mkLoginBody (lb_email body) (lb_phone body) password) us5
           = (Err account_locked, us5).
Proof.
  intros compare body us u t1 t2 t3 t4 t5 Hnd Hf Ha Hlock Hc.
  destruct (logins_below_limit compare body [t1; t2; t3; t4] us u Hnd Hf Hlock Hc)
    as (us4 & Hrun4 & Hnd4 & Hf4).
  { rewrite Ha. cbn. unfold maxAttempts. lia. }
  rewrite Ha in Hf4. cbn in Hf4.
  set (u4 := set_loginAttempts 4 u) in Hf4.
  assert (Hl4 : isLocked t5 u4 = false) by (unfold isLocked; cbn; now rewrite Hlock).
  assert (Hc4 : comparePassword compare (lb_password body) u4 = false) by exact Hc.
  pose proof (login_wrong_password compare t5 body us4 u4 Hf4 Hl4 Hc4) as Hrun5.
  set (us5 := updateOne (u_id u4) (incLoginAttempts t5 u4) us4) in Hrun5.
  assert (Hf5 : findOne body us5 = Some (incLoginAttempts t5 u4 u4)).
  { apply findOne_updateOne; [exact Hnd4|apply keeps_keys_inc|exact Hf4]. }
  assert (Hu5 : incLoginAttempts t5 u4 u4
                = set_lockUntil (Some (t5 + lockTime)) (set_loginAttempts 5 u)).
  { unfold incLoginAttempts, isLocked. cbn. rewrite Hlock. reflexivity. }
  rewrite Hu5 in Hf5.
  exists us5. split; [|split; [exact Hf5|]].
  - change [t1; t2; t3; t4; t5] with ([t1] ++ [t2; t3; t4; t5]).
    cbn [logins app]. cbn [logins] in Hrun4.
    destruct (login compare t1 body us) as [a1 us1].
    destruct (login compare t2 body us1) as [a2 us2].
    destruct (login compare t3 body us2) as [a3 us3].
    destruct (login compare t4 body us3) as [a4 us4'].
    injection Hrun4 as -> -> -> -> ->.
    rewrite Hrun5. reflexivity.
  - intros compare' now password Hnow.
    apply login_locked with (u := set_lockUntil (Some (t5 + lockTime)) (set_loginAttempts 5 u)).
    + unfold findOne in *. exact Hf5.
    + unfold isLocked. cbn. now apply Z.ltb_lt.
Qed.


(** Five guesses at Alice's password, a second apart; an hour later her
    own password is refused as well. *)
Lemma five_failures_example :
  exists us5,
    Auth.logins bcrypt_compare (alice_says "guess")
      [1000; 2000; 3000; 4000; 5000] accounts
    = (replicate 5 (Err Auth.invalid_credentials), us5)
    /\ Auth.login bcrypt_compare 3605000 (alice_says "secret-one") us5
       = (Err Auth.account_locked, us5)
    /\ fst (Auth.login bcrypt_compare 3605000 (alice_says "secret-one") accounts)
       = Ok "u1".
Proof.
  destruct (five_failures_lock_the_account bcrypt_compare (alice_says "guess") accounts
              alice 1000 2000 3000 4000 5000)
    as (us5 & Hrun & _ & Hlocked).
  - apply (bool_decide_unpack _). vm_compute. exact I.
  - reflexivity.
  - reflexivity.
  - reflexivity.
  - reflexivity.
  - exists us5. split; [exact Hrun|]. split; [|reflexivity].
    apply (Hlocked bcrypt_compare 3605000 "secret-one"). reflexivity.
Defined.

Lemma others_trans id (l0 l1 l2 : list User) :
  Forall2 (fun x y => u_id x <> id -> y = x) l0 l1 ->
  Forall2 (fun x y => u_id x <> id -> y = x) l1 l2 ->
  map u_id l1 = map u_id l0 ->
  Forall2 (fun x y => u_id x <> id -> y = x) l0 l2.
Proof.
  intros H1. revert l2. induction H1 as [|x y xs ys Hxy _ IH]; intros l2 H2 Hids.
  - inversion H2. constructor.
  - inversion H2 as [|y' z ys' zs Hyz H2' E1 E2]; subst.
    cbn in Hids. injection Hids as Hid Hids.
    constructor.
    + intros Hne. rewrite Hyz by congruence. now apply Hxy.
    + now apply IH.
Qed.

(** X20. A login with the right password, on an account that is not
    locked.  If the account is verified the login succeeds, and in the
    stored account the failed attempts are back to 0, any lock is
    removed and [lastLogin] is the time of the request.  If it is not
    verified the answer is 403 and nothing is written: the attempts are
    neither reset nor counted.  No other account changes. *)
Theorem login_with_right_password :
  forall compare now body us u,
    NoDup (map u_id us) ->
    findOne body us = Some u ->
    isLocked now u = false ->
    comparePassword compare (lb_password body) u = true ->
    if u_isVerified u
    then exists us',
           login compare now body us = (Ok (u_id u), us')
           /\ findOne body us'
              = Some (set_lastLogin (Some now) (set_lockUntil None (set_loginAttempts 0 u)))
           /\ Forall2 (fun x y => u_id x <> u_id u -> y = x) us us'
    else login compare now body us = (Err not_verified, us).
Proof.
  intros compare now body us u Hnd Hf Hl Hc.
  unfold login. rewrite Hf, Hl, Hc. cbn [negb].
  destruct (u_isVerified u); cbn [negb]; [|reflexivity].
  eexists. split; [reflexivity|]. split.
  - apply (findOne_updateOne body (set_lastLogin (Some now))
             (updateOne (u_id u) resetLoginAttempts us) (resetLoginAttempts u)).
    + now rewrite updateOne_ids by apply keeps_keys_reset.
    + apply keeps_keys_lastLogin.
    + apply findOne_updateOne; [exact Hnd|apply keeps_keys_reset|exact Hf].
  - apply others_trans with (l1 := updateOne (u_id u) resetLoginAttempts us).
    + apply updateOne_others.
    + apply updateOne_others.
    + apply updateOne_ids, keeps_keys_reset.
Qed.

Lemma login_with_right_password_example :
  (exists us',
      login bcrypt_compare 1000 (alice_says "secret-one") accounts = (Ok "u1", us')
      /\ findOne (alice_says "secret-one") us'
         = Some (set_lastLogin (Some 1000) alice))
  /\ login bcrypt_compare 1000 (mkLoginBody None (Some "9000000002") "secret-two") accounts
     = (Err not_verified, accounts).
Proof.
  assert (Hnd : NoDup (map u_id accounts))
    by (apply (bool_decide_unpack _); vm_compute; exact I).
  split.
  - destruct (login_with_right_password bcrypt_compare 1000 (alice_says "secret-one")
                accounts alice Hnd eq_refl eq_refl eq_refl)
      as (us' & Hrun & Hf & _).
    exists us'. split; [exact Hrun|exact Hf].
  - exact (login_with_right_password bcrypt_compare 1000
             (mkLoginBody None (Some "9000000002") "secret-two")
             accounts bob Hnd eq_refl eq_refl eq_refl).
Defined.

(** X21. A login with a wrong password, on an account that is not
    locked, is answered 401 and counted on the stored account, and on no
    other.  If the account carries a lock that has run out, the lock is
    removed and the count restarts at 1.  Otherwise the count goes up by
    one, and when it reaches 5 the account is locked for two hours from
    now. *)
Theorem login_with_wrong_password :
  forall compare now body us u,
    NoDup (map u_id us) ->
    findOne body us = Some u ->
    isLocked now u = false ->
    comparePassword compare (lb_password body) u = false ->
    exists us' u',
      login compare now body us = (Err invalid_credentials, us')
      /\ findOne body us' = Some u'
      /\ Forall2 (fun x y => u_id x <> u_id u -> y = x) us us'
      /\ u_password u' = u_password u /\ u_isVerified u' = u_isVerified u
      /\ match u_lockUntil u with
         | Some lockUntil =>
             if lockUntil <? now
             then u_loginAttempts u' = 1 /\ u_lockUntil u' = None
             else u_loginAttempts u' = u_loginAttempts u + 1
                  /\ u_lockUntil u'
                     = if 5 <=? u_loginAttempts u + 1
                       then Some (now + 7200000) else Some lockUntil
         | None =>
             u_loginAttempts u' = u_loginAttempts u + 1
             /\ u_lockUntil u'
                = if 5 <=? u_loginAttempts u + 1 then Some (now + 7200000) else None
         end.
Proof.
  intros compare now body us u Hnd Hf Hl Hc.
  exists (updateOne (u_id u) (incLoginAttempts now u) us), (incLoginAttempts now u u).
  split; [now apply login_wrong_password|].
  split; [apply findOne_updateOne; [exact Hnd|apply keeps_keys_inc|exact Hf]|].
  split; [apply updateOne_others|].
  unfold incLoginAttempts. rewrite Hl. unfold maxAttempts, lockTime. cbn [negb].
  rewrite andb_true_r.
  destruct (u_lockUntil u) as [lockUntil|] eqn:Hlock.
  - destruct (lockUntil <? now); [cbn; auto|].
    destruct (5 <=? u_loginAttempts u + 1); cbn; rewrite ?Hlock; auto.
  - destruct (5 <=? u_loginAttempts u + 1); cbn; rewrite ?Hlock; auto.
Qed.

(** Alice's lock ran out at 7205000; a wrong password a second later
    leaves her with one failed attempt and no lock. *)
Lemma login_with_wrong_password_example :
  let locked := set_lockUntil (Some 7205000) (set_loginAttempts 5 alice) in
  exists us' u',
    login bcrypt_compare 7206000 (alice_says "guess") [locked; bob]
    = (Err invalid_credentials, us')
    /\ findOne (alice_says "guess") us' = Some u'
    /\ u_loginAttempts u' = 1 /\ u_lockUntil u' = None.
Proof.
  intros locked.
  destruct (login_with_wrong_password bcrypt_compare 7206000 (alice_says "guess")
              [locked; bob] locked)
    as (us' & u' & Hrun & Hf & _ & _ & _ & Ha & Hlock).
  - apply (bool_decide_unpack _). vm_compute. exact I.
  - reflexivity.
  - reflexivity.
  - reflexivity.
  - exists us', u'. split; [exact Hrun|]. split; [exact Hf|]. split; [exact Ha|exact Hlock].
Defined.

End Accounts.

(* ===================================================================== *)
(** * Further properties: the stored orders                               *)
(* ===================================================================== *)

Section Keeps.

Context (K : list (string * string)).

Lemma keeps_ret {A} (a : A) (Q : A -> Prop) : Q a -> keeps K (ret a) Q.
Proof. intros HQ db r db' HK H. injection H as <- <-. auto. Qed.

Lemma keeps_throw {A} (e : ApiError) (Q : A -> Prop) : keeps K (throw e) Q.
Proof. intros db r db' HK H. injection H as <- <-. auto. Qed.

Lemma keeps_bind {A B} (m : M A) (k : A -> M B) (P : A -> Prop) (Q : B -> Prop) :
  keeps K m P -> (forall a, P a -> keeps K (k a) Q) -> keeps K (bind m k) Q.
Proof.
  intros Hm Hk db r db' HK. unfold bind.
  destruct (m db) as [[a|e] db1] eqn:Hrun.
  - destruct (Hm _ _ _ HK Hrun) as [HK1 HP]. intros H. exact (Hk a HP _ _ _ HK1 H).
  - destruct (Hm _ _ _ HK Hrun) as [HK1 _]. intros H. injection H as <- <-. auto.
Qed.

Lemma keeps_try_catch {A} (m : M A) (h : ApiError -> M A) (Q : A -> Prop) :
  keeps K m Q -> (forall e, keeps K (h e) Q) -> keeps K (try_catch m h) Q.
Proof.
  intros Hm Hh db r db' HK. unfold try_catch.
  destruct (m db) as [[a|e] db1] eqn:Hrun.
  - destruct (Hm _ _ _ HK Hrun) as [HK1 HQ]. intros H. injection H as <- <-. auto.
  - destruct (Hm _ _ _ HK Hrun) as [HK1 _]. intros H. exact (Hh e _ _ _ HK1 H).
Qed.

Lemma keeps_weaken {A} (m : M A) (P Q : A -> Prop) :
  keeps K m P -> (forall a, P a -> Q a) -> keeps K m Q.
Proof.
  intros Hm HPQ db r db' HK H. destruct (Hm _ _ _ HK H) as [HK1 HP].
  split; [exact HK1|]. destruct r; auto.
Qed.

Lemma keeps_for_of {A} (xs : list A) (body : A -> M unit) :
  (forall x, keeps K (body x) (fun _ => True)) ->
  keeps K (for_of xs body) (fun _ => True).
Proof.
  intros Hb. induction xs as [|x xs IH]; cbn [for_of].
  - now apply keeps_ret.
  - apply keeps_bind with (P := fun _ => True); [apply Hb|]. intros _ _. exact IH.
Qed.

(** A step that does not write orders. *)
Lemma keeps_frame {A} (m : M A) :
  (forall db, orders (snd (m db)) = orders db) -> keeps K m (fun _ => True).
Proof.
  intros Hm db r db' HK H. split; [|destruct r; exact I].
  unfold order_keys in *. pose proof (Hm db) as Ho. rewrite H in Ho. cbn in Ho.
  now rewrite Ho.
Qed.

Lemma keeps_get_db : keeps K get_db (fun db => order_keys db = K).
Proof. intros db r db' HK H. injection H as <- <-. auto. Qed.

Lemma keeps_access r : keeps K (access r) (fun _ => True).
Proof. destruct r; [now apply keeps_ret|apply keeps_throw]. Qed.

Lemma stored_loaded_from id db :
  order_keys db = K -> loaded_from K (OrderModel.stored id db).
Proof.
  intros HK. unfold loaded_from. destruct (OrderModel.stored id db) as [o|] eqn:Hst; [|exact I].
  apply stored_elem in Hst as [Hin _]. rewrite <- HK. unfold order_keys.
  apply list_elem_of_fmap. eauto.
Qed.

Lemma keeps_findById id : keeps K (OrderModel.findById id) (loaded_from K).
Proof.
  intros db r db' HK H. injection H as <- <-. split; [exact HK|].
  now apply stored_loaded_from.
Qed.

Lemma keeps_findById_value v : keeps K (findById_value v) (loaded_from K).
Proof.
  unfold findById_value. destruct (Json.asString v); [apply keeps_findById|].
  now apply keeps_ret.
Qed.

Lemma keeps_findOne_by_paymentId pid :
  keeps K (OrderModel.findOne_by_paymentId pid) (loaded_from K).
Proof.
  intros db r db' HK H. injection H as <- <-. split; [exact HK|].
  unfold loaded_from.
  destruct (List.find _ (orders db)) as [o|] eqn:Hf; [|exact I].
  apply List.find_some in Hf as [Hin _]. rewrite <- HK. unfold order_keys.
  apply list_elem_of_fmap. exists o. split; [reflexivity|]. now apply list_elem_of_In.
Qed.

(** Replacing a stored document by one with the same identity. *)
Lemma replace_keys o os :
  NoDup (map o_id os) -> order_key o ∈ map order_key os ->
  map order_key (OrderModel.replace o os) = map order_key os.
Proof.
  intros Hnd Hin. induction os as [|x xs IH]; cbn; [reflexivity|].
  cbn in Hnd. apply NoDup_cons in Hnd as [Hx Hnd].
  destruct (OrderModel.has_id (o_id o) x) eqn:Hid.
  - apply has_id_true in Hid. cbn. f_equal.
    cbn in Hin. apply elem_of_cons in Hin as [Heq|Hin]; [exact Heq|].
    exfalso. apply Hx. apply list_elem_of_fmap in Hin as (y & Hy & Hyin).
    apply list_elem_of_fmap. exists y. split; [|exact Hyin].
    unfold order_key in Hy. injection Hy as Hy _. congruence.
  - cbn. f_equal. apply IH; [exact Hnd|].
    cbn in Hin. apply elem_of_cons in Hin as [Heq|Hin]; [|exact Hin].
    apply has_id_false in Hid. unfold order_key in Heq. injection Heq as Heq _.
    congruence.
Qed.

Lemma keys_ok_ids db : order_keys db = K -> map fst K = map o_id (orders db).
Proof.
  intros <-. unfold order_keys. rewrite map_map. reflexivity.
Qed.

(** [order.save()] of a loaded order whose [_id] and number were not
    assigned to. *)
Lemma keeps_save now loaded cur :
  keys_ok K -> order_key loaded ∈ K -> order_key cur = order_key loaded ->
  keeps K (OrderModel.save now loaded cur)
    (fun saved => order_key saved = order_key loaded /\ o_items saved = o_items cur
                  /\ o_userId saved = o_userId cur
                  /\ o_payment saved = o_payment cur).
Proof.
  intros (Hnd & Hnum & _) Hin Hkey db r db' HK.
  assert (Hn : o_orderNumber cur <> "").
  { rewrite Forall_forall in Hnum. specialize (Hnum _ Hin).
    unfold order_key in Hkey. injection Hkey as _ Hk. cbn in Hnum. congruence. }
  rewrite save_unfold. cbv zeta. rewrite orderNumber_hook_numbered by exact Hn.
  intros H. injection H as <- <-.
  set (saved := OrderModel.statusHistory_hook now _ false cur).
  assert (Hs : order_key saved = order_key cur /\ o_items saved = o_items cur
               /\ o_userId saved = o_userId cur /\ o_payment saved = o_payment cur).
  { unfold saved, OrderModel.statusHistory_hook. destruct (_ && _); repeat split. }
  destruct Hs as (Hs1 & Hs2 & Hs3 & Hs4).
  split; [|rewrite Hs1; auto].
  unfold order_keys in *. cbn [orders with_orders].
  rewrite replace_keys; [exact HK| |].
  - rewrite <- (keys_ok_ids db HK). exact Hnd.
  - rewrite Hs1, Hkey. unfold order_keys in HK. now rewrite HK.
Qed.

Lemma keeps_decrement_stock item :
  keeps K (PaymentService.decrement_stock item) (fun _ => True).
Proof.
  apply keeps_frame. intros db. rewrite decrement_stock_cases.
  destruct (products db !! oi_productId item) as [p|]; [|reflexivity].
  destruct (p_stock_quantity p - oi_quantity item <? 0); reflexivity.
Qed.

Lemma keeps_restore items :
  keeps K (for_of items
             (fun item => ProductModel.findByIdAndUpdate_inc (oi_productId item)
                                                             (oi_quantity item)))
        (fun _ => True).
Proof. apply keeps_for_of. intros item. apply keeps_frame. reflexivity. Qed.

Lemma keeps_clear user :
  keeps K (CartModel.findOneAndUpdate_clear user) (fun _ => True).
Proof. apply keeps_frame. intros db. destruct user; reflexivity. Qed.

Lemma keeps_processSuccessfulPayment now order details :
  keys_ok K -> order_key order ∈ K ->
  keeps K (PaymentService.processSuccessfulPayment now order details) (fun _ => True).
Proof.
  intros Hok Hin. unfold PaymentService.processSuccessfulPayment.
  apply keeps_try_catch; [|intros e; apply keeps_throw].
  eapply keeps_bind; [apply keeps_save; [exact Hok|exact Hin|reflexivity]|].
  intros saved _.
  eapply keeps_bind; [apply keeps_for_of; intros item; apply keeps_decrement_stock|].
  intros _ _. eapply keeps_bind; [apply keeps_get_db|]. intros db _.
  eapply keeps_bind; [apply keeps_clear|]. intros _ _. now apply keeps_ret.
Qed.

Lemma keeps_verifyPayment env now user body :
  keys_ok K -> keeps K (verifyPayment env now user body) (fun _ => True).
Proof.
  intros Hok. unfold verifyPayment.
  eapply keeps_bind; [apply keeps_findById|]. intros [order|] Hin; [|apply keeps_throw].
  eapply keeps_bind; [apply keeps_get_db|]. intros db _.
  destruct (OrderModel.populated_user order db) as [owner|]; [|apply keeps_throw].
  destruct (negb (String.eqb owner user)); [apply keeps_throw|].
  destruct (negb (PaymentService.verifyPaymentSignature _ _ _ _)).
  - eapply keeps_bind; [apply keeps_save; [exact Hok|exact Hin|reflexivity]|].
    intros _ _. apply keeps_throw.
  - now apply keeps_processSuccessfulPayment.
Qed.

Lemma keeps_handlePaymentCaptured now payload :
  keys_ok K -> keeps K (handlePaymentCaptured now payload) (fun _ => True).
Proof.
  intros Hok. unfold handlePaymentCaptured.
  apply keeps_try_catch; [|intros e; now apply keeps_ret].
  eapply keeps_bind; [apply keeps_access|]. intros notes _.
  eapply keeps_bind; [apply keeps_access|]. intros orderId _.
  eapply keeps_bind; [apply keeps_findById_value|].
  intros [order|] Hin; [|now apply keeps_ret].
  destruct (bool_decide (pay_status (o_payment order) = completed)); [now apply keeps_ret|].
  eapply keeps_bind; [apply keeps_access|]. intros order_id _.
  eapply keeps_bind; [apply keeps_access|]. intros id _.
  eapply keeps_bind; [now apply keeps_processSuccessfulPayment|].
  intros _ _. now apply keeps_ret.
Qed.

Lemma keeps_handlePaymentFailed now payload :
  keys_ok K -> keeps K (handlePaymentFailed now payload) (fun _ => True).
Proof.
  intros Hok. unfold handlePaymentFailed.
  apply keeps_try_catch; [|intros e; now apply keeps_ret].
  eapply keeps_bind; [apply keeps_access|]. intros notes _.
  eapply keeps_bind; [apply keeps_access|]. intros orderId _.
  eapply keeps_bind; [apply keeps_findById_value|].
  intros [order|] Hin; [|now apply keeps_ret].
  eapply keeps_bind; [apply keeps_save; [exact Hok|exact Hin|reflexivity]|].
  intros _ _. now apply keeps_ret.
Qed.

Lemma keeps_handleRefundProcessed now payload :
  keys_ok K -> keeps K (handleRefundProcessed now payload) (fun _ => True).
Proof.
  intros Hok. unfold handleRefundProcessed.
  apply keeps_try_catch; [|intros e; now apply keeps_ret].
  eapply keeps_bind; [apply keeps_access|]. intros paymentId _.
  eapply keeps_bind; [apply keeps_findOne_by_paymentId|].
  intros [order|] Hin; [|now apply keeps_ret].
  eapply keeps_bind; [apply keeps_save; [exact Hok|exact Hin|reflexivity]|].
  intros _ _. now apply keeps_ret.
Qed.

Lemma keeps_handleWebhook env now webhookSignature webhookBody :
  keys_ok K ->
  keeps K (handleWebhook env now webhookSignature webhookBody) (fun _ => True).
Proof.
  intros Hok. unfold handleWebhook.
  destruct (negb (PaymentService.verifyWebhookSignature _ _ _)); [apply keeps_throw|].
  eapply keeps_bind; [apply keeps_access|]. intros event _.
  eapply keeps_bind; [apply keeps_access|]. intros payload0 _.
  eapply keeps_bind; [apply keeps_access|]. intros payment _.
  eapply keeps_bind; [apply keeps_access|]. intros payload _.
  assert (Hrefund : keeps K (refund <- access (Json.prop "refund" payload0) ;;
                             entity <- access (Json.prop "entity" refund) ;;
                             handleRefundProcessed now entity) (fun _ => True)).
  { eapply keeps_bind; [apply keeps_access|]. intros refund _.
    eapply keeps_bind; [apply keeps_access|]. intros entity _.
    now apply keeps_handleRefundProcessed. }
  pose proof (keeps_handlePaymentCaptured now payload Hok) as Hcap.
  pose proof (keeps_handlePaymentFailed now payload Hok) as Hfail.
  assert (Hret : keeps K (ret tt) (fun _ : unit => True)) by now apply keeps_ret.
  repeat match goal with
         | |- keeps _ (match ?x with _ => _ end) _ => destruct x
         end; assumption.
Qed.

Lemma keeps_initiateRefund gateway now orderId reason :
  keys_ok K -> keeps K (initiateRefund gateway now orderId reason) (fun _ => True).
Proof.
  intros Hok. unfold initiateRefund.
  eapply keeps_bind; [apply keeps_findById|]. intros [order|] Hin; [|apply keeps_throw].
  destruct (negb (bool_decide (pay_status (o_payment order) = completed)));
    [apply keeps_throw|].
  destruct (bool_decide (pay_status (o_payment order) = refunded)); [apply keeps_throw|].
  destruct (negb (truthy (pay_razorpayPaymentId (o_payment order)))); [apply keeps_throw|].
  eapply keeps_bind with (P := fun _ => True).
  { unfold PaymentService.initiateRefund.
    destruct (gateway _ _ _); [now apply keeps_ret|apply keeps_throw]. }
  intros refund _.
  eapply keeps_bind; [apply keeps_save; [exact Hok|exact Hin|reflexivity]|].
  intros saved _. eapply keeps_bind; [apply keeps_restore|].
  intros _ _. now apply keeps_ret.
Qed.

Lemma keeps_cancelOrder now user id reason :
  keys_ok K -> keeps K (cancelOrder now user id reason) (fun _ => True).
Proof.
  intros Hok. unfold cancelOrder.
  eapply keeps_bind; [apply keeps_findById|]. intros [order|] Hin; [|apply keeps_throw].
  destruct (negb (String.eqb (o_userId order) user)); [apply keeps_throw|].
  assert (Hgo : keeps K
            (saved <- OrderModel.save now order
                        (set_cancellationReason
                           (or_else reason (Some "Cancelled by customer"))
                           (set_status cancelled order)) ;;
             (if bool_decide (pay_status (o_payment saved) = completed)
              then for_of (o_items saved)
                     (fun item => ProductModel.findByIdAndUpdate_inc (oi_productId item)
                                                                     (oi_quantity item))
              else ret tt) ;;;
             ret saved) (fun _ => True)).
  { eapply keeps_bind; [apply keeps_save; [exact Hok|exact Hin|reflexivity]|].
    intros saved _. eapply keeps_bind with (P := fun _ => True).
    - destruct (bool_decide _); [apply keeps_restore|now apply keeps_ret].
    - intros _ _. now apply keeps_ret. }
  destruct (o_status order); first [apply keeps_throw|exact Hgo].
Qed.

Lemma keeps_updateOrderStatus now admin id body :
  keys_ok K -> keeps K (updateOrderStatus now admin id body) (fun _ => True).
Proof.
  intros Hok. unfold updateOrderStatus.
  destruct (sb_status body) as [status|]; [|apply keeps_throw].
  eapply keeps_bind; [apply keeps_findById|]. intros [order|] Hin; [|apply keeps_throw].
  cbv zeta.
  eapply keeps_bind with (P := fun _ => True).
  - destruct (bool_decide (status = confirmed) && bool_decide (o_status order = pending));
      [|now apply keeps_ret].
    eapply keeps_bind; [apply keeps_for_of; intros item; apply keeps_decrement_stock|].
    intros _ _. eapply keeps_bind; [apply keeps_get_db|]. intros db _.
    destruct (OrderModel.populated_user order db); [apply keeps_clear|apply keeps_throw].
  - intros _ _. eapply keeps_weaken.
    + apply keeps_save; [exact Hok|exact Hin|].
      destruct (bool_decide (status = shipped) && _); reflexivity.
    + auto.
Qed.

Lemma keeps_createPaymentOrder gateway now user orderId :
  keys_ok K -> keeps K (createPaymentOrder gateway now user orderId) (fun _ => True).
Proof.
  intros Hok. unfold createPaymentOrder.
  eapply keeps_bind; [apply keeps_findById|]. intros [order|] Hin; [|apply keeps_throw].
  destruct (negb (String.eqb (o_userId order) user)); [apply keeps_throw|].
  destruct (bool_decide (pay_status (o_payment order) = completed)); [apply keeps_throw|].
  destruct (pay_method (o_payment order)); [|apply keeps_throw].
  eapply keeps_bind with (P := fun _ => True).
  { unfold createRazorpayOrder.
    destruct (gateway _); [now apply keeps_ret|apply keeps_throw]. }
  intros razorpayOrder _.
  eapply keeps_bind; [apply keeps_save; [exact Hok|exact Hin|reflexivity]|].
  intros saved _. now apply keeps_ret.
Qed.

End Keeps.

Lemma keeps_snd {A} K (m : M A) (Q : A -> Prop) db :
  keeps K m Q -> order_keys db = K -> order_keys (snd (m db)) = K.
Proof.
  intros Hm HK. destruct (m db) as [r db'] eqn:H. exact (proj1 (Hm _ _ _ HK H)).
Qed.

Lemma createOrder_err_frame now newId user body db e db' :
  createOrder now newId user body db = (Err e, db') ->
  products db' = products db /\ carts db' = carts db
  /\ users db' = users db /\ orders db' = orders db.
Proof.
  intros H. apply createOrder_outcome in H as (_ & [->|(t & res & Hc)]).
  - auto.
  - apply apply_coupon_frame in Hc as (Hp & Hca & Ho & Hu). auto.
Qed.

(** X22. No request deletes or renumbers an order.  Take a database in
    which order ids are unique and every order has a number of its own.
    After any order or payment request (checkout, cancellation, status
    update, payment intent, payment verification, webhook, refund) the
    same holds; the stored orders keep their ids and numbers, in the
    same positions; and only a checkout can add one, at the end. *)
Theorem shop_handler_keeps_orders :
  forall request db,
    orders_ok db ->
    fresh_id request db ->
    orders_ok (shop_handler request db)
    /\ order_keys db `prefix_of` order_keys (shop_handler request db)
    /\ match request with
       | ReqCreateOrder _ _ _ _ =>
           (length (orders (shop_handler request db)) <= S (length (orders db)))%nat
       | _ => order_keys (shop_handler request db) = order_keys db
       end.
Proof.
  intros request db Hok Hfresh.
  assert (Hsame : forall db', order_keys db' = order_keys db ->
                              orders_ok db' /\ order_keys db `prefix_of` order_keys db'
                              /\ order_keys db' = order_keys db).
  { intros db' Heq. unfold orders_ok. rewrite Heq. auto. }
  destruct request as [now newId user body|now user id reason|now admin id body
                      |gateway now user orderId|env now user body
                      |env now webhookSignature webhookBody|gateway now orderId reason];
    cbn [shop_handler fresh_id] in *.
  2:{ apply Hsame. eapply keeps_snd; [now apply keeps_cancelOrder|reflexivity]. }
  2:{ apply Hsame. eapply keeps_snd; [now apply keeps_updateOrderStatus|reflexivity]. }
  2:{ apply Hsame. eapply keeps_snd; [now apply keeps_createPaymentOrder|reflexivity]. }
  2:{ apply Hsame. eapply keeps_snd; [now apply keeps_verifyPayment|reflexivity]. }
  2:{ apply Hsame. eapply keeps_snd; [now apply keeps_handleWebhook|reflexivity]. }
  2:{ apply Hsame. eapply keeps_snd; [now apply keeps_initiateRefund|reflexivity]. }
  destruct (createOrder now newId user body db) as [[order|e] db'] eqn:Hrun; cbn [snd].
  - apply createOrder_outcome in Hrun as ((e & He) & _). discriminate He.
  - apply createOrder_err_frame in Hrun as (_ & _ & _ & Ho).
    assert (Heq : order_keys db' = order_keys db) by (unfold order_keys; now rewrite Ho).
    destruct (Hsame db' Heq) as (H1 & H2 & _). split; [exact H1|]. split; [exact H2|].
    rewrite Ho. lia.
Qed.

(** The webhook of the scenario, and a third checkout. *)
Lemma shop_handler_example :
  orders_ok Scenario.db2
  /\ order_keys (shop_handler
                   (ReqWebhook Scenario.env Scenario.now (Scenario.signed Scenario.captured)
                               (BodyParsed Scenario.captured))
                   Scenario.db2)
     = order_keys Scenario.db2
  /\ orders_ok (shop_handler
                  (ReqCreateOrder (Scenario.now + 1) "o3" "u1" Scenario.checkout)
                  Scenario.db2).
Proof.
  assert (Hok : orders_ok Scenario.db2).
  { split; [|split]; apply (bool_decide_unpack _); vm_compute; exact I. }
  split; [exact Hok|]. split.
  - destruct (shop_handler_keeps_orders
                (ReqWebhook Scenario.env Scenario.now (Scenario.signed Scenario.captured)
                            (BodyParsed Scenario.captured))
                Scenario.db2 Hok I) as (_ & _ & H).
    exact H.
  - destruct (shop_handler_keeps_orders
                (ReqCreateOrder (Scenario.now + 1) "o3" "u1" Scenario.checkout)
                Scenario.db2 Hok) as (H & _).
    + apply (bool_decide_unpack _). vm_compute. exact I.
    + exact H.
Defined.

(* ===================================================================== *)
(** * Further properties: what the webhook answers                        *)
(* ===================================================================== *)

(** The [switch (event)] of [handleWebhook]. *)
Lemma dispatch_cases {A} (event : option JSON) (a b c d : A) :
  let chosen := match event with
                | Some (JStr "payment.captured") => a
                | Some (JStr "payment.failed") => b
                | Some (JStr "refund.processed") => c
                | _ => d
                end in
  (event = Some (JStr "payment.captured") /\ chosen = a)
  \/ (event = Some (JStr "payment.failed") /\ chosen = b)
  \/ (event = Some (JStr "refund.processed") /\ chosen = c)
  \/ (event <> Some (JStr "payment.captured") /\ event <> Some (JStr "payment.failed")
      /\ event <> Some (JStr "refund.processed") /\ chosen = d).
Proof.
  cbv zeta.
  repeat match goal with
         | |- context [match ?x with _ => _ end] => destruct x
         end;
    first [ left; split; reflexivity
          | right; left; split; reflexivity
          | right; right; left; split; reflexivity
          | right; right; right;
            split; [discriminate|split; [discriminate|split; [discriminate|reflexivity]]] ].
Qed.

Lemma handlePaymentCaptured_answers now payload db :
  exists db', handlePaymentCaptured now payload db = (Ok tt, db').
Proof.
  unfold handlePaymentCaptured, try_catch.
  match goal with |- context [match ?m db with _ => _ end] => destruct (m db) as [[[]|e] db1] end;
    eauto.
Qed.

Lemma handlePaymentFailed_answers now payload db :
  exists db', handlePaymentFailed now payload db = (Ok tt, db').
Proof.
  unfold handlePaymentFailed, try_catch.
  match goal with |- context [match ?m db with _ => _ end] => destruct (m db) as [[[]|e] db1] end;
    eauto.
Qed.

Lemma handleRefundProcessed_answers now payload db :
  exists db', handleRefundProcessed now payload db = (Ok tt, db').
Proof.
  unfold handleRefundProcessed, try_catch.
  match goal with |- context [match ?m db with _ => _ end] => destruct (m db) as [[[]|e] db1] end;
    eauto.
Qed.

(** X23. Once the signature of a webhook is accepted and
    [payload.payment.entity] can be read (and, for [refund.processed],
    [payload.refund.entity]), the answer is a success whatever the event
    says: an unknown order, missing notes or a failure while the payment
    is processed are swallowed by the handlers, so the gateway sees
    nothing to retry.  An event of any other kind changes nothing. *)
Theorem handleWebhook_acknowledges :
  forall env now webhookSignature webhookBody db event payload0 payment payload,
    PaymentService.verifyWebhookSignature env webhookBody webhookSignature = true ->
    Json.body_prop "event" webhookBody = Some event ->
    Json.body_prop "payload" webhookBody = Some payload0 ->
    Json.prop "payment" payload0 = Some payment ->
    Json.prop "entity" payment = Some payload ->
    (event = Some (JStr "refund.processed") ->
     exists refund entity,
       Json.prop "refund" payload0 = Some refund
       /\ Json.prop "entity" refund = Some entity) ->
    exists db',
      handleWebhook env now webhookSignature webhookBody db = (Ok tt, db')
      /\ (event <> Some (JStr "payment.captured") ->
          event <> Some (JStr "payment.failed") ->
          event <> Some (JStr "refund.processed") ->
          db' = db).
Proof.
  intros env now webhookSignature webhookBody db event payload0 payment payload
         Hsig Hevent Hpayload Hpayment Hentity Hrefund.
  unfold handleWebhook. rewrite Hsig. cbn [negb].
  unfold bind at 1. rewrite Hevent. unfold access at 1, ret at 1.
  unfold bind at 1. rewrite Hpayload. unfold access at 1, ret at 1.
  unfold bind at 1. rewrite Hpayment. unfold access at 1, ret at 1.
  unfold bind at 1. rewrite Hentity. unfold access at 1, ret at 1.
  destruct (dispatch_cases event
              (handlePaymentCaptured now payload)
              (handlePaymentFailed now payload)
              (refund <- access (Json.prop "refund" payload0) ;;
               entity <- access (Json.prop "entity" refund) ;;
               handleRefundProcessed now entity)
              (ret tt))
    as [[He ->]|[[He ->]|[[He ->]|(H1 & H2 & H3 & ->)]]].
  - destruct (handlePaymentCaptured_answers now payload db) as [db' H].
    exists db'. split; [exact H|]. intros Hn. contradiction.
  - destruct (handlePaymentFailed_answers now payload db) as [db' H].
    exists db'. split; [exact H|]. intros _ Hn. contradiction.
  - destruct (Hrefund He) as (refund & entity & Hr & Hre).
    destruct (handleRefundProcessed_answers now entity db) as [db' H].
    exists db'. split; [|intros _ _ Hn; contradiction].
    unfold bind. rewrite Hr. unfold access at 1, ret at 1.
    rewrite Hre. unfold access at 1, ret at 1. exact H.
  - exists db. split; [reflexivity|]. auto.
Qed.

(** A [payment.captured] event for an order that does not exist is
    acknowledged and changes nothing. *)
Lemma handleWebhook_unknown_order_example :
  let event :=
    JObj [ ("event", JStr "payment.captured");
           ("payload",
            JObj [ ("payment",
                    JObj [ ("entity",
                            JObj [ ("id", JStr "pay_9");
                                   ("notes", JObj [ ("orderId", JStr "o9") ]) ]) ]) ]) ] in
  handleWebhook Scenario.env Scenario.now (Scenario.signed event) (BodyParsed event)
    Scenario.db2
  = (Ok tt, Scenario.db2)
  /\ exists db',
       handleWebhook Scenario.env Scenario.now (Scenario.signed event) (BodyParsed event)
         Scenario.db2
       = (Ok tt, db').
Proof.
  intros event. split; [vm_compute; reflexivity|].
  destruct (handleWebhook_acknowledges Scenario.env Scenario.now (Scenario.signed event)
              (BodyParsed event) Scenario.db2
              (Some (JStr "payment.captured"))
              (Json.assoc "payload" [ ("event", JStr "payment.captured");
                 ("payload",
                  JObj [ ("payment",
                          JObj [ ("entity",
                                  JObj [ ("id", JStr "pay_9");
                                         ("notes", JObj [ ("orderId", JStr "o9") ]) ]) ]) ]) ])
              (Some (JObj [ ("entity",
                             JObj [ ("id", JStr "pay_9");
                                    ("notes", JObj [ ("orderId", JStr "o9") ]) ]) ]))
              (Some (JObj [ ("id", JStr "pay_9");
                            ("notes", JObj [ ("orderId", JStr "o9") ]) ])))
    as (db' & Hrun & _).
  - vm_compute. reflexivity.
  - reflexivity.
  - reflexivity.
  - reflexivity.
  - reflexivity.
  - intros H. discriminate H.
  - exists db'. exact Hrun.
Defined.

(* ===================================================================== *)
(** * Further properties: the sanitization middleware                     *)
(* ===================================================================== *)

(** Induction on parsed values, through arrays and objects. *)
Lemma JSON_nested_ind (P : JSON -> Prop) :
  P JNull -> (forall b, P (JBool b)) -> (forall n, P (JNum n)) -> (forall s, P (JStr s)) ->
  (forall xs, Forall P xs -> P (JArr xs)) ->
  (forall kvs, Forall (fun kv => P (snd kv)) kvs -> P (JObj kvs)) ->
  forall v, P v.
Proof.
  intros Hnull Hbool Hnum Hstr Harr Hobj. fix IH 1. intros [|b|n|s|xs|kvs].
  - exact Hnull.
  - apply Hbool.
  - apply Hnum.
  - apply Hstr.
  - apply Harr. induction xs as [|x xs IHxs]; constructor; [apply IH|exact IHxs].
  - apply Hobj. induction kvs as [|[k x] kvs IHkvs]; constructor; [apply IH|exact IHkvs].
Qed.

Section Escaping.

Import Sanitize.

Lemma append_cons c (a b : string) : String c a +:+ b = String c (a +:+ b).
Proof. reflexivity. Qed.

Lemma append_empty (b : string) : EmptyString +:+ b = b.
Proof. reflexivity. Qed.

Lemma string_append_assoc (a b c : string) : (a +:+ b) +:+ c = a +:+ (b +:+ c).
Proof.
  induction a as [|x a IH]; [reflexivity|]. rewrite !append_cons. now rewrite IH.
Qed.

Lemma replace_char_app c r a b :
  replace_char c r (a +:+ b) = replace_char c r a +:+ replace_char c r b.
Proof.
  induction a as [|x a IH]; [reflexivity|].
  rewrite append_cons. cbn [replace_char].
  rewrite IH. destruct (Ascii.eqb x c); [|reflexivity].
  symmetry. apply string_append_assoc.
Qed.

Lemma escape_html_cons c s :
  escape_html (String c s) = escape_one c +:+ escape_html s.
Proof.
  unfold escape_html, escape_one.
  change (String c s) with (String c EmptyString +:+ s).
  rewrite !replace_char_app. f_equal.
  destruct (Ascii.eqb_spec c "<") as [->|H1]; [reflexivity|].
  destruct (Ascii.eqb_spec c ">") as [->|H2]; [reflexivity|].
  destruct (Ascii.eqb_spec c Json.dquote) as [->|H3]; [reflexivity|].
  destruct (Ascii.eqb_spec c "'") as [->|H4]; [reflexivity|].
  destruct (Ascii.eqb_spec c "/") as [->|H5]; [reflexivity|].
  apply Ascii.eqb_neq in H1, H2, H3, H4, H5.
  cbn [replace_char]. rewrite H1. cbn [replace_char]. rewrite H2.
  cbn [replace_char]. rewrite H3. cbn [replace_char]. rewrite H4.
  cbn [replace_char]. rewrite H5. reflexivity.
Qed.

Lemma plain_app a b : plain (a +:+ b) = plain a && plain b.
Proof.
  induction a as [|c a IH]; [reflexivity|].
  rewrite append_cons. cbn [plain]. rewrite IH. now rewrite andb_assoc.
Qed.

Lemma escape_one_plain c : plain (escape_one c) = true.
Proof.
  unfold escape_one.
  destruct (Ascii.eqb c "<") eqn:H1; [reflexivity|].
  destruct (Ascii.eqb c ">") eqn:H2; [reflexivity|].
  destruct (Ascii.eqb c Json.dquote) eqn:H3; [reflexivity|].
  destruct (Ascii.eqb c "'") eqn:H4; [reflexivity|].
  destruct (Ascii.eqb c "/") eqn:H5; [reflexivity|].
  cbn [plain]. unfold markup. now rewrite H1, H2, H3, H4, H5.
Qed.

(** After the five passes none of the five characters is left. *)
Lemma escape_html_plain s : plain (escape_html s) = true.
Proof.
  induction s as [|c s IH]; [reflexivity|].
  now rewrite escape_html_cons, plain_app, escape_one_plain, IH.
Qed.

(** A string without them is not changed. *)
Lemma escape_html_id s : plain s = true -> escape_html s = s.
Proof.
  induction s as [|c s IH]; [reflexivity|]. cbn [plain]. intros H.
  apply andb_prop in H as [Hc Hs]. rewrite escape_html_cons, (IH Hs).
  unfold escape_one. unfold markup in Hc. apply negb_true_iff in Hc.
  apply orb_false_elim in Hc as [Hc H5]. apply orb_false_elim in Hc as [Hc H4].
  apply orb_false_elim in Hc as [Hc H3]. apply orb_false_elim in Hc as [H1 H2].
  now rewrite H1, H2, H3, H4, H5.
Qed.

End Escaping.

Section Sanitized.

Import Sanitize.

Lemma sanitize_arr xs : sanitize (JArr xs) = JArr (map sanitize_value xs).
Proof. reflexivity. Qed.

Lemma sanitize_obj kvs : sanitize (JObj kvs) = JObj (sanitize_properties kvs).
Proof. reflexivity. Qed.

Lemma sanitize_properties_cons key x rest :
  sanitize_properties ((key, x) :: rest)
  = if blocked key then sanitize_properties rest
    else (key, sanitize_value x) :: sanitize_properties rest.
Proof. unfold sanitize_properties. cbn. destruct (blocked key); reflexivity. Qed.

Lemma no_markup_inside_sanitize x :
  no_markup (sanitize x) = true -> no_markup_inside (sanitize_value x) = true.
Proof.
  destruct x; try exact (fun H => H).
  intros _. cbn. apply escape_html_plain.
Qed.

Lemma no_blocked_key_value x :
  no_blocked_key (sanitize x) = true -> no_blocked_key (sanitize_value x) = true.
Proof. destruct x; auto. Qed.

Lemma sanitize_clean v :
  no_blocked_key (sanitize v) = true /\ no_markup (sanitize v) = true.
Proof.
  induction v as [|b|n|s|xs IH|kvs IH] using JSON_nested_ind; try (split; reflexivity).
  - rewrite sanitize_arr. cbn [no_blocked_key no_markup no_markup_inside].
    induction IH as [|x xs [Hk Hm] _ IHxs]; [split; reflexivity|].
    cbn [map forallb]. destruct IHxs as [-> ->].
    now rewrite no_blocked_key_value, no_markup_inside_sanitize.
  - rewrite sanitize_obj. cbn [no_blocked_key no_markup no_markup_inside].
    induction IH as [|[key x] kvs [Hk Hm] _ IHkvs]; [split; reflexivity|].
    rewrite sanitize_properties_cons. destruct (blocked key) eqn:Hb; [exact IHkvs|].
    cbn [forallb fst snd]. destruct IHkvs as [-> ->]. rewrite Hb.
    cbn in Hk, Hm. now rewrite no_blocked_key_value, no_markup_inside_sanitize.
Qed.

Lemma middleware_clean_helper req : clean_request (middleware req).
Proof.
  unfold clean_request, middleware. cbn [req_body req_query req_params].
  repeat constructor; apply sanitize_clean.
Qed.

(** X24. What the sanitization middleware guarantees the handlers: in
    the body, the query and the parameters of the request no object, at
    any depth, has a key that starts with a dollar sign or contains a
    dot, and no string that is the value of a property or an element of
    an array, at any depth, contains one of the characters
    less-than, greater-than, double quote, single quote and slash. *)
Theorem middleware_output_is_clean :
  forall req, clean_request (middleware req).
Proof.
  intros req. unfold clean_request, middleware. cbn [req_body req_query req_params].
  repeat constructor; apply sanitize_clean.
Qed.

Lemma sanitize_value_id x :
  (no_blocked_key x = true -> no_markup x = true -> sanitize x = x) ->
  no_blocked_key x = true -> no_markup_inside x = true -> sanitize_value x = x.
Proof.
  destruct x; try (intros H Hk Hm; apply H; assumption).
  intros _ _ Hm. cbn. f_equal. now apply escape_html_id.
Qed.

Lemma sanitize_id v :
  no_blocked_key v = true -> no_markup v = true -> sanitize v = v.
Proof.
  induction v as [|b|n|s|xs IH|kvs IH] using JSON_nested_ind; try reflexivity.
  - rewrite sanitize_arr. cbn [no_blocked_key no_markup no_markup_inside].
    intros Hk Hm. f_equal.
    induction IH as [|x xs Hx _ IHxs]; [reflexivity|].
    cbn [forallb] in Hk, Hm. apply andb_prop in Hk as [Hk1 Hk2].
    apply andb_prop in Hm as [Hm1 Hm2].
    cbn [map]. rewrite sanitize_value_id by assumption. f_equal. now apply IHxs.
  - rewrite sanitize_obj. cbn [no_blocked_key no_markup no_markup_inside].
    intros Hk Hm. f_equal.
    induction IH as [|[key x] kvs Hx _ IHkvs]; [reflexivity|].
    cbn [forallb fst snd] in Hk, Hm. apply andb_prop in Hk as [Hk1 Hk2].
    apply andb_prop in Hk1 as [Hb Hk1]. apply negb_true_iff in Hb.
    apply andb_prop in Hm as [Hm1 Hm2].
    rewrite sanitize_properties_cons, Hb.
    rewrite sanitize_value_id by assumption. f_equal. now apply IHkvs.
Qed.

(** X25. The middleware leaves a clean request as it is, and so running
    it a second time changes nothing. *)
Theorem middleware_fixes_clean_requests :
  forall req,
    (clean_request req -> middleware req = req)
    /\ middleware (middleware req) = middleware req.
Proof.
  assert (H : forall req, clean_request req -> middleware req = req).
  { intros [body query params] Hc. unfold clean_request in Hc.
    cbn [req_body req_query req_params] in Hc.
    inversion Hc as [|? ? [Hb1 Hb2] Hc1]; subst.
    inversion Hc1 as [|? ? [Hq1 Hq2] Hc2]; subst.
    inversion Hc2 as [|? ? [Hp1 Hp2] _]; subst.
    unfold middleware. cbn [req_body req_query req_params].
    now rewrite !sanitize_id. }
  intros req. split; [apply H|]. apply H. apply middleware_clean_helper.
Qed.

End Sanitized.

(** A login body with an operator object for the password and markup in
    a name; and a request that is clean already. *)
Lemma middleware_example :
  let dirty :=
    Sanitize.mkRequest
      (JObj [ ("email", JStr "a@b.in");
              ("password", JObj [ ("$ne", JStr "x") ]);
              ("profile.role", JStr "admin");
              ("name", JStr "<b>Ann</b>") ])
      (JObj [ ("tags", JArr [JStr "a/b"; JNum 1]) ]) (JObj []) in
  let clean :=
    Sanitize.mkRequest
      (JObj [ ("email", JStr "a@b.in");
              ("password", JObj []);
              ("name", JStr "&lt;b&gt;Ann&lt;&#x2F;b&gt;") ])
      (JObj [ ("tags", JArr [JStr "a&#x2F;b"; JNum 1]) ]) (JObj []) in
  Sanitize.middleware dirty = clean
  /\ clean_request clean
  /\ Sanitize.middleware clean = clean.
Proof.
  intros dirty clean.
  assert (Hc : clean_request clean) by (repeat constructor).
  split; [reflexivity|]. split; [exact Hc|].
  exact (proj1 (middleware_fixes_clean_requests clean) Hc).
Defined.

(* ===================================================================== *)
(** * Further properties: product slugs                                   *)
(* ===================================================================== *)

Section Slugs.

Import Slug.

Lemma alnum_not_dash c : alnum c = true -> Ascii.eqb c "-" = false.
Proof.
  intros H. apply Ascii.eqb_neq. intros ->. discriminate H.
Qed.

Lemma replace_runs_body p s : slug_body p (replace_runs p s) = true.
Proof.
  revert p. induction s as [|c s IH]; intros p; [reflexivity|].
  cbn [replace_runs]. destruct (alnum c) eqn:Ha.
  - cbn [slug_body]. now rewrite (alnum_not_dash c Ha), Ha, IH.
  - destruct p; [apply IH|]. cbn [slug_body]. rewrite IH. reflexivity.
Qed.

Lemma slug_body_start s :
  slug_body false s = true -> slug_body true (strip_start s) = true.
Proof.
  destruct s as [|c s]; [reflexivity|]. cbn [slug_body].
  destruct (Ascii.eqb_spec c "-") as [->|Hc].
  - cbn. intros H. exact H.
  - intros H.
    assert (Hs : strip_start (String c s) = String c s).
    { destruct c as [[] [] [] [] [] [] [] []]; try reflexivity. now contradict Hc. }
    rewrite Hs. cbn [slug_body]. apply Ascii.eqb_neq in Hc. now rewrite Hc.
Qed.

Lemma strip_end_cons c s :
  strip_end (String c s)
  = match s with
    | EmptyString => if Ascii.eqb c "-" then EmptyString else String c EmptyString
    | _ => String c (strip_end s)
    end.
Proof. destruct s; reflexivity. Qed.

(** Cutting the dash at the end of a body leaves nothing, or a slug. *)
Lemma slug_body_end p s :
  slug_body p s = true ->
  strip_end s = EmptyString \/ slug_tail p (strip_end s) = true.
Proof.
  revert p. induction s as [|c s IH]; intros p; [left; reflexivity|].
  cbn [slug_body]. rewrite strip_end_cons.
  destruct (Ascii.eqb c "-") eqn:Hc.
  - intros H. apply andb_prop in H as [Hp H].
    destruct s as [|c' s']; [left; reflexivity|]. right.
    destruct (IH true H) as [He|Ht].
    + exfalso. rewrite strip_end_cons in He. cbn [slug_body] in H.
      destruct s'; [|discriminate].
      destruct (Ascii.eqb c' "-"); [discriminate H|discriminate He].
    + cbn [slug_tail]. now rewrite Hc, Hp, Ht.
  - intros H. apply andb_prop in H as [Ha H]. right.
    destruct s as [|c' s']; [cbn; now rewrite Hc, Ha|].
    destruct (IH false H) as [He|Ht].
    + rewrite He. cbn. now rewrite Hc, Ha.
    + cbn [slug_tail]. now rewrite Hc, Ha, Ht.
Qed.

Lemma slugify_is_slug name : is_slug (slugify name) = true.
Proof.
  unfold slugify.
  pose proof (replace_runs_body false (toLowerCase name)) as H.
  apply slug_body_start in H. apply slug_body_end in H as [->|H]; [reflexivity|].
  unfold is_slug. destruct (strip_end _); [reflexivity|exact H].
Qed.

(** X26. The slug the save hook derives from a product name is empty or
    made of words of lower-case letters and digits joined by single
    dashes: no other character, no dash at the start or the end, no two
    dashes in a row. *)
Theorem slugify_gives_a_slug :
  forall name, is_slug (Slug.slugify name) = true.
Proof.
  intros name. unfold slugify.
  pose proof (replace_runs_body false (toLowerCase name)) as H.
  apply slug_body_start in H. apply slug_body_end in H as [->|H]; [reflexivity|].
  unfold is_slug. destruct (strip_end _); [reflexivity|exact H].
Qed.

Lemma alnum_lower c : alnum c = true -> lower_char c = c.
Proof.
  unfold alnum, lower_char. intros H.
  destruct ((65 <=? N_of_ascii c) && (N_of_ascii c <=? 90))%N eqn:Hu; [|reflexivity].
  exfalso. apply andb_prop in Hu as [H1 H2].
  apply N.leb_le in H1, H2.
  apply orb_prop in H as [H|H]; apply andb_prop in H as [H3 H4];
    apply N.leb_le in H3, H4; lia.
Qed.

Lemma slug_tail_body p s : slug_tail p s = true -> slug_body p s = true.
Proof.
  revert p. induction s as [|c s IH]; intros p; [reflexivity|].
  cbn [slug_tail slug_body]. destruct (Ascii.eqb c "-").
  - intros H. apply andb_prop in H as [-> H]. now rewrite (IH _ H).
  - intros H. apply andb_prop in H as [-> H]. now rewrite (IH _ H).
Qed.

Lemma slug_body_lower p s : slug_body p s = true -> toLowerCase s = s.
Proof.
  revert p. induction s as [|c s IH]; intros p; [reflexivity|].
  cbn [slug_body toLowerCase]. destruct (Ascii.eqb_spec c "-") as [->|Hc].
  - intros H. apply andb_prop in H as [_ H]. now rewrite (IH _ H).
  - intros H. apply andb_prop in H as [Ha H]. now rewrite (alnum_lower c Ha), (IH _ H).
Qed.

Lemma slug_body_runs p s : slug_body p s = true -> replace_runs p s = s.
Proof.
  revert p. induction s as [|c s IH]; intros p; [reflexivity|].
  cbn [slug_body replace_runs]. destruct (Ascii.eqb_spec c "-") as [->|Hc].
  - intros H. apply andb_prop in H as [Hp H]. apply negb_true_iff in Hp. subst p.
    cbn. now rewrite (IH _ H).
  - intros H. apply andb_prop in H as [Ha H]. now rewrite Ha, (IH _ H).
Qed.

Lemma slug_tail_end p s : slug_tail p s = true -> strip_end s = s.
Proof.
  revert p. induction s as [|c s IH]; intros p; [reflexivity|].
  rewrite strip_end_cons. cbn [slug_tail]. destruct (Ascii.eqb c "-") eqn:Hc.
  - intros H. apply andb_prop in H as [_ H].
    destruct s; [discriminate H|]. now rewrite (IH _ H).
  - intros H. apply andb_prop in H as [_ H].
    destruct s; [reflexivity|]. now rewrite (IH _ H).
Qed.

Lemma is_slug_fixed s : is_slug s = true -> slugify s = s.
Proof.
  destruct s as [|c s]; [reflexivity|]. unfold is_slug. intros H.
  pose proof (slug_tail_body _ _ H) as Hb.
  unfold slugify. rewrite (slug_body_lower _ _ Hb).
  assert (Hf : slug_body false (String c s) = true).
  { cbn [slug_body] in *. destruct (Ascii.eqb c "-"); [discriminate Hb|exact Hb]. }
  rewrite (slug_body_runs _ _ Hf).
  assert (Hs : strip_start (String c s) = String c s).
  { cbn [slug_body] in Hb. destruct (Ascii.eqb_spec c "-") as [->|Hc]; [discriminate Hb|].
    destruct c as [[] [] [] [] [] [] [] []]; try reflexivity. now contradict Hc. }
  rewrite Hs. exact (slug_tail_end _ _ H).
Qed.

(** X27. A name that is a slug already is its own slug, so deriving the
    slug of a slug changes nothing. *)
Theorem slugify_fixes_slugs :
  forall name,
    (is_slug name = true -> Slug.slugify name = name)
    /\ Slug.slugify (Slug.slugify name) = Slug.slugify name.
Proof.
  intros name. split; [apply is_slug_fixed|].
  apply is_slug_fixed, slugify_is_slug.
Qed.

Lemma slugify_example :
  Slug.slugify "  Silver Ring (92.5%) -- NEW!  " = "silver-ring-92-5-new"
  /\ is_slug "silver-ring-92-5-new" = true
  /\ Slug.slugify "silver-ring-92-5-new" = "silver-ring-92-5-new".
Proof.
  split; [reflexivity|]. split; [reflexivity|].
  exact (proj1 (slugify_fixes_slugs "silver-ring-92-5-new") eq_refl).
Defined.

End Slugs.

(* ===================================================================== *)
(** * Further properties: the form of a signature                         *)
(* ===================================================================== *)

Section Digests.

Import Crypto.

Lemma round_length st kw : length st = 8%nat -> length (round st kw) = 8%nat.
Proof.
  intros H. destruct st as [|a [|b [|c [|d [|e [|f [|g [|h [|]]]]]]]]]; try discriminate H.
  reflexivity.
Qed.

Lemma rounds_length kws st :
  length st = 8%nat -> length (fold_left round kws st) = 8%nat.
Proof.
  revert st. induction kws as [|kw kws IH]; intros st H; [exact H|].
  cbn [fold_left]. apply IH. now apply round_length.
Qed.

Lemma compress_length h block : length h = 8%nat -> length (compress h block) = 8%nat.
Proof.
  intros H. unfold compress. rewrite length_map, length_combine.
  rewrite rounds_length by exact H. rewrite H. reflexivity.
Qed.

Lemma compress_all_length bs h :
  length h = 8%nat -> length (fold_left compress bs h) = 8%nat.
Proof.
  revert h. induction bs as [|b bs IH]; intros h H; [exact H|].
  cbn [fold_left]. apply IH. now apply compress_length.
Qed.

Lemma be_bytes_length n x : length (be_bytes n x) = n.
Proof. induction n as [|n IH]; cbn [be_bytes length]; [reflexivity|]. now rewrite IH. Qed.

Lemma be_bytes_range n x : Forall (fun b => 0 <= b < 256) (be_bytes n x).
Proof.
  induction n as [|n IH]; cbn [be_bytes]; constructor; [|exact IH].
  apply Z.mod_pos_bound. lia.
Qed.

Lemma digest_bytes hs :
  length (concat (map (be_bytes 4) hs)) = (4 * length hs)%nat
  /\ Forall (fun b => 0 <= b < 256) (concat (map (be_bytes 4) hs)).
Proof.
  induction hs as [|h hs [IHl IHr]]; [split; [reflexivity|constructor]|].
  cbn [map concat]. split.
  - rewrite length_app, be_bytes_length, IHl. cbn [length]. lia.
  - apply Forall_app. split; [apply be_bytes_range|exact IHr].
Qed.

Lemma sha256_bytes msg :
  length (sha256 msg) = 32%nat /\ Forall (fun b => 0 <= b < 256) (sha256 msg).
Proof.
  unfold sha256. cbv zeta.
  destruct (digest_bytes (fold_left compress
              (blocks (length (words (length (pad msg)) (pad msg)))
                      (words (length (pad msg)) (pad msg))) H0)) as [Hl Hr].
  split; [|exact Hr]. rewrite Hl, compress_all_length; reflexivity.
Qed.

Lemma hex_digit_char d : 0 <= d < 16 -> hex_char (hex_digit d) = true.
Proof.
  intros H.
  assert (Hd : d = 0 \/ d = 1 \/ d = 2 \/ d = 3 \/ d = 4 \/ d = 5 \/ d = 6 \/ d = 7
               \/ d = 8 \/ d = 9 \/ d = 10 \/ d = 11 \/ d = 12 \/ d = 13 \/ d = 14
               \/ d = 15) by lia.
  repeat (destruct Hd as [->|Hd]; [reflexivity|]). subst d. reflexivity.
Qed.

Lemma hex_form bs :
  Forall (fun b => 0 <= b < 256) bs ->
  String.length (hex bs) = (2 * length bs)%nat /\ all_chars hex_char (hex bs) = true.
Proof.
  induction 1 as [|b bs Hb _ [IHl IHc]]; [split; reflexivity|].
  cbn [hex String.length all_chars length]. split; [rewrite IHl; lia|].
  rewrite IHc, !hex_digit_char; [reflexivity| |].
  - apply Z.mod_pos_bound. lia.
  - split; [apply Z.div_pos; lia|apply Z.div_lt_upper_bound; lia].
Qed.

Lemma hmac_hex_form key msg : digest_form (hmac_hex key msg).
Proof.
  unfold hmac_hex, hmac_sha256. cbv zeta.
  match goal with
  | |- digest_form (hex (sha256 ?m)) => destruct (sha256_bytes m) as [Hl Hr]
  end.
  destruct (hex_form _ Hr) as [Hh Hc]. split; [|exact Hc]. now rewrite Hh, Hl.
Qed.

(** X28. A signature is compared, as a string, with the HMAC in
    lower-case hexadecimal.  So whatever the key and the signed text,
    a payment signature or webhook signature that is accepted consists
    of exactly 64 lower-case hexadecimal digits: an empty signature, a
    signature in upper case or one of another length is refused. *)
Theorem accepted_signatures_are_hex_digests :
  forall env,
    (forall razorpayOrderId razorpayPaymentId razorpaySignature,
        PaymentService.verifyPaymentSignature env razorpayOrderId razorpayPaymentId
          razorpaySignature = true ->
        digest_form razorpaySignature)
    /\ (forall webhookBody webhookSignature,
          PaymentService.verifyWebhookSignature env webhookBody webhookSignature = true ->
          exists signature, webhookSignature = Some signature /\ digest_form signature).
Proof.
  intros env. split.
  - intros o p s H. unfold PaymentService.verifyPaymentSignature in H.
    apply String.eqb_eq in H. rewrite <- H. apply hmac_hex_form.
  - intros body [s|] H; unfold PaymentService.verifyWebhookSignature in H; [|discriminate H].
    apply String.eqb_eq in H. exists s. split; [reflexivity|]. rewrite <- H.
    apply hmac_hex_form.
Qed.

(** The signature of the scenario's payment, and the same in upper
    case. *)
Lemma accepted_signature_example :
  let body := Scenario.verify_body "o1" "order_1" "pay_1" in
  digest_form (vb_razorpaySignature body)
  /\ PaymentService.verifyPaymentSignature Scenario.env "order_1" "pay_1"
       (CouponModel.toUpperCase (vb_razorpaySignature body)) = false.
Proof.
  intros body. split; [|vm_compute; reflexivity].
  apply (proj1 (accepted_signatures_are_hex_digests Scenario.env) "order_1" "pay_1").
  vm_compute. reflexivity.
Defined.

End Digests.
(* ===================================================================== *)
(** * Further properties: stock at payment time                           *)
(* ===================================================================== *)







(* ===================================================================== *)
(** * Further properties: product ratings                                 *)
(* ===================================================================== *)


Section Ratings.

Import ReviewModel.







End Ratings.
